(** * Shechill Patisserie analysis pipeline: a shallow embedding

  The development follows the two analysis scripts of the repository:

  - [analysis/visualization_reports.py]: the weekday trimmer and the guards
    of [create_prophet_forecast], the panel loop of [create_grid_plots] and
    the file name of a grid plot;
  - [analysis/quantity_analysis.py]: [clean_item_names], the filters and the
    group-by of [create_quantity_pivot], the pivot and its column order.

  It goes on to [generate_basic_stats] and [parse_date_columns] of these
  scripts, to the plot list and the item page of [web/app.py], given the
  listing of the plot directory, and to the order processing and the summary
  of [square_sales_fetcher.py], given the orders the API returned.

  Quantities are item counts; they are modelled as integers ([Z]), on which
  the sums of the scripts are exact.  List positions are natural numbers.
  A Python [str] is a [string]: a character is its code point, which covers
  U+0000 to U+00FF, the range every name of the synonym table lies in.  Every
  cell of a transaction record is present. *)

From Stdlib Require Import List ZArith Lia Bool Arith PeanoNat.
From Stdlib Require Import Strings.String Strings.Ascii.
From Stdlib Require Import Sorting.Sorted Sorting.Permutation.
From Stdlib Require Import DecimalString DecimalFacts DecimalPos DecimalN DecimalZ.
Import ListNotations.

(* ================================================================== *)
(** ** Python strings, lists and sums, as the scripts use them             *)
(* ================================================================== *)

Module Py.

(** The code point of a character. *)
Definition ord (c : ascii) : nat := nat_of_ascii c.

Definition in_range (lo hi : nat) (c : ascii) : bool :=
  (lo <=? ord c) && (ord c <=? hi).

(** [c.isalnum()] on U+0000..U+00FF: ASCII digits and letters, the letters
    of Latin-1, and its numeric characters (superscripts and fractions). *)
Definition isalnum (c : ascii) : bool :=
  in_range 48 57 c || in_range 65 90 c || in_range 97 122 c ||
  (ord c =? 170) || (ord c =? 178) || (ord c =? 179) || (ord c =? 181) ||
  (ord c =? 185) || (ord c =? 186) || in_range 188 190 c ||
  in_range 192 214 c || in_range 216 246 c || in_range 248 255 c.

(** [\w] of a [str] pattern: alphanumeric or underscore. *)
Definition re_word (c : ascii) : bool := isalnum c || (ord c =? 95).

(** [\s] of a [str] pattern: [c.isspace()]. *)
Definition re_space (c : ascii) : bool :=
  in_range 9 13 c || in_range 28 32 c || (ord c =? 133) || (ord c =? 160).

(** [re.sub(cls, '', s)] for a pattern [cls] that is one character class:
    every match is one character, and it is replaced by nothing. *)
Fixpoint re_sub_class (cls : ascii -> bool) (s : string) : string :=
  match s with
  | EmptyString => EmptyString
  | String c rest =>
      if cls c then re_sub_class cls rest
      else String c (re_sub_class cls rest)
  end.

(** [s.replace(old, new)] for a non-empty [old]: matches are taken from the
    left and do not overlap; [skip] counts the characters of the current
    match that are still to be passed over. *)
Fixpoint replace_from (old new : string) (skip : nat) (s : string) : string :=
  match s with
  | EmptyString => EmptyString
  | String c rest =>
      match skip with
      | S k => replace_from old new k rest
      | O =>
          if prefix old s
          then (new ++ replace_from old new (String.length old - 1) rest)%string
          else String c (replace_from old new 0 rest)
      end
  end.

Definition replace (old new s : string) : string := replace_from old new 0 s.

(** Case folding of the pattern flags [re.IGNORECASE] / [case=False]: on
    U+0000..U+00FF only the ASCII letters have a partner among the pattern's
    characters. *)
Definition fold_case (c : ascii) : ascii :=
  if in_range 65 90 c then ascii_of_nat (ord c + 32) else c.

Fixpoint prefix_ci (pat s : string) : bool :=
  match pat, s with
  | EmptyString, _ => true
  | String _ _, EmptyString => false
  | String a pat', String b s' =>
      Ascii.eqb (fold_case a) (fold_case b) && prefix_ci pat' s'
  end.

(** [re.search(pat, s, re.IGNORECASE)] for a literal [pat]. *)
Fixpoint search_ci (pat s : string) : bool :=
  prefix_ci pat s ||
  match s with
  | EmptyString => false
  | String _ s' => search_ci pat s'
  end.

(** [sum(values)], and the ['sum'] aggregation of pandas. *)
Definition sum (values : list Z) : Z := fold_left Z.add values 0%Z.

(** [str(n)] for an [int]. *)
Definition str_int (n : Z) : string := NilZero.string_of_int (Z.to_int n).

(** [d[k] = v] on a [dict] kept in insertion order. *)
Fixpoint dict_set (d : list (string * string)) (k v : string)
  : list (string * string) :=
  match d with
  | [] => [(k, v)]
  | (k', v') :: rest =>
      if String.eqb k' k then (k', v) :: rest
      else (k', v') :: dict_set rest k v
  end.

(** [d.get(k)]. *)
Fixpoint dict_get (d : list (string * string)) (k : string) : option string :=
  match d with
  | [] => None
  | (k', v') :: rest => if String.eqb k' k then Some v' else dict_get rest k
  end.

(** [list.sort(key=...)] with the keys compared by [leb]: a stable sort. *)
Fixpoint insert {A : Type} (leb : A -> A -> bool) (x : A) (l : list A) : list A :=
  match l with
  | [] => [x]
  | y :: rest => if leb x y then x :: l else y :: insert leb x rest
  end.

Definition sort {A : Type} (leb : A -> A -> bool) (l : list A) : list A :=
  fold_right (insert leb) [] l.

End Py.

(* ================================================================== *)
(** ** Weekday trimmer (visualization_reports.py, lines 82-99)          *)
(* ================================================================== *)

Module Trimmer.

(** The two variables the scanning loop updates. *)
Record scan : Type := mkScan
  { consecutive_zeros : nat
  ; trim_idx : nat }.

(** Before the loop: [trim_idx = 0], [consecutive_zeros = 0]. *)
Definition scan0 : scan := mkScan 0 0.

(** One iteration of [for i, val in enumerate(values)]. *)
Definition step (i : nat) (val : Z) (s : scan) : scan :=
  if (val =? 0)%Z then
    mkScan (S (consecutive_zeros s)) (trim_idx s)
  else
    mkScan 0 (if 4 <=? consecutive_zeros s then i else trim_idx s).

(** The loop, started at position [i]. *)
Fixpoint scan_from (i : nat) (values : list Z) (s : scan) : scan :=
  match values with
  | [] => s
  | val :: rest => scan_from (S i) rest (step i val s)
  end.

(** The value of [trim_idx] when the loop ends. *)
Definition find_trim_idx (values : list Z) : nat :=
  trim_idx (scan_from 0 values scan0).

(** The slice [xs[trim_idx:]], used for the dates and for the values. *)
Definition slice_from {A : Type} (trim : nat) (xs : list A) : list A :=
  skipn trim xs.

Definition trimmed_values (values : list Z) : list Z :=
  slice_from (find_trim_idx values) values.

(** Position [i] holds a non-zero value and the four positions before it
    hold zeros: a non-zero value right after a run of four or more
    consecutive zeros. *)
Definition launch_point (values : list Z) (i : nat) : Prop :=
  (exists v, nth_error values i = Some v /\ v <> 0%Z) /\
  4 <= i /\
  (forall k, i - 4 <= k < i -> nth_error values k = Some 0%Z).

(** What the loop knows after reading the prefix [values]. *)
Record scanned (values : list Z) (s : scan) : Prop := mkScanned
  { sc_len : consecutive_zeros s <= List.length values
  ; sc_zeros : forall k, List.length values - consecutive_zeros s <= k < List.length values ->
                         nth_error values k = Some 0%Z
  ; sc_stop : consecutive_zeros s < List.length values ->
              exists v, nth_error values (List.length values - S (consecutive_zeros s)) = Some v
                        /\ v <> 0%Z
  ; sc_max : forall j, launch_point values j -> j <= trim_idx s
  ; sc_hit : launch_point values (trim_idx s) \/
             (trim_idx s = 0 /\ forall j, ~ launch_point values j) }.

Arguments sc_len {values s}.
Arguments sc_zeros {values s}.
Arguments sc_stop {values s}.
Arguments sc_max {values s}.
Arguments sc_hit {values s}.

End Trimmer.

(* ================================================================== *)
(** ** Forecast step (visualization_reports.py, [create_prophet_forecast]) *)
(* ================================================================== *)

Module ForecastAdapter.

Section Adapter.

(** pandas and Prophet are outside the repository; the function is modelled
    over what it asks of them. *)

(** A pandas [Timestamp]. *)
Variable Timestamp : Type.

(** The forecast frame and the fitted model. *)
Variable forecast_frame : Type.
Variable model : Type.

(** [pd.to_datetime(d, format='%m/%d', errors='coerce')] on one label;
    [None] is [NaT]. *)
Variable to_datetime_md : string -> option Timestamp.

(** [pd.to_datetime('2024/' + t.strftime('%m/%d'), errors='coerce')]. *)
Variable to_datetime_2024 : Timestamp -> option Timestamp.

(** [Prophet(...).fit(df)], [make_future_dataframe(periods)] and [predict];
    [None] when any of them raises. *)
Variable prophet : list (Timestamp * Z) -> nat -> option (forecast_frame * model).

(** A call of the forecasting library, recorded in the order it is made. *)
Inductive event : Type :=
| Fit (df_prophet : list (Timestamp * Z)) (forecast_periods : nat).

(** The returned 4-tuple; [None] stands for [(None, None, None, None)]. *)
Definition result : Type :=
  option (forecast_frame * list (Timestamp * Z) * model * nat).

(** The ['ds'] column: both [to_datetime] passes on one label. *)
Definition parse_ds (d : string) : option Timestamp :=
  match to_datetime_md d with
  | Some t => to_datetime_2024 t
  | None => None
  end.

(** [pd.DataFrame({'ds': ..., 'y': ...})]: raises when the two columns differ
    in length ([None]). *)
Definition data_frame (ds : list (option Timestamp)) (y : list Z)
  : option (list (option Timestamp * Z)) :=
  if List.length ds =? List.length y then Some (combine ds y) else None.

(** [df.dropna()]: the rows whose date is [NaT] go. *)
Fixpoint dropna (df : list (option Timestamp * Z)) : list (Timestamp * Z) :=
  match df with
  | [] => []
  | (Some t, y) :: rows => (t, y) :: dropna rows
  | (None, _) :: rows => dropna rows
  end.

(** The frame handed to Prophet when every guard passes. *)
Definition prophet_frame (dates : list string) (values : list Z)
  : list (Timestamp * Z) :=
  let trim_idx := Trimmer.find_trim_idx values in
  dropna (combine (map parse_ds (Trimmer.slice_from trim_idx dates))
                  (Trimmer.slice_from trim_idx values)).

(** The guards that stop [create_prophet_forecast] before any fit. *)
Definition guards_fail (dates : list string) (values : list Z) : Prop :=
  List.length values < 10 \/
  Py.sum values = 0%Z \/
  List.length (Trimmer.trimmed_values values) < 5 \/
  List.length (prophet_frame dates values) < 5.

(** [create_prophet_forecast(dates, values, forecast_periods)]: the library
    calls made, and the value returned.  An exception raised inside the [try]
    block is caught and turned into [None]. *)
Definition create_prophet_forecast
  (dates : list string) (values : list Z) (forecast_periods : nat)
  : list event * result :=
  if (List.length values <? 10) || (Py.sum values =? 0)%Z then ([], None)
  else
    let trim_idx := Trimmer.find_trim_idx values in
    let trimmed_dates := Trimmer.slice_from trim_idx dates in
    let trimmed_values := Trimmer.slice_from trim_idx values in
    if List.length trimmed_values <? 5 then ([], None)
    else
      match data_frame (map parse_ds trimmed_dates) trimmed_values with
      | None => ([], None)
      | Some df =>
          let df_prophet := dropna df in
          if List.length df_prophet <? 5 then ([], None)
          else
            match prophet df_prophet forecast_periods with
            | None => ([Fit df_prophet forecast_periods], None)
            | Some (forecast, fitted) =>
                ([Fit df_prophet forecast_periods],
                 Some (forecast, df_prophet, fitted, trim_idx))
            end
      end.

(** The forecasting calls of [create_grid_plots]: one per (item, weekday)
    panel, in order, each with [forecast_periods=4]; a panel is given by its
    date labels and its quantities. *)
Definition panel_forecasts (panels : list (list string * list Z))
  : list (list event * result) :=
  map (fun p => create_prophet_forecast (fst p) (snd p) 4) panels.

End Adapter.

Arguments Fit {Timestamp}.
Arguments parse_ds {Timestamp}.
Arguments data_frame {Timestamp}.
Arguments dropna {Timestamp}.
Arguments prophet_frame {Timestamp}.
Arguments guards_fail {Timestamp}.
Arguments create_prophet_forecast {Timestamp forecast_frame model}.
Arguments panel_forecasts {Timestamp forecast_frame model}.

End ForecastAdapter.

(* ================================================================== *)
(** ** File name of a grid plot (visualization_reports.py, lines 247-249) *)
(* ================================================================== *)

Module GridPlots.

Import Py.
Local Open Scope string_scope.

(** The characters the pattern [[^\w\s-]] matches. *)
Definition pattern_class (c : ascii) : bool :=
  negb (re_word c || re_space c || (ord c =? 45)%nat).

(** [re.sub(r'[^\w\s-]', '', item_name).replace(' ', '_')]. *)
Definition safe_filename (item_name : string) : string :=
  replace " " "_" (re_sub_class pattern_class item_name).

(** The file name inside [../reports/grid_plots/]. *)
Definition filename (item_name : string) : string :=
  safe_filename item_name ++ "_grid_plot.png".

Definition filepath (item_name : string) : string :=
  "../reports/grid_plots/" ++ filename item_name.

(** The derivation as the specification words it, read step by step: first
    every non-alphanumeric character is deleted, then spaces become
    underscores. *)
Definition spec_filename_stepwise (item_name : string) : string :=
  replace " " "_" (re_sub_class (fun c => negb (isalnum c)) item_name)
  ++ "_grid_plot.png".

(** The derivation as the specification words it, read with the spaces
    spared from the deletion so that they can become underscores. *)
Definition spec_filename_spaces (item_name : string) : string :=
  replace " " "_"
    (re_sub_class (fun c => negb (isalnum c || (ord c =? 32)%nat)) item_name)
  ++ "_grid_plot.png".

(** Pointwise operations on the characters of a string. *)
Fixpoint filter_string (keep : ascii -> bool) (s : string) : string :=
  match s with
  | EmptyString => EmptyString
  | String c rest =>
      if keep c then String c (filter_string keep rest)
      else filter_string keep rest
  end.

Fixpoint map_string (f : ascii -> ascii) (s : string) : string :=
  match s with
  | EmptyString => EmptyString
  | String c rest => String (f c) (map_string f rest)
  end.

(** A character the sanitizer keeps: a letter or digit, an underscore,
    whitespace, or a hyphen. *)
Definition kept_char (c : ascii) : bool :=
  isalnum c || (ord c =? 95)%nat || re_space c || (ord c =? 45)%nat.

Definition space_to_underscore (c : ascii) : ascii :=
  if (ord c =? 32)%nat then "_"%char else c.

End GridPlots.

(* ================================================================== *)
(** ** pandas [Timestamp]: the parts the scripts use                    *)
(* ================================================================== *)

Module Calendar.

Local Open Scope Z_scope.

(** A calendar date. *)
Record Timestamp : Type := mkTimestamp
  { year : Z
  ; month : Z
  ; day : Z }.

Definition Timestamp_eq_dec (a b : Timestamp) : {a = b} + {a <> b}.
Proof. decide equality; apply Z.eq_dec. Defined.

(** Comparison of two dates. *)
Definition eqb (a b : Timestamp) : bool :=
  (year a =? year b) && (month a =? month b) && (day a =? day b).

Definition ltb (a b : Timestamp) : bool :=
  (year a <? year b) ||
  ((year a =? year b) &&
   ((month a <? month b) || ((month a =? month b) && (day a <? day b)))).

Definition leb (a b : Timestamp) : bool := ltb a b || eqb a b.

(** [Timestamp.dayofweek], Monday = 0: pandas computes it with Sakamoto's
    method. *)
Definition sakamoto_arr : list Z := [0; 3; 2; 5; 0; 3; 5; 1; 4; 6; 2; 4].

Definition dayofweek (t : Timestamp) : Z :=
  let ly := if month t <? 3 then year t - 1 else year t in
  let d := (ly + ly / 4 - ly / 100 + ly / 400
            + nth (Z.to_nat (month t - 1)) sakamoto_arr 0 + day t) mod 7 in
  (d + 6) mod 7.

Definition DAYS : list string :=
  ["Monday"; "Tuesday"; "Wednesday"; "Thursday"; "Friday"; "Saturday";
   "Sunday"]%string.

(** [Timestamp.day_name()]. *)
Definition day_name (t : Timestamp) : string :=
  nth (Z.to_nat (dayofweek t)) DAYS EmptyString.

End Calendar.

(* ================================================================== *)
(** ** quantity_analysis.py                                             *)
(* ================================================================== *)

Module Quantity.

Import Py.
Import Calendar.
Local Open Scope string_scope.

(** A record of [transaction-summary.csv], its date and quantity parsed.
    The [Net Sales] cell is cleaned by the loader and not read again. *)
Record Transaction : Type := mkTransaction
  { t_Date : Timestamp
  ; t_Item : string
  ; t_Category : string
  ; t_Qty : Z }.

(** A row of the data frame [df]. *)
Record Row : Type := mkRow
  { Date : Timestamp
  ; Item : string
  ; Category : string
  ; Qty : Z
  ; Day_of_Week : string }.

(** [load_transaction_data]: [df['Day_of_Week'] = df['Date'].dt.day_name()]. *)
Definition load_transaction_data (csv : list Transaction) : list Row :=
  map (fun t => mkRow (t_Date t) (t_Item t) (t_Category t) (t_Qty t)
                      (day_name (t_Date t)))
      csv.

(** *** [clean_item_names] *)

(** U+00EF and U+00E9. *)
Definition i_diaeresis : string := String "239"%char EmptyString.
Definition e_acute : string := String "233"%char EmptyString.

(** [item_mappings]: target name, then the names merged into it. *)
Definition item_mappings : list (string * list string) :=
  [ ("Berry Tart", ["Berry Tart"; "Berry Tart "])
  ; ("Chocolate Tart", ["Chocolate Tart"; "Chocolate Tart "])
  ; ("Bread Pudding Croissant", ["Bread Pudding Croissant"])
  ; ("Chocolate Banana Bread (Gluten Free)",
     ["Chocolate Banana Bread (Gluten Free)"])
  ; ("Crispy Egg Tart", ["Crispy Egg Tart"; "Egg Tart"])
  ; ("Dubai Chocolate Croissant",
     ["Dubai Chocolate Croissant";
      "Duba" ++ i_diaeresis ++ " Chocolate Croissant";
      "Dubai Chocolate Croissant (Fri/Sat/Sun)"])
  ; ("Mini Black Sesame Croissant",
     ["Mini Black Sesame Croissant";
      "Mini Black S" ++ e_acute ++ "sameCroissant";
      "Mini Black Sesame Croissant (Fri/Sat/Sun)"])
  ; ("Croque Monsieur", ["CroqueMonsieur"; "Croque Monsieur"])
  ; ("Avocado Egg Croissant Sandwich",
     ["Avocado Egg Croissant Sandwich";
      "Avocado Egg Croissant Sandwich (Fri/Sat/Sun)";
      "Avocado Egg Croissant Sandwich - Weekend Only"])
  ; ("Black Sesame Croissant",
     ["Black Sesame Croissant";
      "Black Sesame Croissant (Fri/Sat/Sun)";
      "Black Sesame Croissant Toast - Weekend Only"])
  ; ("Brie Prosciutto Croissant Sandwich",
     ["Brie Prosciutto Croissant Sandwich";
      "Brie Prosciutto Croissant Sandwich (Fri/Sat/Sun)";
      "Brie Prosciutto Croissant Sandwich - Weekend Only"])
  ; ("Red Bow Tie Croissant",
     ["Red Bow Tie Croissant";
      "Red Bow Tie Croissant (Fri/Sat/Sun)";
      "Red Bow Tie Croissant - Weekend Only"])
  ; ("Lemon Tart (Large)", ["Lemon Tart (L)"; "Lemon Tart (Large)"])
  ; ("Raspberry Tart (Small)", ["Raspberry Tart (Small)"; "Raspberry Tart(S)"])
  ].

(** The two nested loops that fill [reverse_mapping]. *)
Definition add_sources (target : string) (sources : list string)
  (d : list (string * string)) : list (string * string) :=
  fold_left (fun d source => dict_set d source target) sources d.

Definition build_reverse_mapping (mappings : list (string * list string))
  : list (string * string) :=
  fold_left (fun d entry => add_sources (fst entry) (snd entry) d) mappings [].

Definition reverse_mapping : list (string * string) :=
  build_reverse_mapping item_mappings.

(** One cell of [df['Item'].map(reverse_mapping).fillna(df['Item'])]. *)
Definition clean_item_name (item : string) : string :=
  match dict_get reverse_mapping item with
  | Some target => target
  | None => item
  end.

Definition clean_item_names (df : list Row) : list Row :=
  map (fun r => mkRow (Date r) (clean_item_name (Item r)) (Category r) (Qty r)
                      (Day_of_Week r))
      df.

(** *** [create_quantity_pivot]: filters and group-by *)

Definition target_categories : list string :=
  ["Croissant"; "Bread"; "Pastries"; "Drink"].

(** [Series.isin]. *)
Definition isin (x : string) (l : list string) : bool :=
  existsb (String.eqb x) l.

(** [str.contains('4th of July|4th Of July|Easter Special', case=False)]. *)
Definition is_special (item : string) : bool :=
  search_ci "4th of July" item || search_ci "4th Of July" item ||
  search_ci "Easter Special" item.

(** [df_filtered], as it stands before the group-by. *)
Definition df_filtered (df : list Row) : list Row :=
  let by_category := filter (fun r => isin (Category r) target_categories) df in
  let no_monday :=
    filter (fun r => negb (String.eqb (Day_of_Week r) "Monday")) by_category in
  let cleaned := clean_item_names no_monday in
  filter (fun r => negb (is_special (Item r))) cleaned.

(** A group key [(Date, Item)]. *)
Definition key : Type := Timestamp * string.

Definition key_eq_dec (a b : key) : {a = b} + {a <> b}.
Proof. decide equality; [apply string_dec | apply Timestamp_eq_dec]. Defined.

Definition key_eqb (a b : key) : bool :=
  Calendar.eqb (fst a) (fst b) && String.eqb (snd a) (snd b).

Definition key_leb (a b : key) : bool :=
  Calendar.ltb (fst a) (fst b) ||
  (Calendar.eqb (fst a) (fst b) && String.leb (snd a) (snd b)).

Definition row_key (r : Row) : key := (Date r, Item r).

(** [df.groupby(['Date', 'Item']).agg({'Qty': 'sum'}).reset_index()]: one
    row per distinct key, in key order, with the quantities of its group
    added up. *)
Definition group_keys (df : list Row) : list key :=
  sort key_leb (nodup key_eq_dec (map row_key df)).

Definition group_sum (df : list Row) (k : key) : Z :=
  sum (map Qty (filter (fun r => key_eqb (row_key r) k) df)).

Definition groupby_sum (df : list Row) : list (key * Z) :=
  map (fun k => (k, group_sum df k)) (group_keys df).

(** The Daily Aggregate of [create_quantity_pivot]. *)
Definition daily_qty (df : list Row) : list (key * Z) :=
  groupby_sum (df_filtered df).

(** *** [create_quantity_pivot]: pivot and column order *)

(** [qty_pivot] after [reset_index()]: the [Item] column, and one column per
    date. *)
Record Pivot : Type := mkPivot
  { index : list string
  ; columns : list (Timestamp * list Z) }.

(** The default [aggfunc] of [pivot_table]. *)
Definition mean (qs : list Z) : Z := (sum qs / Z.of_nat (List.length qs))%Z.

(** One cell: the mean of the quantities under that (item, date), or
    [fill_value=0]. *)
Definition pivot_cell (agg : list (key * Z)) (item : string) (date : Timestamp) : Z :=
  match map snd (filter (fun e => key_eqb (fst e) (date, item)) agg) with
  | [] => 0%Z
  | qs => mean qs
  end.

(** The index and the columns of the pivot: the distinct items and the
    distinct dates, each in ascending order. *)
Definition pivot_items (agg : list (key * Z)) : list string :=
  sort String.leb (nodup string_dec (map (fun e => snd (fst e)) agg)).

Definition pivot_dates (agg : list (key * Z)) : list Timestamp :=
  sort Calendar.leb (nodup Timestamp_eq_dec (map (fun e => fst (fst e)) agg)).

Definition pivot_table (agg : list (key * Z)) : Pivot :=
  let items := pivot_items agg in
  let dates := pivot_dates agg in
  mkPivot items
          (map (fun d => (d, map (fun i => pivot_cell agg i d) items)) dates).

(** [f"{col.month}/{col.day} - {col.day_name()}"]. *)
Definition format_header (col : Timestamp) : string :=
  str_int (month col) ++ "/" ++ str_int (day col) ++ " - " ++ day_name col.

(** The column the loop skips: [col.month == 1 and col.day == 14]. *)
Definition is_jan14 (col : Timestamp) : bool :=
  ((month col =? 1) && (day col =? 14))%Z.

(** An entry [(col, formatted_date, col.day_name())] of [date_columns]. *)
Definition date_column : Type := Timestamp * string * string.

Definition date_columns (p : Pivot) : list date_column :=
  map (fun col => (col, format_header col, day_name col))
      (filter (fun col => negb (is_jan14 col)) (map fst (columns p))).

(** [weekday_order[name]]; [None] is a [KeyError]. *)
Definition weekday_order (name : string) : option nat :=
  if String.eqb name "Tuesday" then Some 0
  else if String.eqb name "Wednesday" then Some 1
  else if String.eqb name "Thursday" then Some 2
  else if String.eqb name "Friday" then Some 3
  else if String.eqb name "Saturday" then Some 4
  else if String.eqb name "Sunday" then Some 5
  else None.

(** The sort key [(weekday_order[x[2]], x[0])] and the order of such tuples. *)
Definition sort_key (x : date_column) : option (nat * Timestamp) :=
  match weekday_order (snd x) with
  | Some w => Some (w, fst (fst x))
  | None => None
  end.

Definition sort_key_leb (a b : nat * Timestamp) : bool :=
  (fst a <? fst b)%nat || ((fst a =? fst b)%nat && Calendar.leb (snd a) (snd b)).

(** The keys are computed for every entry before any comparison; a
    [KeyError] aborts the sort. *)
Fixpoint with_keys (l : list date_column)
  : option (list ((nat * Timestamp) * date_column)) :=
  match l with
  | [] => Some []
  | x :: rest =>
      match sort_key x, with_keys rest with
      | Some k, Some keyed => Some ((k, x) :: keyed)
      | _, _ => None
      end
  end.

Definition sort_date_columns (l : list date_column) : option (list date_column) :=
  match with_keys l with
  | Some keyed =>
      Some (map snd (sort (fun a b => sort_key_leb (fst a) (fst b)) keyed))
  | None => None
  end.

(** A column label of [qty_pivot] during the renaming. *)
Inductive label : Type :=
| Stamp (t : Timestamp)
| Header (s : string).

(** [column_mapping.get(col)] for the dict [{col: formatted_header}]; a later
    entry for the same column wins. *)
Fixpoint column_mapping_get (l : list date_column) (col : Timestamp)
  : option string :=
  match l with
  | [] => None
  | x :: rest =>
      match column_mapping_get rest col with
      | Some h => Some h
      | None => if Calendar.eqb (fst (fst x)) col then Some (snd (fst x)) else None
      end
  end.

(** [qty_pivot.rename(columns=column_mapping)], date columns only. *)
Definition rename (mapping : list date_column) (cols : list (Timestamp * list Z))
  : list (label * list Z) :=
  map (fun c => (match column_mapping_get mapping (fst c) with
                 | Some h => Header h
                 | None => Stamp (fst c)
                 end, snd c))
      cols.

Definition has_label (h : string) (c : label * list Z) : bool :=
  match fst c with
  | Header s => String.eqb s h
  | Stamp _ => false
  end.

(** [qty_pivot[new_columns]], date columns only: for each requested label in
    turn, every column that carries it. *)
Definition select (new_columns : list string) (cols : list (label * list Z))
  : list (string * list Z) :=
  flat_map (fun h => map (fun c => (h, snd c)) (filter (has_label h) cols))
           new_columns.

(** The Quantity Matrix: the [Item] column and the labelled date columns. *)
Record Matrix : Type := mkMatrix
  { m_index : list string
  ; m_columns : list (string * list Z) }.

(** The headers of [new_columns] after ['Item']. *)
Definition new_columns (sorted : list date_column) : list string :=
  map (fun x => snd (fst x)) sorted.

(** [create_quantity_pivot(df)]; [None] when the sort raises. *)
Definition create_quantity_pivot (df : list Row) : option Matrix :=
  let qty_pivot := pivot_table (daily_qty df) in
  match sort_date_columns (date_columns qty_pivot) with
  | None => None
  | Some sorted =>
      Some (mkMatrix (index qty_pivot)
                     (select (new_columns sorted)
                             (rename sorted (columns qty_pivot))))
  end.

(** The documented conditions on a transaction: its category is one of the
    four targets, the weekday of its date is not Monday, and its cleaned name
    holds no seasonal or special marker. *)
Definition passes_filters (t : Transaction) : bool :=
  isin (t_Category t) target_categories &&
  negb (String.eqb (day_name (t_Date t)) "Monday") &&
  negb (is_special (clean_item_name (t_Item t))).

(** [main]: load, then pivot. *)
Definition run (csv : list Transaction) : option Matrix :=
  create_quantity_pivot (load_transaction_data csv).

(** *** Reading the Quantity Matrix *)

(** The cells of [m] that lie in a row named [item] and in a column labelled
    [header]. *)
Definition cells_at (m : Matrix) (item header : string) : list Z :=
  flat_map (fun c =>
              if String.eqb (fst c) header
              then map snd (filter (fun p => String.eqb (fst p) item)
                                   (combine (m_index m) (snd c)))
              else [])
           (m_columns m).

(** The place of a date's weekday in the fixed order Tuesday .. Sunday. *)
Definition weekday_index (col : Timestamp) : nat :=
  match weekday_order (day_name col) with
  | Some w => w
  | None => 0
  end.

(** The order of the sort keys, read on the dates. *)
Definition column_leb (a b : Timestamp) : bool :=
  sort_key_leb (weekday_index a, a) (weekday_index b, b).

(** [a] comes before [b] in the column order: an earlier weekday of the
    fixed order, or the same weekday and an earlier date. *)
Definition column_before (a b : Timestamp) : Prop :=
  (weekday_index a < weekday_index b)%nat \/
  (weekday_index a = weekday_index b /\ Calendar.ltb a b = true).

(** The dates of the aggregate that get a column, and the order the sort
    puts them in. *)
Definition kept_dates (agg : list (key * Z)) : list Timestamp :=
  filter (fun col => negb (is_jan14 col)) (pivot_dates agg).

Definition column_dates (agg : list (key * Z)) : list Timestamp :=
  sort column_leb (kept_dates agg).

(** No two dates that get a column share a header. *)
Definition distinct_headers (agg : list (key * Z)) : Prop :=
  forall a b, In a (kept_dates agg) -> In b (kept_dates agg) ->
              format_header a = format_header b -> a = b.

End Quantity.

(* ================================================================== *)
(** ** Sample inputs                                                    *)
(* ================================================================== *)

Module Samples.

Import Calendar.
Import Quantity.
Local Open Scope string_scope.
Local Open Scope Z_scope.

(** Sales on Tuesday 14 January 2025 and on the day after. *)
Definition jan14_csv : list Transaction :=
  [ mkTransaction (mkTimestamp 2025 1 14) "Croissant" "Croissant" 3
  ; mkTransaction (mkTimestamp 2025 1 15) "Croissant" "Croissant" 2 ].

(** Sales on two Tuesdays that share month and day: 5 March 2019 and
    5 March 2024. *)
Definition two_years_csv : list Transaction :=
  [ mkTransaction (mkTimestamp 2019 3 5) "Baguette" "Bread" 1
  ; mkTransaction (mkTimestamp 2024 3 5) "Baguette" "Bread" 2 ].

(** Three weeks of one season. *)
Definition season_csv : list Transaction :=
  [ mkTransaction (mkTimestamp 2025 1 21) "Egg Tart" "Pastries" 4
  ; mkTransaction (mkTimestamp 2025 1 15) "Latte" "Drink" 2
  ; mkTransaction (mkTimestamp 2025 1 21) "Crispy Egg Tart" "Pastries" 1
  ; mkTransaction (mkTimestamp 2025 1 28) "Latte" "Drink" 5
  ; mkTransaction (mkTimestamp 2025 1 14) "Latte" "Drink" 7
  ; mkTransaction (mkTimestamp 2025 1 20) "Latte" "Drink" 9
  ; mkTransaction (mkTimestamp 2025 1 19) "Gift Card" "Merchandise" 1 ].

End Samples.

(* ================================================================== *)
(** ** quantity_analysis.py: the summary statistics                    *)
(* ================================================================== *)

Module QuantityStats.

Import Py.
Import Calendar.
Import Quantity.
Local Open Scope string_scope.

(** The group key a transaction ends up under. *)
Definition transaction_key (t : Transaction) : key :=
  (t_Date t, clean_item_name (t_Item t)).

(** [Series.nunique()]. *)
Definition nunique (l : list string) : nat :=
  List.length (nodup string_dec l).

(** [Series.min()] and [Series.max()] on dates; [None] is [NaT], the result
    on an empty series. *)
Definition date_min (l : list Timestamp) : option Timestamp :=
  match l with
  | [] => None
  | d :: rest =>
      Some (fold_left (fun m x => if Calendar.ltb x m then x else m) rest d)
  end.

Definition date_max (l : list Timestamp) : option Timestamp :=
  match l with
  | [] => None
  | d :: rest =>
      Some (fold_left (fun m x => if Calendar.ltb m x then x else m) rest d)
  end.

(** The dict [generate_basic_stats] returns. *)
Record Stats : Type := mkStats
  { total_qty : Z
  ; unique_items : nat
  ; unique_categories : nat
  ; date_range : option Timestamp * option Timestamp }.

(** [generate_basic_stats(df)]: the category and Monday filters only; the
    names are not cleaned and the seasonal items stay. *)
Definition generate_basic_stats (df : list Row) : Stats :=
  let by_category := filter (fun r => isin (Category r) target_categories) df in
  let df_filtered :=
    filter (fun r => negb (String.eqb (Day_of_Week r) "Monday")) by_category in
  mkStats (sum (map Qty df_filtered))
          (nunique (map Item df_filtered))
          (nunique (map Category df_filtered))
          (date_min (map Date df), date_max (map Date df)).

(** A transaction that passes the category and weekday filters and is then
    removed as seasonal or special. *)
Definition seasonal_only (t : Transaction) : bool :=
  isin (t_Category t) target_categories &&
  negb (String.eqb (day_name (t_Date t)) "Monday") &&
  is_special (clean_item_name (t_Item t)).

End QuantityStats.

(* ================================================================== *)
(** ** visualization_reports.py: [parse_date_columns]                   *)
(* ================================================================== *)

Module DateColumns.

Import Py.
Local Open Scope string_scope.

(** [\d] of a [str] pattern, on U+0000..U+00FF: the ASCII digits. *)
Definition re_digit (c : ascii) : bool := in_range 48 57 c.

(** The longest prefix of [s] whose characters all satisfy [p], and what
    follows it: the share of a greedy [p+] that nothing forces to give
    characters back. *)
Fixpoint span (p : ascii -> bool) (s : string) : string * string :=
  match s with
  | EmptyString => (EmptyString, EmptyString)
  | String c rest =>
      if p c then (String c (fst (span p rest)), snd (span p rest))
      else (EmptyString, s)
  end.

(** [s] without the prefix [pre], when it starts with it. *)
Fixpoint strip_prefix (pre s : string) : option string :=
  match pre, s with
  | EmptyString, _ => Some s
  | String _ _, EmptyString => None
  | String a pre', String b s' =>
      if Ascii.eqb a b then strip_prefix pre' s' else None
  end.

(** [int(s)] for a string of ASCII digits. *)
Definition digit_value (c : ascii) : Z := Z.of_nat (ord c - 48).

Fixpoint int_digits_from (acc : Z) (s : string) : Z :=
  match s with
  | EmptyString => acc
  | String c rest => int_digits_from (acc * 10 + digit_value c)%Z rest
  end.

Definition int_digits (s : string) : Z := int_digits_from 0%Z s.

(** [re.match(r'(\d+)/(\d+) - (\w+)', col).groups()]; [None] when there is no
    match.  The match is anchored at the start only.  A run of digits is
    followed by a character that is no digit, so the greedy groups never give
    characters back: each takes its longest run. *)
Definition match_label (col : string) : option (string * string * string) :=
  let (month, after_month) := span re_digit col in
  match month, after_month with
  | String _ _, String "/" after_slash =>
      let (day, after_day) := span re_digit after_slash in
      match day, strip_prefix " - " after_day with
      | String _ _, Some after_dash =>
          match fst (span re_word after_dash) with
          | EmptyString => None
          | weekday => Some (month, day, weekday)
          end
      | _, _ => None
      end
  | _, _ => None
  end.

(** [re.match(r'(\d+/\d+) - \w+', col).group(1)], of [create_grid_plots]. *)
Definition match_month_day (col : string) : option string :=
  match match_label col with
  | Some (month, day, _) => Some (month ++ "/" ++ day)
  | None => None
  end.

(** An entry of [date_info]. *)
Record date_info : Type := mkDateInfo
  { column : string
  ; month : Z
  ; day : Z
  ; weekday : string }.

(** [weekday_columns] before the loop: six keys, each with an empty list. *)
Definition weekday_columns0 : list (string * list string) :=
  [ ("Tuesday", []); ("Wednesday", []); ("Thursday", []);
    ("Friday", []); ("Saturday", []); ("Sunday", []) ].

(** [d[k].append(col)]. *)
Definition dict_append (d : list (string * list string)) (k col : string)
  : list (string * list string) :=
  map (fun kv => if String.eqb (fst kv) k then (fst kv, (snd kv ++ [col])%list) else kv) d.

(** [k in d]. *)
Definition dict_has (d : list (string * list string)) (k : string) : bool :=
  existsb (fun kv => String.eqb (fst kv) k) d.

(** [d[k]]; [None] is a [KeyError]. *)
Definition dict_lookup {V : Type} (d : list (string * V)) (k : string) : option V :=
  match find (fun kv => String.eqb (fst kv) k) d with
  | Some kv => Some (snd kv)
  | None => None
  end.

(** One iteration of the loop over [df.columns[1:]]. *)
Definition parse_step
  (acc : list date_info * list (string * list string)) (col : string)
  : list date_info * list (string * list string) :=
  match match_label col with
  | Some (m, d, w) =>
      ((fst acc ++ [mkDateInfo col (int_digits m) (int_digits d) w])%list,
       if dict_has (snd acc) w then dict_append (snd acc) w col else snd acc)
  | None => acc
  end.

(** [parse_date_columns(df)], on the column labels after ['Item']. *)
Definition parse_date_columns (columns : list string)
  : list date_info * list (string * list string) :=
  fold_left parse_step columns ([], weekday_columns0).

(** The weekday a label is read as. *)
Definition label_weekday (col : string) : option string :=
  match match_label col with
  | Some (_, _, w) => Some w
  | None => None
  end.

Definition has_weekday (w : string) (col : string) : bool :=
  match label_weekday col with
  | Some w' => String.eqb w' w
  | None => false
  end.

End DateColumns.

(* ================================================================== *)
(** ** Reading [parse_date_columns]                                     *)
(* ================================================================== *)

Module DateColumnsSpec.

Import Py.
Import DateColumns.
Local Open Scope string_scope.

(** The six panel weekdays, in the order of [weekday_columns]. *)
Definition panel_weekdays : list string :=
  ["Tuesday"; "Wednesday"; "Thursday"; "Friday"; "Saturday"; "Sunday"].

(** The [date_info] entry of a label, when the pattern matches it. *)
Definition info_of (col : string) : list date_info :=
  match match_label col with
  | Some (m, d, w) => [mkDateInfo col (int_digits m) (int_digits d) w]
  | None => []
  end.

(** A calendar date with a non-negative month and day of month. *)
Definition plain_date (d : Calendar.Timestamp) : Prop :=
  (0 <= Calendar.month d)%Z /\ (0 <= Calendar.day d)%Z.

End DateColumnsSpec.

(* ================================================================== *)
(** ** visualization_reports.py: the panels of [create_grid_plots]      *)
(* ================================================================== *)

Module GridPanels.

Import Py.
Import DateColumns.
Local Open Scope string_scope.

(** The frame of [load_quantity_data], after its [Item] column: the date
    labels, and per row the item name and one cell per label. *)
Record Frame : Type := mkFrame
  { f_columns : list string
  ; f_rows : list (string * list Z) }.

(** The position of the first label equal to [col]. *)
Fixpoint index_of (col : string) (columns : list string) : option nat :=
  match columns with
  | [] => None
  | c :: rest =>
      if String.eqb c col then Some 0
      else match index_of col rest with
           | Some n => Some (S n)
           | None => None
           end
  end.

(** [row[col]]; [None] is a [KeyError]. *)
Definition row_get (columns : list string) (cells : list Z) (col : string)
  : option Z :=
  match index_of col columns with
  | Some n => nth_error cells n
  | None => None
  end.

(** [[row[col] for col in weekday_cols]]. *)
Fixpoint weekday_data_of (columns : list string) (cells : list Z)
  (weekday_cols : list string) : option (list Z) :=
  match weekday_cols with
  | [] => Some []
  | col :: rest =>
      match row_get columns cells col, weekday_data_of columns cells rest with
      | Some v, Some vs => Some (v :: vs)
      | _, _ => None
      end
  end.

(** The loop that fills [date_labels] and [raw_dates]: the "M/D" part of a
    label that matches, the label itself otherwise. *)
Definition raw_dates_of (weekday_cols : list string) : list string :=
  map (fun col => match match_month_day col with
                  | Some date_str => date_str
                  | None => col
                  end)
      weekday_cols.

(** [np.mean(data)] as the fraction sum / count; a count of 0 is [nan]. *)
Record mean_value : Type := mkMean
  { mean_sum : Z
  ; mean_count : nat }.

Definition np_mean (data : list Z) : mean_value :=
  mkMean (sum data) (List.length data).

(** [np.max(data)]; [None] is the [ValueError] on an empty array. *)
Definition np_max (data : list Z) : option Z :=
  match data with
  | [] => None
  | v :: rest => Some (fold_left Z.max rest v)
  end.

Section Panels.

Variable Timestamp : Type.
Variable forecast_frame : Type.
Variable model : Type.
Variable to_datetime_md : string -> option Timestamp.
Variable to_datetime_2024 : Timestamp -> option Timestamp.
Variable prophet : list (Timestamp * Z) -> nat -> option (forecast_frame * model).

(** The data the statistics of a panel are taken over: the part from
    [trim_idx] on when there is a forecast and [trim_idx > 0] (the whole
    series, should that part be empty), the whole series otherwise. *)
Definition stats_data (weekday_data : list Z)
  (forecast : ForecastAdapter.result Timestamp forecast_frame model) : list Z :=
  match forecast with
  | Some (_, _, _, trim_idx) =>
      if (0 <? trim_idx)%nat then
        let post_intro_data := Trimmer.slice_from trim_idx weekday_data in
        if (0 <? List.length post_intro_data)%nat then post_intro_data else weekday_data
      else weekday_data
  | None => weekday_data
  end.

(** What one panel shows. *)
Record panel : Type := mkPanel
  { p_weekday : string
  ; p_historical : list Z
  ; p_fits : list (ForecastAdapter.event Timestamp)
  ; p_forecast : ForecastAdapter.result Timestamp forecast_frame model
  ; p_labels : list string
  ; p_avg : mean_value
  ; p_max : Z }.

(** The weekdays of the six panels. *)
Definition weekdays : list string :=
  ["Tuesday"; "Wednesday"; "Thursday"; "Friday"; "Saturday"; "Sunday"].

(** The arguments [create_prophet_forecast] is called with for one panel;
    [None] when a lookup raises. *)
Definition panel_inputs (columns : list string)
  (weekday_columns : list (string * list string)) (cells : list Z)
  (weekday : string) : option (list string * list Z) :=
  match dict_lookup weekday_columns weekday with
  | None => None
  | Some weekday_cols =>
      match weekday_data_of columns cells weekday_cols with
      | None => None
      | Some weekday_data => Some (raw_dates_of weekday_cols, weekday_data)
      end
  end.

(** One pass of the loop over [weekdays]; [None] when it raises.  The
    plotting calls are taken to succeed; [np.max] is the call that can fail. *)
Definition panel_of (columns : list string)
  (weekday_columns : list (string * list string)) (cells : list Z)
  (weekday : string) : option panel :=
  match panel_inputs columns weekday_columns cells weekday with
  | None => None
  | Some (raw_dates, weekday_data) =>
      let forecast :=
        ForecastAdapter.create_prophet_forecast
          to_datetime_md to_datetime_2024 prophet raw_dates weekday_data 4 in
      let all_labels :=
        match snd forecast with
        | Some _ => (raw_dates ++ ["F+1"; "F+2"; "F+3"; "F+4"])%list
        | None => raw_dates
        end in
      let data := stats_data weekday_data (snd forecast) in
      match np_max data with
      | None => None
      | Some max_qty =>
          Some (mkPanel weekday weekday_data (fst forecast) (snd forecast)
                        all_labels (np_mean data) max_qty)
      end
  end.

Fixpoint panels_of (columns : list string)
  (weekday_columns : list (string * list string)) (cells : list Z)
  (days : list string) : option (list panel) :=
  match days with
  | [] => Some []
  | weekday :: rest =>
      match panel_of columns weekday_columns cells weekday with
      | None => None
      | Some p =>
          match panels_of columns weekday_columns cells rest with
          | None => None
          | Some ps => Some (p :: ps)
          end
      end
  end.

(** [create_grid_plots(df, weekday_columns)]: the files saved, in order, each
    with its panels, and whether the loop ran to its end ([false]: a panel
    raised; the rows before it have their files). *)
Fixpoint grid_plots_of (columns : list string)
  (weekday_columns : list (string * list string))
  (rows : list (string * list Z)) : list (string * list panel) * bool :=
  match rows with
  | [] => ([], true)
  | (item_name, cells) :: rest =>
      match panels_of columns weekday_columns cells weekdays with
      | None => ([], false)
      | Some panels =>
          let (saved, done) := grid_plots_of columns weekday_columns rest in
          ((GridPlots.filepath item_name, panels) :: saved, done)
      end
  end.

Definition create_grid_plots (df : Frame)
  (weekday_columns : list (string * list string))
  : list (string * list panel) * bool :=
  grid_plots_of (f_columns df) weekday_columns (f_rows df).

(** [main]: the panels come from [parse_date_columns] on the same frame. *)
Definition main (df : Frame) : list (string * list panel) * bool :=
  create_grid_plots df (snd (parse_date_columns (f_columns df))).

End Panels.

Arguments stats_data {Timestamp forecast_frame model}.
Arguments mkPanel {Timestamp forecast_frame model}.
Arguments p_weekday {Timestamp forecast_frame model}.
Arguments p_historical {Timestamp forecast_frame model}.
Arguments p_fits {Timestamp forecast_frame model}.
Arguments p_forecast {Timestamp forecast_frame model}.
Arguments p_labels {Timestamp forecast_frame model}.
Arguments p_avg {Timestamp forecast_frame model}.
Arguments p_max {Timestamp forecast_frame model}.
Arguments panel_of {Timestamp forecast_frame model}.
Arguments panels_of {Timestamp forecast_frame model}.
Arguments grid_plots_of {Timestamp forecast_frame model}.
Arguments create_grid_plots {Timestamp forecast_frame model}.
Arguments main {Timestamp forecast_frame model}.

(** The cells of a row under the labels read as weekday [w], in column
    order. *)
Definition series_of (columns : list string) (cells : list Z) (w : string)
  : list Z :=
  map snd (filter (fun cv => has_weekday w (fst cv)) (combine columns cells)).

(** A frame whose rows have one cell per label, the labels pairwise distinct:
    what [read_csv] returns. *)
Definition well_formed (df : Frame) : Prop :=
  NoDup (f_columns df) /\
  forall row, In row (f_rows df) -> List.length (snd row) = List.length (f_columns df).

End GridPanels.

(* ================================================================== *)
(** ** Sample frames                                                    *)
(* ================================================================== *)

Module PanelSamples.

Import GridPanels.
Local Open Scope string_scope.
Local Open Scope Z_scope.

(** One item over one week, Tuesday to Sunday. *)
Definition week_frame : Frame :=
  mkFrame
    ["1/21 - Tuesday"; "1/22 - Wednesday"; "1/23 - Thursday";
     "1/24 - Friday"; "1/25 - Saturday"; "1/26 - Sunday"]
    [("Egg Tart", [3; 0; 2; 5; 8; 6])].

(** A stand-in for pandas and Prophet: every label parses, every fit
    succeeds. *)
Definition sample_md (_ : string) : option nat := Some 0%nat.
Definition sample_2024 (t : nat) : option nat := Some t.
Definition sample_prophet (_ : list (nat * Z)) (_ : nat) : option (unit * unit) :=
  Some (tt, tt).

End PanelSamples.

(* ================================================================== *)
(** ** web/app.py: the plots the dashboard lists                        *)
(* ================================================================== *)

Module Web.

Import Py.
Local Open Scope string_scope.

(** [c.lower()] on U+0000..U+00FF: the ASCII capitals and the capitals of
    Latin-1 (U+00C0..U+00DE without the multiplication sign) move up by 32. *)
Definition lower_char (c : ascii) : ascii :=
  if in_range 65 90 c || (in_range 192 222 c && negb (ord c =? 215)%nat)
  then ascii_of_nat (ord c + 32)%nat
  else c.

Definition lower (s : string) : string := GridPlots.map_string lower_char s.

(** An entry of the list [get_available_plots] returns. *)
Record plot : Type := mkPlot
  { filename : string
  ; item_name : string
  ; path : string }.

Definition plot_dir : string := "../reports/grid_plots".

(** [filename.replace('_grid_plot.png', '').replace('_', ' ')]. *)
Definition item_name_of (name : string) : string :=
  replace "_" " " (replace "_grid_plot.png" "" name).

(** The record made for the file [name] of the plot directory; its path is
    [os.path.join(plot_dir, name)] and [os.path.basename] of that path is
    [name] again. *)
Definition plot_of (name : string) : plot :=
  mkPlot name (item_name_of name) (plot_dir ++ "/" ++ name).

(** [s.endswith(suffix)]. *)
Fixpoint ends_with (suffix s : string) : bool :=
  String.eqb suffix s ||
  match s with
  | EmptyString => false
  | String _ rest => ends_with suffix rest
  end.

(** [glob.glob(os.path.join(plot_dir, '*.png'))] on the entries of the
    directory: the names that end in ".png" and do not start with a dot, in
    the order of the listing. *)
Definition glob_png (entries : list string) : list string :=
  filter (fun name => ends_with ".png" name && negb (prefix "." name)) entries.

Definition item_name_leb (a b : plot) : bool :=
  String.leb (item_name a) (item_name b).

(** [get_available_plots()]; [None] stands for a plot directory that does
    not exist, [Some entries] for its listing. *)
Definition get_available_plots (listing : option (list string)) : list plot :=
  match listing with
  | None => []
  | Some entries => sort item_name_leb (map plot_of (glob_png entries))
  end.

(** The test of the loop of [item_detail]. *)
Definition slug_matches (item_slug : string) (p : plot) : bool :=
  String.eqb (replace " " "_" (lower (item_name p))) (lower item_slug).

(** [item_detail(item_slug)]: the plot the page is rendered for; [None] is
    the 404 answer. *)
Definition item_detail (listing : option (list string)) (item_slug : string)
  : option plot :=
  find (slug_matches item_slug) (get_available_plots listing).

End Web.

(* ================================================================== *)
(** ** Reading the dashboard's names                                    *)
(* ================================================================== *)

Module WebSpec.

Import Py.
Local Open Scope string_scope.

Definition underscore_to_space (c : ascii) : ascii :=
  if Ascii.eqb c "_" then " "%char else c.

(** Every character of [s] satisfies [p]. *)
Fixpoint forallb_string (p : ascii -> bool) (s : string) : bool :=
  match s with
  | EmptyString => true
  | String c rest => p c && forallb_string p rest
  end.

(** A name of letters, digits, whitespace and hyphens only. *)
Definition plain_name (item_name : string) : bool :=
  forallb_string (fun c => GridPlots.kept_char c && negb (Ascii.eqb c "_")) item_name.

End WebSpec.

(* ================================================================== *)
(** ** square_sales_fetcher.py: the quantities taken from the orders    *)
(* ================================================================== *)

Module SquareFetcher.

Import Py.
Import Calendar.
Local Open Scope string_scope.

(** [%m] and [%d] of [strftime]: two digits, zero-padded. *)
Definition two_digits (n : Z) : string :=
  if (n <? 10)%Z then "0" ++ str_int n else str_int n.

(** [order_date.strftime('%m/%d - %A')]. *)
Definition date_key (order_date : Timestamp) : string :=
  two_digits (month order_date) ++ "/" ++ two_digits (day order_date) ++
  " - " ++ day_name order_date.

(** [s.strip()]: the whitespace at both ends goes. *)
Fixpoint lstrip (s : string) : string :=
  match s with
  | EmptyString => EmptyString
  | String c rest => if re_space c then lstrip rest else s
  end.

Fixpoint rstrip (s : string) : string :=
  match s with
  | EmptyString => EmptyString
  | String c rest =>
      match rstrip rest with
      | EmptyString => if re_space c then EmptyString else String c EmptyString
      | kept => String c kept
      end
  end.

Definition strip (s : string) : string := rstrip (lstrip s).

(** A line item of an order: its [name], and the number [float] reads from
    its [quantity]; [None] for a name that is missing, and for a quantity
    that is missing or is no number. *)
Record line_item : Type := mkLineItem
  { li_name : option string
  ; li_quantity : option Z }.

(** An order: the date of its [created_at] ([None] when the field is missing
    or is no ISO date), and its line items. *)
Record order : Type := mkOrder
  { created_at : option Timestamp
  ; line_items : list line_item }.

(** [sales_data]: item name -> date key -> quantity, both levels in
    insertion order. *)
Definition sales : Type := list (string * list (string * Z)).

(** [dates[date_key] += quantity] on a [defaultdict(float)]. *)
Fixpoint add_to (dates : list (string * Z)) (date_key : string) (quantity : Z)
  : list (string * Z) :=
  match dates with
  | [] => [(date_key, (0 + quantity)%Z)]
  | (k, v) :: rest =>
      if String.eqb k date_key then (k, (v + quantity)%Z) :: rest
      else (k, v) :: add_to rest date_key quantity
  end.

(** [sales_data[item_name][date_key] += quantity]. *)
Fixpoint add_sale (sales_data : sales) (item_name date_key : string)
  (quantity : Z) : sales :=
  match sales_data with
  | [] => [(item_name, add_to [] date_key quantity)]
  | (i, dates) :: rest =>
      if String.eqb i item_name then (i, add_to dates date_key quantity) :: rest
      else (i, dates) :: add_sale rest item_name date_key quantity
  end.

(** One pass of the loop over the line items. *)
Definition process_item (date_key : string) (sales_data : sales)
  (item : line_item) : sales :=
  match li_name item with
  | None => sales_data
  | Some EmptyString => sales_data
  | Some name =>
      let item_name := strip name in
      match li_quantity item with
      | Some quantity =>
          if (0 <? quantity)%Z
          then add_sale sales_data item_name date_key quantity
          else sales_data
      | None => sales_data
      end
  end.

(** [_process_order(order, sales_data)]. *)
Definition process_order (o : order) (sales_data : sales) : sales :=
  match created_at o with
  | None => sales_data
  | Some order_date =>
      fold_left (process_item (date_key order_date)) (line_items o) sales_data
  end.

(** The loop [for order in orders] of [fetch_sales_data]. *)
Definition process_orders (orders : list order) (sales_data : sales) : sales :=
  fold_left (fun s o => process_order o s) orders sales_data.

(** [sales_data[item_name].get(date)]. *)
Definition quantity_of (sales_data : sales) (item_name date_key : string)
  : option Z :=
  match DateColumns.dict_lookup sales_data item_name with
  | Some dates => DateColumns.dict_lookup dates date_key
  | None => None
  end.

(** [print_summary]: the total quantity, and the five best-selling items. *)
Definition item_total (entry : string * list (string * Z)) : string * Z :=
  (fst entry, sum (map snd (snd entry))).

Definition total_quantity (sales_data : sales) : Z :=
  sum (map (fun entry => sum (map snd (snd entry))) sales_data).

Definition qty_geb (a b : string * Z) : bool := (snd b <=? snd a)%Z.

Definition top_items (sales_data : sales) : list (string * Z) :=
  firstn 5 (sort qty_geb (map item_total sales_data)).

End SquareFetcher.

(* ================================================================== *)
(** ** Reading the fetched quantities                                   *)
(* ================================================================== *)

Module SquareFetcherSpec.

Import Py.
Import SquareFetcher.
Local Open Scope string_scope.

(** A sale: item name, date key, quantity. *)
Definition sale : Type := (string * string * Z)%type.

(** The sale a line item counts as, if any: it has a non-empty name and a
    quantity above zero. *)
Definition item_sales (date_key : string) (item : line_item) : list sale :=
  match li_name item, li_quantity item with
  | Some name, Some quantity =>
      if negb (String.eqb name "") && (0 <? quantity)%Z
      then [(strip name, date_key, quantity)]
      else []
  | _, _ => []
  end.

(** The sales of a list of orders, in order. *)
Definition order_sales (o : order) : list sale :=
  match created_at o with
  | Some order_date => flat_map (item_sales (date_key order_date)) (line_items o)
  | None => []
  end.

Definition sales_of (orders : list order) : list sale :=
  flat_map order_sales orders.

Definition sale_at (item_name date_key : string) (s : sale) : bool :=
  String.eqb (fst (fst s)) item_name && String.eqb (snd (fst s)) date_key.

(** Storing one sale. *)
Definition store (s : sales) (p : sale) : sales :=
  add_sale s (fst (fst p)) (snd (fst p)) (snd p).

(** A calendar date as [datetime] has it. *)
Definition calendar_date (d : Calendar.Timestamp) : Prop :=
  (1 <= Calendar.month d <= 12)%Z /\ (1 <= Calendar.day d <= 31)%Z.

End SquareFetcherSpec.

(* ================================================================== *)
(** * Theorems                                                          *)
(* ================================================================== *)

(** Boolean tests on integers and naturals, read as propositions. *)
Ltac bool_to_prop :=
  repeat first
    [ rewrite orb_true_iff | rewrite andb_true_iff
    | rewrite Z.ltb_lt | rewrite Z.eqb_eq
    | rewrite Nat.ltb_lt | rewrite Nat.eqb_eq ].

(** Membership in an explicit list, case by case. *)
Ltac in_cases :=
  repeat match goal with
         | H : _ \/ _ |- _ => destruct H as [H | H]
         | H : False |- _ => destruct H
         end.

Section TrimmerFacts.

Import Trimmer.

Lemma scan_from_app (l1 l2 : list Z) : forall i s,
  scan_from i (l1 ++ l2) s = scan_from (i + List.length l1) l2 (scan_from i l1 s).
Proof.
  induction l1 as [| v l1 IH]; intros i s; simpl.
  - now rewrite Nat.add_0_r.
  - rewrite IH. f_equal. lia.
Qed.

Lemma launch_point_lt (values : list Z) (j : nat) :
  launch_point values j -> j < List.length values.
Proof.
  intros [[v [Hv _]] _]. apply nth_error_Some. congruence.
Qed.

Lemma launch_point_snoc_old (values : list Z) (v : Z) (j : nat) :
  j < List.length values ->
  (launch_point (values ++ [v]) j <-> launch_point values j).
Proof.
  intros Hj. unfold launch_point.
  rewrite nth_error_app1 by assumption.
  split; intros (Hv & H4 & Hz); repeat split; try assumption; intros k Hk.
  - rewrite <- (Hz k Hk). symmetry. apply nth_error_app1. lia.
  - rewrite nth_error_app1 by lia. now apply Hz.
Qed.

Lemma nth_error_snoc_last {A : Type} (l : list A) (x : A) :
  nth_error (l ++ [x]) (List.length l) = Some x.
Proof.
  rewrite nth_error_app2 by lia. now rewrite Nat.sub_diag.
Qed.

Lemma scanned_nil : scanned [] scan0.
Proof.
  constructor; simpl.
  - lia.
  - intros k Hk. lia.
  - intros Hk. lia.
  - intros j Hj. apply launch_point_lt in Hj. simpl in Hj. lia.
  - right. split; [reflexivity|]. intros j Hj.
    apply launch_point_lt in Hj. simpl in Hj. lia.
Qed.

Lemma scanned_snoc (values : list Z) (v : Z) (s : scan) :
  scanned values s ->
  scanned (values ++ [v]) (step (List.length values) v s).
Proof.
  intros [Hlen Hzeros Hstop Hmax Hhit].
  assert (Hold : forall j, launch_point (values ++ [v]) j ->
                           j < List.length values -> launch_point values j).
  { intros j Hj Hlt. now apply (proj1 (launch_point_snoc_old values v j Hlt)). }
  assert (Hnew : forall j, launch_point (values ++ [v]) j ->
                           j < List.length values \/ j = List.length values).
  { intros j Hj. apply launch_point_lt in Hj. rewrite length_app in Hj.
    simpl in Hj. lia. }
  unfold step. destruct (Z.eqb_spec v 0) as [Hv | Hv].
  - (* a zero: the run grows, no new launch point *)
    subst v. constructor; cbn [trim_idx consecutive_zeros]; rewrite ?length_app;
      cbn [List.length].
    + lia.
    + intros k Hk. destruct (Nat.eq_dec k (List.length values)) as [-> | Hne].
      * apply nth_error_snoc_last.
      * rewrite nth_error_app1 by lia. apply Hzeros. lia.
    + intros Hlt.
      replace (List.length values + 1 - S (S (consecutive_zeros s)))
        with (List.length values - S (consecutive_zeros s)) by lia.
      rewrite nth_error_app1 by lia. apply Hstop. lia.
    + intros j Hj. destruct (Hnew j Hj) as [Hlt | ->].
      * apply Hmax. now apply Hold.
      * destruct Hj as [[w [Hw Hw0]] _]. rewrite nth_error_snoc_last in Hw.
        congruence.
    + destruct Hhit as [Hhit | [H0 Hnone]].
      * left. apply launch_point_snoc_old; [now apply launch_point_lt | assumption].
      * right. split; [assumption|]. intros j Hj.
        destruct (Hnew j Hj) as [Hlt | ->].
        -- apply (Hnone j). now apply Hold.
        -- destruct Hj as [[w [Hw Hw0]] _]. rewrite nth_error_snoc_last in Hw.
           congruence.
  - (* a non-zero value: the run ends here *)
    assert (Hlast : launch_point (values ++ [v]) (List.length values) <->
                    4 <= consecutive_zeros s).
    { split.
      - intros (_ & H4 & Hz).
        destruct (le_lt_dec 4 (consecutive_zeros s)) as [Hge | Hlt]; [assumption|].
        exfalso.
        assert (Hc : consecutive_zeros s < List.length values) by lia.
        destruct (Hstop Hc) as [w [Hw Hw0]].
        specialize (Hz (List.length values - S (consecutive_zeros s))).
        rewrite nth_error_app1 in Hz by lia.
        rewrite Hw in Hz. assert (Some w = Some 0%Z) by (apply Hz; lia).
        congruence.
      - intros Hge. repeat split.
        + exists v. split; [apply nth_error_snoc_last | assumption].
        + lia.
        + intros k Hk. rewrite nth_error_app1 by lia. apply Hzeros. lia. }
    constructor; cbn [trim_idx consecutive_zeros]; rewrite ?length_app;
      cbn [List.length].
    + lia.
    + intros k Hk. lia.
    + intros _. replace (List.length values + 1 - 1) with (List.length values) by lia.
      exists v. split; [apply nth_error_snoc_last | assumption].
    + intros j Hj. destruct (Hnew j Hj) as [Hlt | ->].
      * apply Hold in Hj; [|assumption]. apply Hmax in Hj.
        destruct (Nat.leb_spec 4 (consecutive_zeros s)); [lia | assumption].
      * apply Hlast in Hj. destruct (Nat.leb_spec 4 (consecutive_zeros s)); lia.
    + destruct (Nat.leb_spec 4 (consecutive_zeros s)) as [Hge | Hlt].
      * left. now apply Hlast.
      * destruct Hhit as [Hhit | [H0 Hnone]].
        -- left. apply launch_point_snoc_old; [now apply launch_point_lt | assumption].
        -- right. split; [assumption|]. intros j Hj.
           destruct (Hnew j Hj) as [Hlt' | ->].
           ++ apply (Hnone j). now apply Hold.
           ++ apply Hlast in Hj. lia.
Qed.

Lemma scanned_scan (values : list Z) :
  scanned values (scan_from 0 values scan0).
Proof.
  induction values as [| v values IH] using rev_ind.
  - apply scanned_nil.
  - rewrite scan_from_app. cbn [scan_from Nat.add].
    now apply scanned_snoc.
Qed.

Lemma find_trim_idx_le (values : list Z) :
  find_trim_idx values <= List.length values.
Proof.
  destruct (sc_hit (scanned_scan values)) as [Hhit | [H0 _]].
  - apply launch_point_lt in Hhit. unfold find_trim_idx. lia.
  - unfold find_trim_idx. lia.
Qed.

Lemma launch_point_suffix (values : list Z) (t j : nat) :
  launch_point (skipn t values) j -> launch_point values (t + j).
Proof.
  intros ((v & Hv & Hv0) & H4 & Hz). repeat split.
  - exists v. split; [|assumption]. now rewrite <- nth_error_skipn.
  - lia.
  - intros k Hk. replace k with (t + (k - t)) by lia.
    rewrite <- nth_error_skipn. apply Hz. lia.
Qed.

Lemma scan_zeros (k : nat) : forall i s,
  trim_idx (scan_from i (repeat 0%Z k) s) = trim_idx s.
Proof.
  induction k as [| k IH]; intros i s; [reflexivity|].
  cbn [repeat scan_from]. rewrite IH. reflexivity.
Qed.

(** C1.  The trim index the scan returns is the position of the last
    non-zero value that comes right after a run of four or more zeros
    (it is such a position, and no such position lies beyond it), and it is 0
    when no position qualifies; the trimmed series is the suffix of the input
    that starts there.  On [0,0,0,0,0,3,4,0,0,0,0,2,5,6] the index is 11 and
    the trimmed series is [2,5,6]. *)
Theorem trimmer_cuts_at_last_launch_point :
  (forall values : list Z,
     let t := find_trim_idx values in
     (forall j, launch_point values j -> j <= t) /\
     (launch_point values t \/ (t = 0 /\ forall j, ~ launch_point values j)) /\
     t <= List.length values /\
     List.length (trimmed_values values) = List.length values - t /\
     values = firstn t values ++ trimmed_values values) /\
  find_trim_idx [0; 0; 0; 0; 0; 3; 4; 0; 0; 0; 0; 2; 5; 6]%Z = 11 /\
  trimmed_values [0; 0; 0; 0; 0; 3; 4; 0; 0; 0; 0; 2; 5; 6]%Z = [2; 5; 6]%Z.
Proof.
  split; [| split; reflexivity].
  intros values t. pose proof (scanned_scan values) as Hs.
  repeat split.
  - exact (sc_max Hs).
  - exact (sc_hit Hs).
  - apply find_trim_idx_le.
  - unfold trimmed_values, slice_from. apply length_skipn.
  - unfold trimmed_values, slice_from. symmetry. apply firstn_skipn.
Qed.

(** C6.  Trimming is idempotent: on a series the trimmer has produced, the
    scan finds trim index 0 and the series is returned unchanged. *)
Theorem trimmer_idempotent (values : list Z) :
  find_trim_idx (trimmed_values values) = 0 /\
  trimmed_values (trimmed_values values) = trimmed_values values.
Proof.
  assert (H0 : find_trim_idx (trimmed_values values) = 0).
  { destruct (sc_hit (scanned_scan (trimmed_values values))) as [Hhit | [H0 _]];
      [| exact H0].
    exfalso. pose proof Hhit as (_ & H4 & _).
    apply launch_point_suffix in Hhit.
    apply (sc_max (scanned_scan values)) in Hhit.
    fold (find_trim_idx values) in Hhit.
    fold (find_trim_idx (trimmed_values values)) in H4, Hhit. lia. }
  split; [exact H0|].
  unfold trimmed_values at 1. now rewrite H0.
Qed.

(** C9.  A positive trim index points at a non-zero value, which is the
    first element of the trimmed series; zeros appended at the end of a series
    leave the trim index where it was and are all kept in the output. *)
Theorem trimmer_starts_nonzero_keeps_trailing_zeros (values : list Z) :
  (0 < find_trim_idx values ->
   exists v, nth_error values (find_trim_idx values) = Some v /\
             hd_error (trimmed_values values) = Some v /\
             v <> 0%Z) /\
  (forall k : nat,
     find_trim_idx (values ++ repeat 0%Z k) = find_trim_idx values /\
     trimmed_values (values ++ repeat 0%Z k) =
       trimmed_values values ++ repeat 0%Z k).
Proof.
  split.
  - intros Hpos.
    destruct (sc_hit (scanned_scan values)) as [Hhit | [H0 _]].
    + destruct Hhit as ((v & Hv & Hv0) & _). exists v. repeat split.
      * exact Hv.
      * unfold trimmed_values, slice_from. now rewrite hd_error_skipn.
      * exact Hv0.
    + unfold find_trim_idx in Hpos. lia.
  - intros k.
    assert (Hidx : find_trim_idx (values ++ repeat 0%Z k) = find_trim_idx values).
    { unfold find_trim_idx. rewrite scan_from_app. apply scan_zeros. }
    split; [exact Hidx|].
    unfold trimmed_values, slice_from. rewrite Hidx, skipn_app.
    pose proof (find_trim_idx_le values) as Hle.
    replace (find_trim_idx values - List.length values) with 0 by lia.
    reflexivity.
Qed.

End TrimmerFacts.

Section ForecastFacts.

Import Py.
Import ForecastAdapter.

Variable Timestamp : Type.
Variable forecast_frame : Type.
Variable model : Type.
Variable to_datetime_md : string -> option Timestamp.
Variable to_datetime_2024 : Timestamp -> option Timestamp.
Variable prophet : list (Timestamp * Z) -> nat -> option (forecast_frame * model).

Local Abbreviation forecast :=
  (create_prophet_forecast to_datetime_md to_datetime_2024 prophet).
Local Abbreviation frame_of :=
  (prophet_frame to_datetime_md to_datetime_2024).
Local Abbreviation guards_fail :=
  (ForecastAdapter.guards_fail to_datetime_md to_datetime_2024).

Lemma data_frame_same_length (ds : list (option Timestamp)) (y : list Z) :
  List.length ds = List.length y -> data_frame ds y = Some (combine ds y).
Proof.
  intros H. unfold data_frame. now rewrite H, Nat.eqb_refl.
Qed.

Lemma forecast_cases (dates : list string) (values : list Z) (periods : nat) :
  List.length dates = List.length values ->
  (guards_fail dates values /\ forecast dates values periods = ([], None)) \/
  (~ guards_fail dates values /\
   forecast dates values periods =
     ([Fit (frame_of dates values) periods],
      match prophet (frame_of dates values) periods with
      | None => None
      | Some (fc, fitted) =>
          Some (fc, frame_of dates values, fitted, Trimmer.find_trim_idx values)
      end)).
Proof.
  intros Hlen. unfold create_prophet_forecast, guards_fail.
  destruct (Nat.ltb_spec (List.length values) 10) as [H10 | H10];
    [left; split; [left; assumption | reflexivity] |].
  destruct (Z.eqb_spec (sum values) 0) as [Hsum | Hsum];
    [left; split; [right; left; assumption | reflexivity] |].
  cbn [orb].
  fold (Trimmer.trimmed_values values).
  destruct (Nat.ltb_spec (List.length (Trimmer.trimmed_values values)) 5)
    as [H5 | H5];
    [left; split; [right; right; left; assumption | reflexivity] |].
  rewrite data_frame_same_length.
  2:{ rewrite length_map. unfold Trimmer.trimmed_values, Trimmer.slice_from.
      rewrite !length_skipn. now rewrite Hlen. }
  change (dropna (combine
            (map (parse_ds to_datetime_md to_datetime_2024)
               (Trimmer.slice_from (Trimmer.find_trim_idx values) dates))
            (Trimmer.trimmed_values values)))
    with (frame_of dates values).
  destruct (Nat.ltb_spec (List.length (frame_of dates values)) 5) as [Hp | Hp];
    [left; split; [right; right; right; assumption | reflexivity] |].
  right. split; [lia |].
  destruct (prophet (frame_of dates values) periods) as [[fc fitted] |];
    reflexivity.
Qed.


End ForecastFacts.


Section NameFacts.

Import Py.
Import Quantity.
Local Open Scope string_scope.

Lemma dict_get_set (d : list (string * string)) (k v x : string) :
  dict_get (dict_set d k v) x = if String.eqb k x then Some v else dict_get d x.
Proof.
  induction d as [| [k' v'] d IH]; cbn [dict_set dict_get].
  - reflexivity.
  - destruct (String.eqb_spec k' k) as [-> | Hk]; cbn [dict_get].
    + destruct (String.eqb k x); reflexivity.
    + rewrite IH. destruct (String.eqb_spec k' x) as [-> | Hx]; [| reflexivity].
      destruct (String.eqb_spec k x); [congruence | reflexivity].
Qed.

Lemma dict_get_add_sources (target : string) (sources : list string) :
  forall d x,
    dict_get (add_sources target sources d) x =
    if existsb (String.eqb x) sources then Some target else dict_get d x.
Proof.
  unfold add_sources.
  induction sources as [| s sources IH]; intros d x; cbn [fold_left existsb].
  - reflexivity.
  - rewrite IH, dict_get_set. rewrite (String.eqb_sym x s).
    destruct (existsb (String.eqb x) sources), (String.eqb s x); reflexivity.
Qed.

Lemma dict_get_unlisted (mappings : list (string * list string)) (x : string) :
  (forall target sources, In (target, sources) mappings -> ~ In x sources) ->
  forall d,
    dict_get (fold_left (fun d entry => add_sources (fst entry) (snd entry) d)
                        mappings d) x
    = dict_get d x.
Proof.
  induction mappings as [| [target sources] mappings IH]; intros Hnone d;
    cbn [fold_left fst snd].
  - reflexivity.
  - rewrite IH by (intros t s Hin; apply (Hnone t s); now right).
    rewrite dict_get_add_sources.
    destruct (existsb (String.eqb x) sources) eqn:Hex; [| reflexivity].
    exfalso. apply existsb_exists in Hex as (y & Hy & Hxy).
    apply String.eqb_eq in Hxy. subst y.
    apply (Hnone target sources); [now left | assumption].
Qed.

Lemma dict_get_In (d : list (string * string)) (k v : string) :
  dict_get d k = Some v -> In v (map snd d).
Proof.
  induction d as [| [k' v'] d IH]; cbn [dict_get map snd]; [discriminate |].
  destruct (String.eqb k' k).
  - intros [= ->]. now left.
  - intros H. right. now apply IH.
Qed.

(** Every listed variant maps to the target of its entry. *)
Lemma listed_variants_checked :
  forallb (fun entry =>
             forallb (fun source => String.eqb (clean_item_name source) (fst entry))
                     (snd entry))
          item_mappings = true.
Proof. vm_compute. reflexivity. Qed.

(** Every target is one of its own variants. *)
Lemma targets_listed_checked :
  forallb (fun entry => existsb (String.eqb (fst entry)) (snd entry))
          item_mappings = true.
Proof. vm_compute. reflexivity. Qed.

(** Every value of [reverse_mapping] maps to itself. *)
Lemma targets_fixed_checked :
  forallb (fun target => String.eqb (clean_item_name target) target)
          (map snd reverse_mapping) = true.
Proof. vm_compute. reflexivity. Qed.

Lemma clean_listed (target : string) (sources : list string) (x : string) :
  In (target, sources) item_mappings -> In x sources ->
  clean_item_name x = target.
Proof.
  intros Hentry Hx.
  pose proof listed_variants_checked as H.
  rewrite forallb_forall in H. specialize (H _ Hentry). cbn [fst snd] in H.
  rewrite forallb_forall in H. now apply String.eqb_eq, H.
Qed.

Lemma clean_unlisted (x : string) :
  (forall target sources, In (target, sources) item_mappings -> ~ In x sources) ->
  clean_item_name x = x.
Proof.
  intros Hnone. unfold clean_item_name, reverse_mapping, build_reverse_mapping.
  now rewrite dict_get_unlisted.
Qed.

End NameFacts.

Section AggregateExample.

Import Py.
Import Calendar.
Import Quantity.
Local Open Scope string_scope.

Lemma Calendar_eqb_eq (a b : Timestamp) : Calendar.eqb a b = true <-> a = b.
Proof.
  unfold Calendar.eqb. rewrite !andb_true_iff, !Z.eqb_eq.
  destruct a as [ya ma da], b as [yb mb db]; cbn [year month day].
  split.
  - intros [[-> ->] ->]. reflexivity.
  - intros [= -> -> ->]. auto.
Qed.

Lemma Calendar_eqb_refl (a : Timestamp) : Calendar.eqb a a = true.
Proof. now apply Calendar_eqb_eq. Qed.

Lemma key_eqb_eq (a b : key) : key_eqb a b = true <-> a = b.
Proof.
  unfold key_eqb. rewrite andb_true_iff, Calendar_eqb_eq, String.eqb_eq.
  destruct a, b; cbn [fst snd]. split.
  - intros [-> ->]. reflexivity.
  - intros [= -> ->]. auto.
Qed.

Lemma key_eqb_refl (a : key) : key_eqb a a = true.
Proof. now apply key_eqb_eq. Qed.

Lemma nodup_twice {A : Type} (dec : forall x y : A, {x = y} + {x <> y}) (k : A) :
  nodup dec [k; k] = [k].
Proof.
  cbn [nodup]. destruct (in_dec dec k [k]) as [_ | Hout].
  - destruct (in_dec dec k []) as [[] | _]. reflexivity.
  - exfalso. apply Hout. now left.
Qed.

Lemma egg_tarts_summed (date : Timestamp) (category : string) (q1 q2 : Z) :
  isin category target_categories = true ->
  day_name date <> "Monday" ->
  daily_qty (load_transaction_data
               [ mkTransaction date "Egg Tart" category q1
               ; mkTransaction date "Crispy Egg Tart" category q2 ])
  = [((date, "Crispy Egg Tart"), (q1 + q2)%Z)].
Proof.
  intros Hcat Hday. apply String.eqb_neq in Hday.
  unfold daily_qty, df_filtered, load_transaction_data.
  cbn [map filter Category t_Category t_Date t_Item t_Qty].
  rewrite Hcat. cbn [filter Day_of_Week]. rewrite Hday.
  cbn [negb clean_item_names map Item Date Qty Category Day_of_Week].
  replace (clean_item_name "Egg Tart") with "Crispy Egg Tart"
    by (vm_compute; reflexivity).
  replace (clean_item_name "Crispy Egg Tart") with "Crispy Egg Tart"
    by (vm_compute; reflexivity).
  cbn [filter Item].
  replace (is_special "Crispy Egg Tart") with false by (vm_compute; reflexivity).
  cbn [negb].
  unfold groupby_sum, group_keys, group_sum, row_key. cbn [map Date Item].
  rewrite nodup_twice.
  unfold Py.sort. cbn [fold_right Py.insert map].
  cbn [filter Date Item]. rewrite key_eqb_refl.
  cbn [map Qty]. unfold sum. cbn [fold_left]. reflexivity.
Qed.

End AggregateExample.

Section NormalizerTheorems.

Import Py.
Import Calendar.
Import Quantity.
Local Open Scope string_scope.

(** C7.  A raw name that appears in a variant list of the synonym table is
    mapped to the target of that list, by exact comparison of the strings
    (a name that differs only in case is not matched); a name that appears in
    no variant list is returned unchanged.  "Egg Tart" and "Crispy Egg Tart"
    both become "Crispy Egg Tart", and two transactions with these names on
    one date, which pass the category and weekday filters, give a single
    Daily Aggregate entry holding the sum of their quantities. *)
Theorem clean_item_name_exact_match :
  (forall target sources x,
     In (target, sources) item_mappings -> In x sources ->
     clean_item_name x = target) /\
  (forall x,
     (forall target sources, In (target, sources) item_mappings -> ~ In x sources) ->
     clean_item_name x = x) /\
  clean_item_name "egg tart" = "egg tart" /\
  clean_item_name "Egg Tart" = "Crispy Egg Tart" /\
  clean_item_name "Crispy Egg Tart" = "Crispy Egg Tart" /\
  (forall (date : Timestamp) (category : string) (q1 q2 : Z),
     isin category target_categories = true ->
     day_name date <> "Monday" ->
     daily_qty (load_transaction_data
                  [ mkTransaction date "Egg Tart" category q1
                  ; mkTransaction date "Crispy Egg Tart" category q2 ])
     = [((date, "Crispy Egg Tart"), (q1 + q2)%Z)]).
Proof.
  split; [exact clean_listed |].
  split; [exact clean_unlisted |].
  split; [vm_compute; reflexivity |].
  split; [vm_compute; reflexivity |].
  split; [vm_compute; reflexivity |].
  exact egg_tarts_summed.
Qed.

(** C10.  Every target name of the synonym table is one of its own variants
    and is mapped to itself; hence normalizing a normalized name changes
    nothing. *)
Theorem clean_item_name_idempotent :
  (forall target sources,
     In (target, sources) item_mappings ->
     In target sources /\ clean_item_name target = target) /\
  (forall x, clean_item_name (clean_item_name x) = clean_item_name x).
Proof.
  split.
  - intros target sources Hentry.
    assert (Hin : In target sources).
    { pose proof targets_listed_checked as H. rewrite forallb_forall in H.
      specialize (H _ Hentry). cbn [fst snd] in H.
      apply existsb_exists in H as (y & Hy & Heq).
      apply String.eqb_eq in Heq. now subst y. }
    split; [exact Hin |]. exact (clean_listed target sources target Hentry Hin).
  - intros x. unfold clean_item_name at 2 3.
    destruct (dict_get reverse_mapping x) as [target |] eqn:Hget.
    + apply dict_get_In in Hget.
      pose proof targets_fixed_checked as H. rewrite forallb_forall in H.
      now apply String.eqb_eq, H.
    + unfold clean_item_name. now rewrite Hget.
Qed.

End NormalizerTheorems.

Section FilenameFacts.

Import Py.
Import GridPlots.
Local Open Scope string_scope.

Lemma re_sub_class_filter (cls : ascii -> bool) (s : string) :
  re_sub_class cls s = filter_string (fun c => negb (cls c)) s.
Proof.
  induction s as [| c s IH]; cbn [re_sub_class filter_string]; [reflexivity |].
  rewrite IH. now destruct (cls c).
Qed.

Lemma filter_string_ext (p q : ascii -> bool) (s : string) :
  (forall c, p c = q c) -> filter_string p s = filter_string q s.
Proof.
  intros Hpq. induction s as [| c s IH]; cbn [filter_string]; [reflexivity |].
  now rewrite Hpq, IH.
Qed.

Lemma pattern_class_kept (c : ascii) : negb (pattern_class c) = kept_char c.
Proof.
  unfold pattern_class, kept_char, re_word. rewrite negb_involutive.
  now rewrite <- !orb_assoc.
Qed.

Lemma space_is_32 (c : ascii) : (ord c =? 32)%nat = true <-> c = " "%char.
Proof.
  rewrite Nat.eqb_eq. unfold ord. split.
  - intros H. rewrite <- (ascii_nat_embedding c), H. reflexivity.
  - intros ->. reflexivity.
Qed.

Lemma replace_space_underscore (s : string) :
  replace " " "_" s = map_string space_to_underscore s.
Proof.
  unfold replace.
  induction s as [| c s IH]; cbn [replace_from map_string]; [reflexivity |].
  unfold space_to_underscore at 1.
  cbn [prefix String.length Nat.sub].
  destruct (Nat.eqb_spec (ord c) 32) as [H32 | H32].
  - assert (Hc : c = " "%char) by (apply space_is_32; now apply Nat.eqb_eq).
    subst c. destruct (ascii_dec " " " ") as [_ | Hne]; [| congruence].
    destruct s; cbn [append]; now rewrite <- IH.
  - destruct (ascii_dec " " c) as [Heq | _].
    + subst c. exfalso. apply H32. reflexivity.
    + now rewrite IH.
Qed.

Lemma filter_map_space (s : string) :
  filter_string isalnum (map_string space_to_underscore s) = filter_string isalnum s.
Proof.
  induction s as [| c s IH]; cbn [filter_string map_string]; [reflexivity |].
  rewrite IH. unfold space_to_underscore.
  destruct (Nat.eqb_spec (ord c) 32) as [H32 | H32]; [| reflexivity].
  assert (Hc : c = " "%char) by (apply space_is_32; now apply Nat.eqb_eq).
  subst c. reflexivity.
Qed.

Lemma filter_filter_alnum (s : string) :
  filter_string isalnum (filter_string kept_char s) = filter_string isalnum s.
Proof.
  induction s as [| c s IH]; cbn [filter_string]; [reflexivity |].
  unfold kept_char at 1.
  destruct (isalnum c) eqn:Ha; cbn [orb filter_string].
  - now rewrite Ha, IH.
  - destruct ((ord c =? 95)%nat || re_space c || (ord c =? 45)%nat);
      cbn [filter_string]; now rewrite ?Ha, IH.
Qed.

End FilenameFacts.

Section FilenameTheorems.

Import Py.
Import GridPlots.
Local Open Scope string_scope.

Lemma ord_is (n : nat) (c : ascii) :
  n < 256 -> ((ord c =? n)%nat = true <-> c = ascii_of_nat n).
Proof.
  intros Hn. rewrite Nat.eqb_eq. unfold ord. split.
  - intros H. now rewrite <- (ascii_nat_embedding c), H.
  - intros ->. now apply nat_ascii_embedding.
Qed.

(** C8, as stated, fails: the name "Kouign-Amann" is its own canonical name,
    and its file name keeps the hyphen, which is not alphanumeric; either way
    of reading the stated derivation gives another file name. *)
Lemma filename_keeps_hyphen :
  Quantity.clean_item_name "Kouign-Amann" = "Kouign-Amann" /\
  filename "Kouign-Amann" = "Kouign-Amann_grid_plot.png" /\
  spec_filename_stepwise "Kouign-Amann" = "KouignAmann_grid_plot.png" /\
  spec_filename_spaces "Kouign-Amann" = "KouignAmann_grid_plot.png" /\
  isalnum "-"%char = false.
Proof. vm_compute. repeat split; reflexivity. Qed.

(** C8, amended.  The file name of an item's grid plot is the item name with
    every character deleted that is neither alphanumeric, nor an underscore,
    nor whitespace, nor a hyphen, then every space replaced by an underscore,
    then "_grid_plot.png" appended; the alphanumeric characters of the name
    are all kept, in their order. *)
Theorem filename_keeps_word_space_hyphen (item_name : string) :
  filename item_name =
    map_string space_to_underscore (filter_string kept_char item_name)
    ++ "_grid_plot.png" /\
  filter_string isalnum (safe_filename item_name) = filter_string isalnum item_name /\
  (forall c, kept_char c = true <->
             isalnum c = true \/ c = "_"%char \/ re_space c = true \/ c = "-"%char) /\
  (forall c, space_to_underscore c = if Ascii.eqb c " " then "_"%char else c).
Proof.
  assert (Hsafe : safe_filename item_name =
                  map_string space_to_underscore (filter_string kept_char item_name)).
  { unfold safe_filename.
    rewrite replace_space_underscore, re_sub_class_filter.
    f_equal. apply filter_string_ext. exact pattern_class_kept. }
  split; [| split; [| split]].
  - unfold filename. now rewrite Hsafe.
  - rewrite Hsafe, filter_map_space. apply filter_filter_alnum.
  - intros c. unfold kept_char. rewrite !orb_true_iff.
    rewrite (ord_is 95 c), (ord_is 45 c) by lia.
    change (ascii_of_nat 95) with "_"%char.
    change (ascii_of_nat 45) with "-"%char. tauto.
  - intros c. unfold space_to_underscore.
    destruct (Nat.eqb_spec (ord c) 32) as [H32 | H32].
    + assert (Hc : c = " "%char) by (apply space_is_32; now apply Nat.eqb_eq).
      now subst c.
    + destruct (Ascii.eqb_spec c " ") as [-> | _]; [| reflexivity].
      exfalso. apply H32. reflexivity.
Qed.

End FilenameTheorems.

Section SortFacts.

Import Py.

Context {A : Type} (leb : A -> A -> bool).

Lemma insert_perm (x : A) (l : list A) : Permutation (insert leb x l) (x :: l).
Proof.
  induction l as [| y l IH]; cbn [insert]; [reflexivity |].
  destruct (leb x y); [reflexivity |].
  rewrite IH. apply perm_swap.
Qed.

Lemma sort_perm (l : list A) : Permutation (sort leb l) l.
Proof.
  unfold sort. induction l as [| x l IH]; cbn [fold_right]; [reflexivity |].
  rewrite insert_perm. now apply perm_skip.
Qed.

Lemma sort_In (x : A) (l : list A) : In x (sort leb l) <-> In x l.
Proof.
  split; apply Permutation_in; [| symmetry]; apply sort_perm.
Qed.

Lemma sort_NoDup (l : list A) : NoDup l -> NoDup (sort leb l).
Proof.
  apply Permutation_NoDup. symmetry. apply sort_perm.
Qed.

Lemma sort_length (l : list A) : List.length (sort leb l) = List.length l.
Proof. apply Permutation_length, sort_perm. Qed.

Hypothesis leb_total : forall a b, leb a b = true \/ leb b a = true.
Hypothesis leb_trans : forall a b c, leb a b = true -> leb b c = true -> leb a c = true.

Lemma insert_sorted (x : A) (l : list A) :
  StronglySorted (fun a b => leb a b = true) l ->
  StronglySorted (fun a b => leb a b = true) (insert leb x l).
Proof.
  induction 1 as [| y l Hsorted IH Hall]; cbn [insert].
  - constructor; constructor.
  - destruct (leb x y) eqn:Hxy.
    + constructor; [now constructor |].
      constructor; [assumption |].
      rewrite Forall_forall in Hall |- *. intros z Hz.
      apply leb_trans with y; [assumption | now apply Hall].
    + constructor; [assumption |].
      rewrite Forall_forall in Hall |- *. intros z Hz.
      apply (Permutation_in _ (insert_perm x l)) in Hz.
      destruct Hz as [<- | Hz]; [| now apply Hall].
      destruct (leb_total x y) as [H | H]; [congruence | assumption].
Qed.

Lemma sort_sorted (l : list A) :
  StronglySorted (fun a b => leb a b = true) (sort leb l).
Proof.
  unfold sort. induction l as [| x l IH]; cbn [fold_right].
  - constructor.
  - now apply insert_sorted.
Qed.

End SortFacts.

Section SortMap.

Import Py.

Context {A B : Type} (f : A -> B) (leb : A -> A -> bool) (leb' : B -> B -> bool).
Hypothesis leb_map : forall a b, leb' (f a) (f b) = leb a b.

Lemma insert_map (x : A) (l : list A) :
  insert leb' (f x) (map f l) = map f (insert leb x l).
Proof.
  induction l as [| y l IH]; cbn [insert map]; [reflexivity |].
  rewrite leb_map. destruct (leb x y); cbn [map]; [reflexivity |].
  now rewrite IH.
Qed.

Lemma sort_map (l : list A) : sort leb' (map f l) = map f (sort leb l).
Proof.
  unfold sort. induction l as [| x l IH]; cbn [fold_right map]; [reflexivity |].
  now rewrite IH, insert_map.
Qed.

End SortMap.

Section SumFacts.

Import Py.
Import Quantity.
Local Open Scope Z_scope.

Lemma fold_add_acc (qs : list Z) (a : Z) :
  fold_left Z.add qs a = a + fold_left Z.add qs 0.
Proof.
  revert a. induction qs as [| q qs IH]; intros a; cbn [fold_left]; [lia |].
  rewrite (IH (a + q)), (IH (0 + q)). lia.
Qed.

Lemma sum_cons (q : Z) (qs : list Z) : sum (q :: qs) = q + sum qs.
Proof. unfold sum. cbn [fold_left]. rewrite fold_add_acc. lia. Qed.

Lemma sum_nil : sum [] = 0.
Proof. reflexivity. Qed.

Lemma sum_perm (l l' : list Z) : Permutation l l' -> sum l = sum l'.
Proof.
  induction 1 as [| x l l' _ IH | x y l | l l' l'' _ IH1 _ IH2];
    rewrite ?sum_cons; lia.
Qed.

Lemma sum_map_add {K : Type} (f g : K -> Z) (ks : list K) :
  sum (map (fun k => f k + g k) ks) = sum (map f ks) + sum (map g ks).
Proof.
  induction ks as [| k ks IH]; cbn [map]; rewrite ?sum_cons, ?sum_nil; lia.
Qed.

Lemma sum_map_zero {K : Type} (f : K -> Z) (ks : list K) :
  (forall k, In k ks -> f k = 0) -> sum (map f ks) = 0.
Proof.
  induction ks as [| k ks IH]; intros Hz; cbn [map]; rewrite ?sum_cons.
  - reflexivity.
  - rewrite Hz by now left. rewrite IH; [lia |]. intros k' Hk'. apply Hz. now right.
Qed.

Lemma sum_indicator (k0 : key) (q : Z) (ks : list key) :
  NoDup ks -> In k0 ks ->
  sum (map (fun k => if key_eqb k0 k then q else 0) ks) = q.
Proof.
  induction 1 as [| k ks Hnotin Hnodup IH]; intros Hin; [contradiction |].
  cbn [map]. rewrite sum_cons. destruct Hin as [-> | Hin].
  - rewrite key_eqb_refl. rewrite sum_map_zero; [lia |].
    intros k Hk. destruct (key_eqb k0 k) eqn:Heq; [| reflexivity].
    apply key_eqb_eq in Heq. now subst k.
  - rewrite IH by assumption.
    destruct (key_eqb k0 k) eqn:Heq; [| lia].
    apply key_eqb_eq in Heq. now subst k.
Qed.

Lemma group_sum_cons (r : Row) (df : list Row) (k : key) :
  group_sum (r :: df) k =
  (if key_eqb (row_key r) k then Qty r else 0) + group_sum df k.
Proof.
  unfold group_sum. cbn [filter].
  destruct (key_eqb (row_key r) k); cbn [map]; rewrite ?sum_cons; lia.
Qed.

Lemma groups_total (ks : list key) (df : list Row) :
  NoDup ks -> (forall r, In r df -> In (row_key r) ks) ->
  sum (map (group_sum df) ks) = sum (map Qty df).
Proof.
  intros Hnodup. induction df as [| r df IH]; intros Hkeys.
  - apply sum_map_zero. reflexivity.
  - cbn [map]. rewrite sum_cons.
    rewrite (map_ext _ _ (group_sum_cons r df)).
    rewrite sum_map_add, sum_indicator by (auto; apply Hkeys; now left).
    rewrite IH; [reflexivity |]. intros r' Hr'. apply Hkeys. now right.
Qed.

Lemma group_keys_NoDup (df : list Row) : NoDup (group_keys df).
Proof. apply sort_NoDup, NoDup_nodup. Qed.

Lemma group_keys_In (df : list Row) (k : key) :
  In k (group_keys df) <-> exists r, In r df /\ row_key r = k.
Proof.
  unfold group_keys. rewrite sort_In, nodup_In, in_map_iff.
  split; intros (r & H1 & H2); exists r; auto.
Qed.

Lemma groupby_total (df : list Row) :
  sum (map snd (groupby_sum df)) = sum (map Qty df).
Proof.
  unfold groupby_sum. rewrite map_map. cbn [snd].
  apply groups_total; [apply group_keys_NoDup |].
  intros r Hr. apply group_keys_In. now exists r.
Qed.

End SumFacts.

Section AggregatorTheorems.

Import Py.
Import Calendar.
Import Quantity.
Local Open Scope string_scope.

(** The rows that reach the group-by are the loaded transactions that pass
    the documented filters, with their names cleaned. *)
Lemma df_filtered_load (csv : list Transaction) :
  df_filtered (load_transaction_data csv) =
  map (fun t => mkRow (t_Date t) (clean_item_name (t_Item t)) (t_Category t)
                      (t_Qty t) (day_name (t_Date t)))
      (filter passes_filters csv).
Proof.
  unfold df_filtered, load_transaction_data, clean_item_names.
  induction csv as [| t csv IH]; [reflexivity |].
  cbn [map filter Category]. unfold passes_filters at 1.
  destruct (isin (t_Category t) target_categories); cbn [andb].
  - cbn [filter Day_of_Week].
    destruct (String.eqb (day_name (t_Date t)) "Monday"); cbn [negb andb].
    + exact IH.
    + cbn [map filter Item].
      destruct (is_special (clean_item_name (t_Item t))); cbn [negb].
      * exact IH.
      * cbn [map Date Item Category Qty Day_of_Week]. now rewrite IH.
  - exact IH.
Qed.


End AggregatorTheorems.

Section CalendarFacts.

Import Py.
Import Calendar.
Import Quantity.
Local Open Scope string_scope.

Lemma Calendar_ltb_iff (a b : Timestamp) :
  Calendar.ltb a b = true <->
  (year a < year b \/
   (year a = year b /\
    (month a < month b \/ (month a = month b /\ day a < day b))))%Z.
Proof.
  unfold Calendar.ltb.
  bool_to_prop. tauto.
Qed.

Lemma Calendar_eqb_iff (a b : Timestamp) :
  Calendar.eqb a b = true <->
  (year a = year b /\ month a = month b /\ day a = day b)%Z.
Proof.
  unfold Calendar.eqb.
  bool_to_prop. tauto.
Qed.

Lemma column_leb_iff (a b : Timestamp) :
  column_leb a b = true <->
  (weekday_index a < weekday_index b \/
   (weekday_index a = weekday_index b /\
    (Calendar.ltb a b = true \/ Calendar.eqb a b = true)))%nat.
Proof.
  unfold column_leb, sort_key_leb, Calendar.leb. cbn [fst snd].
  bool_to_prop. tauto.
Qed.

Lemma column_leb_total (a b : Timestamp) :
  column_leb a b = true \/ column_leb b a = true.
Proof.
  rewrite !column_leb_iff, !Calendar_ltb_iff, !Calendar_eqb_iff. lia.
Qed.

Lemma column_leb_trans (a b c : Timestamp) :
  column_leb a b = true -> column_leb b c = true -> column_leb a c = true.
Proof.
  rewrite !column_leb_iff, !Calendar_ltb_iff, !Calendar_eqb_iff. lia.
Qed.

Lemma column_leb_before (a b : Timestamp) :
  column_leb a b = true -> a <> b -> column_before a b.
Proof.
  rewrite column_leb_iff. unfold column_before.
  intros [Hlt | [Heq [Hlt | Heqb]]] Hne; [now left | now right |].
  apply Calendar_eqb_eq in Heqb. contradiction.
Qed.

Lemma dayofweek_range (t : Timestamp) : (0 <= dayofweek t < 7)%Z.
Proof. unfold dayofweek. apply Z.mod_pos_bound. lia. Qed.

(** [day_name] returns one of the seven names. *)
Lemma day_name_cases (t : Timestamp) :
  day_name t = "Monday" \/
  In (day_name t)
     ["Tuesday"; "Wednesday"; "Thursday"; "Friday"; "Saturday"; "Sunday"].
Proof.
  unfold day_name. pose proof (dayofweek_range t) as Hr.
  assert (Hz : (dayofweek t = 0 \/ dayofweek t = 1 \/ dayofweek t = 2 \/
                dayofweek t = 3 \/ dayofweek t = 4 \/ dayofweek t = 5 \/
                dayofweek t = 6)%Z) by lia.
  destruct Hz as [-> | [-> | [-> | [-> | [-> | [-> | ->]]]]]]; cbn; tauto.
Qed.

Lemma weekday_order_defined (t : Timestamp) :
  day_name t <> "Monday" ->
  weekday_order (day_name t) = Some (weekday_index t) /\
  In (day_name t)
     ["Tuesday"; "Wednesday"; "Thursday"; "Friday"; "Saturday"; "Sunday"].
Proof.
  intros Hne. destruct (day_name_cases t) as [H | H]; [contradiction |].
  split; [| exact H]. unfold weekday_index.
  cbn [In] in H.
  destruct H as [H | [H | [H | [H | [H | [H | []]]]]]]; rewrite <- H; reflexivity.
Qed.

End CalendarFacts.

Section PivotFacts.

Import Py.
Import Calendar.
Import Quantity.
Local Open Scope string_scope.

(** The entry of [date_columns] for a date. *)
Local Abbreviation entry_of :=
  (fun col : Timestamp => (col, format_header col, day_name col)).

(** The label a date column carries after the renaming. *)
Local Abbreviation label_of :=
  (fun d : Timestamp => if is_jan14 d then Stamp d else Header (format_header d)).

Lemma filter_none {A : Type} (p : A -> bool) (l : list A) :
  (forall x, In x l -> p x = false) -> filter p l = [].
Proof.
  induction l as [| y l IH]; intros Hall; cbn [filter]; [reflexivity |].
  rewrite (Hall y (or_introl eq_refl)). apply IH.
  intros x Hx. apply Hall. now right.
Qed.

Lemma filter_singleton {A : Type} (p : A -> bool) (a : A) (l : list A) :
  NoDup l -> In a l -> p a = true ->
  (forall x, In x l -> p x = true -> x = a) ->
  filter p l = [a].
Proof.
  induction 1 as [| y l Hnotin Hnodup IH]; intros Hin Hpa Huniq; [contradiction |].
  cbn [filter]. destruct Hin as [-> | Hin].
  - rewrite Hpa. f_equal.
    apply filter_none.
    intros x Hx. destruct (p x) eqn:Hpx; [| reflexivity].
    exfalso. apply Hnotin. rewrite <- (Huniq x (or_intror Hx) Hpx). exact Hx.
  - destruct (p y) eqn:Hpy.
    + exfalso. apply Hnotin. rewrite (Huniq y (or_introl eq_refl) Hpy). exact Hin.
    + apply IH; auto. intros x Hx. apply Huniq. now right.
Qed.

Lemma filter_map_comm {A B : Type} (g : A -> B) (p : B -> bool) (l : list A) :
  filter p (map g l) = map g (filter (fun x => p (g x)) l).
Proof.
  induction l as [| x l IH]; cbn [map filter]; [reflexivity |].
  destruct (p (g x)); cbn [map]; now rewrite IH.
Qed.

Lemma with_keys_dates (l : list Timestamp) :
  (forall d, In d l -> day_name d <> "Monday") ->
  with_keys (map entry_of l) =
  Some (map (fun col => ((weekday_index col, col), entry_of col)) l).
Proof.
  induction l as [| d l IH]; intros Hdays; cbn [map with_keys]; [reflexivity |].
  unfold sort_key at 1. cbn [fst snd].
  destruct (weekday_order_defined d (Hdays d (or_introl eq_refl))) as [-> _].
  rewrite IH; [reflexivity |]. intros d' Hd'. apply Hdays. now right.
Qed.

Lemma sort_date_columns_dates (l : list Timestamp) :
  (forall d, In d l -> day_name d <> "Monday") ->
  sort_date_columns (map entry_of l) = Some (map entry_of (sort column_leb l)).
Proof.
  intros Hdays. unfold sort_date_columns. rewrite with_keys_dates by assumption.
  f_equal.
  rewrite (sort_map (fun col => ((weekday_index col, col), entry_of col))
                    column_leb
                    (fun a b => sort_key_leb (fst a) (fst b)))
    by reflexivity.
  rewrite map_map. reflexivity.
Qed.

Lemma existsb_eqb_In (l : list Timestamp) (d : Timestamp) :
  existsb (fun x => Calendar.eqb x d) l = true <-> In d l.
Proof.
  rewrite existsb_exists. split.
  - intros (x & Hx & Heq). apply Calendar_eqb_eq in Heq. now subst x.
  - intros Hd. exists d. split; [assumption | apply Calendar_eqb_refl].
Qed.

Lemma column_mapping_get_dates (l : list Timestamp) (d : Timestamp) :
  column_mapping_get (map entry_of l) d =
  if existsb (fun x => Calendar.eqb x d) l then Some (format_header d) else None.
Proof.
  induction l as [| x l IH]; cbn [map column_mapping_get existsb fst snd];
    [reflexivity |].
  rewrite IH.
  destruct (existsb (fun x => Calendar.eqb x d) l); [now rewrite orb_true_r |].
  rewrite orb_false_r. destruct (Calendar.eqb x d) eqn:Heq; [| reflexivity].
  apply Calendar_eqb_eq in Heq. now subst x.
Qed.

Lemma rename_dates (ordered dates : list Timestamp) (cells : Timestamp -> list Z) :
  (forall d, In d dates -> (In d ordered <-> is_jan14 d = false)) ->
  rename (map entry_of ordered) (map (fun d => (d, cells d)) dates) =
  map (fun d => (label_of d, cells d)) dates.
Proof.
  intros Hkept. unfold rename. rewrite map_map. apply map_ext_in.
  intros d Hd. cbn [fst snd]. rewrite column_mapping_get_dates.
  destruct (Hkept d Hd) as [H1 H2].
  destruct (existsb (fun x => Calendar.eqb x d) ordered) eqn:Hex.
  - apply existsb_eqb_In in Hex. now rewrite (H1 Hex).
  - destruct (is_jan14 d); [reflexivity |].
    assert (Hin : In d ordered) by now apply H2.
    apply existsb_eqb_In in Hin. congruence.
Qed.

Lemma select_dates (ordered dates : list Timestamp) (cells : Timestamp -> list Z) :
  NoDup dates ->
  (forall o, In o ordered -> In o dates /\ is_jan14 o = false) ->
  (forall a b, In a dates -> In b dates -> is_jan14 a = false -> is_jan14 b = false ->
               format_header a = format_header b -> a = b) ->
  select (map format_header ordered) (map (fun d => (label_of d, cells d)) dates) =
  map (fun o => (format_header o, cells o)) ordered.
Proof.
  intros Hnodup Hsub Hinj. unfold select.
  induction ordered as [| o ordered IH]; cbn [map flat_map]; [reflexivity |].
  rewrite IH by (intros o' Ho'; apply Hsub; now right).
  destruct (Hsub o (or_introl eq_refl)) as [Ho Hjan].
  rewrite filter_map_comm.
  rewrite (filter_singleton _ o).
  - reflexivity.
  - assumption.
  - assumption.
  - unfold has_label. cbn [fst]. rewrite Hjan. apply String.eqb_refl.
  - intros x Hx. unfold has_label. cbn [fst].
    destruct (is_jan14 x) eqn:Hx14; [discriminate |].
    intros Heq. apply String.eqb_eq in Heq. now apply Hinj.
Qed.

End PivotFacts.

Section MatrixFacts.

Import Py.
Import Calendar.
Import Quantity.
Local Open Scope string_scope.

Local Abbreviation label_of :=
  (fun d : Timestamp => if is_jan14 d then Stamp d else Header (format_header d)).

Lemma groupby_sum_keys (df : list Row) : map fst (groupby_sum df) = group_keys df.
Proof.
  unfold groupby_sum. rewrite map_map. cbn [fst]. apply map_id.
Qed.

Lemma groupby_sum_In (df : list Row) (k : key) (q : Z) :
  In (k, q) (groupby_sum df) <-> In k (group_keys df) /\ q = group_sum df k.
Proof.
  unfold groupby_sum. rewrite in_map_iff. split.
  - intros (k' & [= <- <-] & Hk'). auto.
  - intros [Hk ->]. now exists k.
Qed.

Lemma groupby_sum_NoDup (df : list Row) : NoDup (groupby_sum df).
Proof.
  apply (NoDup_map_inv fst). rewrite groupby_sum_keys. apply group_keys_NoDup.
Qed.

Lemma pivot_dates_In (agg : list (key * Z)) (d : Timestamp) :
  In d (pivot_dates agg) <-> exists i q, In ((d, i), q) agg.
Proof.
  unfold pivot_dates. rewrite sort_In, nodup_In, in_map_iff. split.
  - intros ([[d' i] q] & <- & Hin). now exists i, q.
  - intros (i & q & Hin). now exists ((d, i), q).
Qed.

Lemma pivot_items_In (agg : list (key * Z)) (i : string) :
  In i (pivot_items agg) <-> exists d q, In ((d, i), q) agg.
Proof.
  unfold pivot_items. rewrite sort_In, nodup_In, in_map_iff. split.
  - intros ([[d i'] q] & <- & Hin). now exists d, q.
  - intros (d & q & Hin). now exists ((d, i), q).
Qed.

Lemma pivot_dates_NoDup (agg : list (key * Z)) : NoDup (pivot_dates agg).
Proof. apply sort_NoDup, NoDup_nodup. Qed.

Lemma pivot_items_NoDup (agg : list (key * Z)) : NoDup (pivot_items agg).
Proof. apply sort_NoDup, NoDup_nodup. Qed.

Lemma kept_dates_In (agg : list (key * Z)) (d : Timestamp) :
  In d (kept_dates agg) <-> In d (pivot_dates agg) /\ is_jan14 d = false.
Proof.
  unfold kept_dates. rewrite filter_In, negb_true_iff. tauto.
Qed.

Lemma column_dates_In (agg : list (key * Z)) (d : Timestamp) :
  In d (column_dates agg) <-> In d (pivot_dates agg) /\ is_jan14 d = false.
Proof.
  unfold column_dates. rewrite sort_In. apply kept_dates_In.
Qed.

Lemma column_dates_NoDup (agg : list (key * Z)) : NoDup (column_dates agg).
Proof.
  apply sort_NoDup, NoDup_filter, pivot_dates_NoDup.
Qed.

(** No date of the aggregate of loaded transactions falls on a Monday. *)
Lemma daily_qty_not_monday (csv : list Transaction) (d : Timestamp) (i : string) (q : Z) :
  In ((d, i), q) (daily_qty (load_transaction_data csv)) ->
  day_name d <> "Monday".
Proof.
  unfold daily_qty. rewrite groupby_sum_In, group_keys_In, df_filtered_load.
  intros [(r & Hr & Hkey) _]. apply in_map_iff in Hr as (t & <- & Ht).
  apply filter_In in Ht as [_ Hpass]. unfold row_key in Hkey.
  cbn [Date Item] in Hkey. injection Hkey as <- _.
  unfold passes_filters in Hpass.
  apply andb_true_iff in Hpass as [Hpass _].
  apply andb_true_iff in Hpass as [_ Hday].
  apply negb_true_iff in Hday. now apply String.eqb_neq.
Qed.

(** [create_quantity_pivot] never raises on loaded transactions, and this is
    the matrix it returns. *)
Lemma run_select (csv : list Transaction) :
  run csv =
  Some (mkMatrix
          (pivot_items (daily_qty (load_transaction_data csv)))
          (select
             (map format_header (column_dates (daily_qty (load_transaction_data csv))))
             (map (fun d =>
                     (label_of d,
                      map (fun i => pivot_cell (daily_qty (load_transaction_data csv)) i d)
                          (pivot_items (daily_qty (load_transaction_data csv)))))
                  (pivot_dates (daily_qty (load_transaction_data csv)))))).
Proof.
  unfold run, create_quantity_pivot.
  set (agg := daily_qty (load_transaction_data csv)).
  unfold date_columns, pivot_table. cbn [columns index].
  rewrite map_map. cbn [fst]. rewrite map_id.
  fold (kept_dates agg).
  rewrite sort_date_columns_dates.
  2:{ intros d Hd. apply kept_dates_In in Hd as [Hd _].
      apply pivot_dates_In in Hd as (i & q & Hin).
      exact (daily_qty_not_monday csv d i q Hin). }
  fold (column_dates agg). unfold new_columns. rewrite map_map. cbn [fst snd].
  rewrite rename_dates.
  - reflexivity.
  - intros d Hd. rewrite column_dates_In. tauto.
Qed.

(** With pairwise distinct headers every kept date has one column. *)
Lemma run_matrix (csv : list Transaction) :
  distinct_headers (daily_qty (load_transaction_data csv)) ->
  run csv =
  Some (mkMatrix
          (pivot_items (daily_qty (load_transaction_data csv)))
          (map (fun o =>
                  (format_header o,
                   map (fun i => pivot_cell (daily_qty (load_transaction_data csv)) i o)
                       (pivot_items (daily_qty (load_transaction_data csv)))))
               (column_dates (daily_qty (load_transaction_data csv))))).
Proof.
  intros Hdistinct. rewrite run_select. f_equal. f_equal.
  apply (select_dates _ _
           (fun d => map (fun i => pivot_cell (daily_qty (load_transaction_data csv)) i d)
                         (pivot_items (daily_qty (load_transaction_data csv))))).
  - apply pivot_dates_NoDup.
  - intros o Ho. now apply column_dates_In.
  - intros a b Ha Hb Ha14 Hb14. apply Hdistinct; apply kept_dates_In; auto.
Qed.

End MatrixFacts.

Section DecimalFacts.

Import Py.
Local Open Scope string_scope.

(** The decimal numeral of a positive number starts with a digit 1..9. *)
Lemma pos_numeral_head (p : positive) :
  exists d, Pos.to_uint p = d /\ d <> Decimal.Nil /\
            (forall d', d <> Decimal.D0 d').
Proof.
  exists (Pos.to_uint p). split; [reflexivity |].
  split; [apply DecimalPos.Unsigned.to_uint_nonnil |].
  intros d' Hd'.
  assert (Hnorm : Decimal.unorm (Pos.to_uint p) = Pos.to_uint p).
  { rewrite <- DecimalPos.Unsigned.to_of, DecimalPos.Unsigned.of_to. reflexivity. }
  rewrite Hd', unorm_D0 in Hnorm.
  destruct d' as [| d'' | d'' | d'' | d'' | d'' | d'' | d'' | d'' | d'' | d''].
  1:{ apply (DecimalPos.Unsigned.to_uint_nonzero p). exact Hd'. }
  all: match type of Hnorm with
       | Decimal.unorm ?u = _ =>
           assert (Hlen : Decimal.nb_digits (Decimal.unorm u) <= Decimal.nb_digits u)
             by (apply nb_digits_unorm; discriminate);
           rewrite Hnorm in Hlen; cbn [Decimal.nb_digits] in Hlen; lia
       end.
Qed.

Lemma str_int_no_leading_zero (n : Z) :
  (0 < n)%Z -> exists c rest, str_int n = String c rest /\ c <> "0"%char.
Proof.
  intros Hn. destruct n as [| p | p]; try lia.
  unfold str_int. cbn [Z.to_int].
  destruct (pos_numeral_head p) as (d & Hd & Hnil & Hzero). rewrite Hd.
  unfold NilZero.string_of_int, NilZero.string_of_uint.
  destruct d as [| d' | d' | d' | d' | d' | d' | d' | d' | d' | d'];
    try congruence;
    cbn [NilEmpty.string_of_uint]; eexists; eexists;
    (split; [reflexivity | discriminate]).
Qed.

End DecimalFacts.

Section CellFacts.

Import Py.
Import Calendar.
Import Quantity.
Local Open Scope string_scope.

Lemma mean_single (q : Z) : mean [q] = q.
Proof.
  unfold mean, sum. cbn [fold_left List.length Z.of_nat].
  change (Z.pos (Pos.of_succ_nat 0)) with 1%Z. rewrite Z.div_1_r. lia.
Qed.

Lemma pivot_cell_present (df : list Row) (d : Timestamp) (i : string) (q : Z) :
  In ((d, i), q) (groupby_sum df) ->
  pivot_cell (groupby_sum df) i d = q.
Proof.
  intros Hin. unfold pivot_cell.
  rewrite (filter_singleton _ ((d, i), q)).
  - cbn [map snd]. apply mean_single.
  - apply groupby_sum_NoDup.
  - exact Hin.
  - cbn [fst]. apply key_eqb_refl.
  - intros [k q'] Hx Hk. cbn [fst] in Hk. apply key_eqb_eq in Hk. subst k.
    apply groupby_sum_In in Hx as [_ ->]. apply groupby_sum_In in Hin as [_ ->].
    reflexivity.
Qed.

Lemma pivot_cell_absent (agg : list (key * Z)) (d : Timestamp) (i : string) :
  (forall q, ~ In ((d, i), q) agg) -> pivot_cell agg i d = 0%Z.
Proof.
  intros Habsent. unfold pivot_cell. rewrite filter_none; [reflexivity |].
  intros [k q] Hx. cbn [fst]. destruct (key_eqb k (d, i)) eqn:Hk; [| reflexivity].
  apply key_eqb_eq in Hk. subst k. exfalso. exact (Habsent q Hx).
Qed.

Lemma combine_map_self {A B : Type} (g : A -> B) (l : list A) :
  combine l (map g l) = map (fun x => (x, g x)) l.
Proof.
  induction l as [| x l IH]; cbn [combine map]; [reflexivity |]. now rewrite IH.
Qed.

(** The cells of one column in the rows named [i]. *)
Lemma row_cells (items : list string) (g : string -> Z) (i : string) :
  NoDup items -> In i items ->
  map snd (filter (fun p => String.eqb (fst p) i) (combine items (map g items)))
  = [g i].
Proof.
  intros Hnodup Hin. rewrite combine_map_self, filter_map_comm. cbn [fst].
  rewrite (filter_singleton _ i); auto.
  - apply String.eqb_refl.
  - intros x _ Hx. now apply String.eqb_eq.
Qed.

Lemma flat_map_none {A B : Type} (f : A -> list B) (l : list A) :
  (forall x, In x l -> f x = []) -> flat_map f l = [].
Proof.
  induction l as [| y l IH]; intros Hall; cbn [flat_map]; [reflexivity |].
  rewrite (Hall y (or_introl eq_refl)). apply IH.
  intros x Hx. apply Hall. now right.
Qed.

Lemma flat_map_single {A B : Type} (f : A -> list B) (a : A) (l : list A) :
  NoDup l -> In a l -> (forall x, In x l -> x <> a -> f x = []) ->
  flat_map f l = f a.
Proof.
  induction 1 as [| y l Hnotin Hnodup IH]; intros Hin Hother; [contradiction |].
  cbn [flat_map]. destruct Hin as [-> | Hin].
  - rewrite flat_map_none; [apply List.app_nil_r |].
    intros x Hx. apply Hother; [now right |]. intros ->. contradiction.
  - rewrite (Hother y (or_introl eq_refl)) by (intros ->; contradiction).
    apply IH; auto. intros x Hx. apply Hother. now right.
Qed.

Lemma flat_map_over_map {A B C : Type} (g : A -> B) (f : B -> list C) (l : list A) :
  flat_map f (map g l) = flat_map (fun x => f (g x)) l.
Proof.
  induction l as [| x l IH]; cbn [map flat_map]; [reflexivity |]. now rewrite IH.
Qed.

(** The cells under a header that belongs to one date only. *)
Lemma cells_at_column (items : list string) (ordered : list Timestamp)
  (g : Timestamp -> string -> Z) (d : Timestamp) (i : string) :
  NoDup items -> NoDup ordered -> In i items -> In d ordered ->
  (forall o, In o ordered -> format_header o = format_header d -> o = d) ->
  cells_at (mkMatrix items
                     (map (fun o => (format_header o, map (g o) items)) ordered))
           i (format_header d)
  = [g d i].
Proof.
  intros Hitems Hordered Hi Hd Hinj. unfold cells_at. cbn [m_columns m_index].
  rewrite flat_map_over_map. cbn [fst snd].
  rewrite (flat_map_single _ d); auto.
  - rewrite String.eqb_refl. now apply row_cells.
  - intros o Ho Hne.
    destruct (String.eqb_spec (format_header o) (format_header d)) as [Heq | _];
      [| reflexivity].
    exfalso. apply Hne. now apply Hinj.
Qed.

Lemma NoDup_map_in {A B : Type} (f : A -> B) (l : list A) :
  (forall x y, In x l -> In y l -> f x = f y -> x = y) ->
  NoDup l -> NoDup (map f l).
Proof.
  intros Hinj. induction 1 as [| x l Hnotin Hnodup IH]; cbn [map]; constructor.
  - intros Hin. apply in_map_iff in Hin as (y & Heq & Hy).
    apply Hnotin. rewrite (Hinj x y); auto; [now left | now right].
  - apply IH. intros a b Ha Hb. apply Hinj; now right.
Qed.

Lemma StronglySorted_strict {A : Type} (R R' : A -> A -> Prop) (l : list A) :
  (forall a b, R a b -> a <> b -> R' a b) ->
  NoDup l -> StronglySorted R l -> StronglySorted R' l.
Proof.
  intros Hstrict Hnodup. induction 1 as [| x l Hsorted IH Hall]; [constructor |].
  apply NoDup_cons_iff in Hnodup as [Hnotin Hnodup].
  constructor; [now apply IH |].
  rewrite Forall_forall in Hall |- *. intros y Hy.
  apply Hstrict; [now apply Hall |]. intros ->. contradiction.
Qed.

Lemma column_dates_sorted (agg : list (key * Z)) :
  StronglySorted column_before (column_dates agg).
Proof.
  apply StronglySorted_strict with (R := fun a b => column_leb a b = true).
  - exact column_leb_before.
  - apply column_dates_NoDup.
  - apply sort_sorted; [exact column_leb_total | exact column_leb_trans].
Qed.

End CellFacts.

Section PivotTheorems.

Import Py.
Import Calendar.
Import Quantity.
Import Samples.
Local Open Scope string_scope.

Lemma season_distinct_headers :
  distinct_headers (daily_qty (load_transaction_data season_csv)).
Proof.
  intros a b Ha Hb Heq. vm_compute in Ha, Hb.
  in_cases; subst a b; try reflexivity; vm_compute in Heq; discriminate Heq.
Qed.

(** C2, as stated, fails.  An aggregate entry dated 14 January has no cell:
    the matrix has no column for that date.  And when two dates share a
    header, as 5 March 2019 and 5 March 2024 do, the selection by header
    returns each of their columns twice, so an entry has more than one cell. *)
Lemma pivot_cells_lost_or_repeated :
  (daily_qty (load_transaction_data jan14_csv) =
     [ ((mkTimestamp 2025 1 14, "Croissant"), 3%Z)
     ; ((mkTimestamp 2025 1 15, "Croissant"), 2%Z) ] /\
   run jan14_csv =
     Some (mkMatrix ["Croissant"] [("1/15 - Wednesday", [2%Z])]) /\
   format_header (mkTimestamp 2025 1 14) = "1/14 - Tuesday" /\
   cells_at (mkMatrix ["Croissant"] [("1/15 - Wednesday", [2%Z])])
            "Croissant" "1/14 - Tuesday" = []) /\
  (daily_qty (load_transaction_data two_years_csv) =
     [ ((mkTimestamp 2019 3 5, "Baguette"), 1%Z)
     ; ((mkTimestamp 2024 3 5, "Baguette"), 2%Z) ] /\
   run two_years_csv =
     Some (mkMatrix ["Baguette"]
             [ ("3/5 - Tuesday", [1%Z]); ("3/5 - Tuesday", [2%Z])
             ; ("3/5 - Tuesday", [1%Z]); ("3/5 - Tuesday", [2%Z]) ]) /\
   cells_at (mkMatrix ["Baguette"]
               [ ("3/5 - Tuesday", [1%Z]); ("3/5 - Tuesday", [2%Z])
               ; ("3/5 - Tuesday", [1%Z]); ("3/5 - Tuesday", [2%Z]) ])
            "Baguette" "3/5 - Tuesday" = [1%Z; 2%Z; 1%Z; 2%Z]).
Proof. vm_compute. repeat split; reflexivity. Qed.

(** C2, amended.  When no two dates that get a column share a header, the
    pivot returns a matrix in which every (item, date) entry of the Daily
    Aggregate whose date is not 14 January has exactly one cell, in the row of
    the item and the column headed by the date, and that cell holds the
    aggregate quantity; every cell of a row and a column that no aggregate
    entry stands for is exactly 0.  The rows are the items of the aggregate and
    the columns its dates other than 14 January, each once. *)
Theorem pivot_cells_match_aggregate (csv : list Transaction) :
  distinct_headers (daily_qty (load_transaction_data csv)) ->
  exists m,
    run csv = Some m /\
    (forall d i q,
       In ((d, i), q) (daily_qty (load_transaction_data csv)) ->
       is_jan14 d = false ->
       cells_at m i (format_header d) = [q]) /\
    (forall i h,
       In i (m_index m) -> In h (map fst (m_columns m)) ->
       (forall d q, In ((d, i), q) (daily_qty (load_transaction_data csv)) ->
                    format_header d <> h) ->
       cells_at m i h = [0%Z]) /\
    (forall i, In i (m_index m) <->
               exists d q, In ((d, i), q) (daily_qty (load_transaction_data csv))) /\
    (forall h, In h (map fst (m_columns m)) <->
               exists d i q,
                 In ((d, i), q) (daily_qty (load_transaction_data csv)) /\
                 is_jan14 d = false /\ h = format_header d) /\
    NoDup (m_index m) /\
    NoDup (map fst (m_columns m)).
Proof.
  intros Hdistinct. eexists. split; [now apply run_matrix |].
  set (agg := daily_qty (load_transaction_data csv)) in *.
  cbn [m_index m_columns]. rewrite map_map. cbn [fst].
  assert (Hinj : forall o d, In o (column_dates agg) -> In d (column_dates agg) ->
                             format_header o = format_header d -> o = d).
  { intros o d Ho Hd. apply Hdistinct; apply kept_dates_In;
      now apply column_dates_In. }
  assert (Hheaders : forall h, In h (map format_header (column_dates agg)) <->
                               exists d i q, In ((d, i), q) agg /\
                                             is_jan14 d = false /\ h = format_header d).
  { intros h. rewrite in_map_iff. split.
    - intros (d & <- & Hd). apply column_dates_In in Hd as [Hd H14].
      apply pivot_dates_In in Hd as (i & q & Hin). now exists d, i, q.
    - intros (d & i & q & Hin & H14 & ->). exists d. split; [reflexivity |].
      apply column_dates_In. split; [| assumption].
      apply pivot_dates_In. now exists i, q. }
  split; [| split; [| split; [| split; [| split]]]].
  - intros d i q Hin H14.
    rewrite (cells_at_column (pivot_items agg) (column_dates agg)
               (fun o i => pivot_cell agg i o)).
    + f_equal. now apply pivot_cell_present.
    + apply pivot_items_NoDup.
    + apply column_dates_NoDup.
    + apply pivot_items_In. now exists d, q.
    + apply column_dates_In. split; [| assumption].
      apply pivot_dates_In. now exists i, q.
    + intros o Ho. apply Hinj; [assumption |].
      apply column_dates_In. split; [| assumption].
      apply pivot_dates_In. now exists i, q.
  - intros i h Hi Hh Hnone.
    apply in_map_iff in Hh as (d & <- & Hd).
    rewrite (cells_at_column (pivot_items agg) (column_dates agg)
               (fun o i => pivot_cell agg i o)).
    + f_equal. apply pivot_cell_absent. intros q Hin.
      now apply (Hnone d q).
    + apply pivot_items_NoDup.
    + apply column_dates_NoDup.
    + assumption.
    + assumption.
    + intros o Ho. now apply Hinj.
  - intros i. apply pivot_items_In.
  - exact Hheaders.
  - apply pivot_items_NoDup.
  - apply NoDup_map_in.
    + intros o d Ho Hd. now apply Hinj.
    + apply column_dates_NoDup.
Qed.

End PivotTheorems.

(** The amended C2 on three weeks of one season: the two egg-tart sales of
    21 January share one cell, which holds their sum. *)
Lemma pivot_cells_match_aggregate_witness :
  exists m,
    Quantity.run Samples.season_csv = Some m /\
    Quantity.cells_at m "Crispy Egg Tart" "1/21 - Tuesday" = [5%Z] /\
    Quantity.cells_at m "Latte" "1/21 - Tuesday" = [0%Z].
Proof.
  destruct (pivot_cells_match_aggregate Samples.season_csv season_distinct_headers)
    as (m & Hrun & Hcells & Hzero & Hrows & Hcols & _).
  exists m. split; [exact Hrun |]. split.
  - apply (Hcells (Calendar.mkTimestamp 2025 1 21) "Crispy Egg Tart"%string 5%Z).
    + vm_compute. tauto.
    + reflexivity.
  - apply Hzero.
    + apply Hrows. exists (Calendar.mkTimestamp 2025 1 15), 2%Z. vm_compute. tauto.
    + apply Hcols.
      exists (Calendar.mkTimestamp 2025 1 21), "Crispy Egg Tart"%string, 5%Z.
      repeat split. vm_compute. tauto.
    + intros d q Hin. vm_compute in Hin.
      in_cases; injection Hin as <- <-; vm_compute; discriminate.
Defined.

Section ColumnTheorems.

Import Py.
Import Calendar.
Import Quantity.
Import Samples.
Local Open Scope string_scope.

(** C5 at a failing input.  5 March 2019 and 5 March 2024 are two Tuesdays
    with the same header; the matrix then has four date columns for two
    dates, and the column of 2019 (quantity 1) comes again after the column
    of 2024 (quantity 2). *)
Lemma shared_header_repeats_columns :
  column_dates (daily_qty (load_transaction_data two_years_csv)) =
    [mkTimestamp 2019 3 5; mkTimestamp 2024 3 5] /\
  map format_header [mkTimestamp 2019 3 5; mkTimestamp 2024 3 5] =
    ["3/5 - Tuesday"; "3/5 - Tuesday"] /\
  run two_years_csv =
    Some (mkMatrix ["Baguette"]
            [ ("3/5 - Tuesday", [1%Z]); ("3/5 - Tuesday", [2%Z])
            ; ("3/5 - Tuesday", [1%Z]); ("3/5 - Tuesday", [2%Z]) ]).
Proof. vm_compute. repeat split; reflexivity. Qed.

(** X1: the column order that C5 states, where headers do not collide.  When
    no two dates that get a column share a header, the pivot returns a matrix
    whose date columns are headed, in this order, by the dates of the Daily
    Aggregate other than 14 January, each once, sorted by weekday in the fixed
    order Tuesday, Wednesday, Thursday, Friday, Saturday, Sunday and by
    ascending date within a weekday; no date is a Monday; every header reads
    month, "/", day, " - ", weekday name, and the numeral of a positive month
    or day starts with a digit other than 0. *)
Theorem columns_by_weekday_then_date (csv : list Transaction) :
  distinct_headers (daily_qty (load_transaction_data csv)) ->
  exists m,
    run csv = Some m /\
    map fst (m_columns m) =
      map format_header (column_dates (daily_qty (load_transaction_data csv))) /\
    StronglySorted column_before
      (column_dates (daily_qty (load_transaction_data csv))) /\
    NoDup (column_dates (daily_qty (load_transaction_data csv))) /\
    (forall d,
       In d (column_dates (daily_qty (load_transaction_data csv))) <->
       (exists i q, In ((d, i), q) (daily_qty (load_transaction_data csv))) /\
       is_jan14 d = false) /\
    (forall d,
       In d (column_dates (daily_qty (load_transaction_data csv))) ->
       In (day_name d)
          ["Tuesday"; "Wednesday"; "Thursday"; "Friday"; "Saturday"; "Sunday"] /\
       weekday_order (day_name d) = Some (weekday_index d) /\
       format_header d =
         str_int (month d) ++ "/" ++ str_int (day d) ++ " - " ++ day_name d) /\
    map weekday_order
        ["Tuesday"; "Wednesday"; "Thursday"; "Friday"; "Saturday"; "Sunday"] =
      [Some 0; Some 1; Some 2; Some 3; Some 4; Some 5] /\
    (forall n, (0 < n)%Z ->
               exists c rest, str_int n = String c rest /\ c <> "0"%char).
Proof.
  intros Hdistinct. eexists. split; [now apply run_matrix |].
  set (agg := daily_qty (load_transaction_data csv)) in *.
  cbn [m_columns]. rewrite map_map. cbn [fst].
  split; [reflexivity |].
  split; [apply column_dates_sorted |].
  split; [apply column_dates_NoDup |].
  split; [| split; [| split]].
  - intros d. rewrite column_dates_In, pivot_dates_In. tauto.
  - intros d Hd. apply column_dates_In in Hd as [Hd _].
    apply pivot_dates_In in Hd as (i & q & Hin).
    pose proof (daily_qty_not_monday csv d i q Hin) as Hday.
    destruct (weekday_order_defined d Hday) as [Horder Hname].
    split; [exact Hname |]. split; [exact Horder | reflexivity].
  - reflexivity.
  - exact str_int_no_leading_zero.
Qed.

End ColumnTheorems.

(** X1 on three weeks of one season. *)
Lemma columns_by_weekday_then_date_witness :
  exists m,
    Quantity.run Samples.season_csv = Some m /\
    map fst (Quantity.m_columns m) =
      ["1/21 - Tuesday"; "1/28 - Tuesday"; "1/15 - Wednesday"]%string.
Proof.
  destruct (columns_by_weekday_then_date Samples.season_csv season_distinct_headers)
    as (m & Hrun & Hcols & _).
  exists m. split; [exact Hrun |]. rewrite Hcols. vm_compute. reflexivity.
Defined.

Section StringOrder.

Local Open Scope string_scope.

Lemma ascii_compare_N (a b : ascii) :
  Ascii.compare a b = N.compare (N_of_ascii a) (N_of_ascii b).
Proof. reflexivity. Qed.

Lemma ascii_compare_Eq (a b : ascii) : Ascii.compare a b = Eq -> a = b.
Proof. apply Ascii.compare_eq_iff. Qed.

Lemma ascii_compare_refl (a : ascii) : Ascii.compare a a = Eq.
Proof. rewrite ascii_compare_N. apply N.compare_refl. Qed.

Lemma string_leb_cons (a b : ascii) (s t : string) :
  String.leb (String a s) (String b t) =
  match Ascii.compare a b with
  | Lt => true
  | Eq => String.leb s t
  | Gt => false
  end.
Proof.
  unfold String.leb. cbn [String.compare].
  destruct (Ascii.compare a b); reflexivity.
Qed.

Lemma string_leb_refl (s : string) : String.leb s s = true.
Proof.
  induction s as [| a s IH]; [reflexivity |].
  now rewrite string_leb_cons, ascii_compare_refl.
Qed.

Lemma string_leb_trans (s1 s2 s3 : string) :
  String.leb s1 s2 = true -> String.leb s2 s3 = true -> String.leb s1 s3 = true.
Proof.
  revert s2 s3. induction s1 as [| a s1 IH]; intros [| b s2] [| c s3];
    try reflexivity; try discriminate.
  rewrite !string_leb_cons, !ascii_compare_N.
  destruct (N.compare_spec (N_of_ascii a) (N_of_ascii b)) as [Hab | Hab | Hab];
    destruct (N.compare_spec (N_of_ascii b) (N_of_ascii c)) as [Hbc | Hbc | Hbc];
    try discriminate; intros H12 H23.
  - destruct (N.compare_spec (N_of_ascii a) (N_of_ascii c)); try lia.
    now apply IH with s2.
  - destruct (N.compare_spec (N_of_ascii a) (N_of_ascii c)); lia || reflexivity.
  - destruct (N.compare_spec (N_of_ascii a) (N_of_ascii c)); lia || reflexivity.
  - destruct (N.compare_spec (N_of_ascii a) (N_of_ascii c)); lia || reflexivity.
Qed.

End StringOrder.

Section AggregateEntries.

Import Py.
Import Calendar.
Import Quantity.
Import QuantityStats.
Local Open Scope string_scope.

Lemma filter_filter_andb {A : Type} (p q : A -> bool) (l : list A) :
  filter p (filter q l) = filter (fun x => q x && p x) l.
Proof.
  induction l as [| x l IH]; cbn [filter]; [reflexivity |].
  destruct (q x); cbn [filter andb]; [| exact IH].
  destruct (p x); now rewrite IH.
Qed.

Lemma key_leb_iff (a b : key) :
  key_leb a b = true <->
  Calendar.ltb (fst a) (fst b) = true \/
  (Calendar.eqb (fst a) (fst b) = true /\ String.leb (snd a) (snd b) = true).
Proof.
  unfold key_leb. now rewrite orb_true_iff, andb_true_iff.
Qed.

Lemma key_leb_total (a b : key) : key_leb a b = true \/ key_leb b a = true.
Proof.
  rewrite !key_leb_iff, !Calendar_ltb_iff, !Calendar_eqb_iff.
  destruct (String.leb_total (snd a) (snd b)) as [H | H]; rewrite H; lia.
Qed.

Lemma key_leb_trans (a b c : key) :
  key_leb a b = true -> key_leb b c = true -> key_leb a c = true.
Proof.
  rewrite !key_leb_iff, !Calendar_ltb_iff, !Calendar_eqb_iff.
  intros [Hab | [Hab Hsab]] [Hbc | [Hbc Hsbc]]; try (left; lia).
  right. split; [lia |]. now apply string_leb_trans with (snd b).
Qed.

Lemma StronglySorted_map {A B : Type} (f : A -> B) (R : B -> B -> Prop) (l : list A) :
  StronglySorted (fun x y => R (f x) (f y)) l -> StronglySorted R (map f l).
Proof.
  induction 1 as [| x l Hs IH Hall]; cbn [map]; constructor; [assumption |].
  rewrite Forall_forall in Hall |- *. intros y Hy.
  apply in_map_iff in Hy as (z & <- & Hz). now apply Hall.
Qed.

(** The rows of a transaction that reaches the group-by. *)
Lemma group_sum_load (csv : list Transaction) (k : key) :
  group_sum (df_filtered (load_transaction_data csv)) k =
  sum (map t_Qty
           (filter (fun t => passes_filters t && key_eqb (transaction_key t) k) csv)).
Proof.
  unfold group_sum. rewrite df_filtered_load, filter_map_comm, map_map.
  cbn [Qty]. rewrite filter_filter_andb. reflexivity.
Qed.


End AggregateEntries.

Section PivotErrors.

Import Py.
Import Calendar.
Import Quantity.
Local Open Scope string_scope.

Local Abbreviation entry_of :=
  (fun col : Timestamp => (col, format_header col, day_name col)).

Local Abbreviation label_of :=
  (fun d : Timestamp => if is_jan14 d then Stamp d else Header (format_header d)).

Lemma weekday_order_monday (t : Timestamp) :
  weekday_order (day_name t) = None <-> day_name t = "Monday".
Proof.
  split.
  - intros Hnone. destruct (day_name_cases t) as [H | H]; [exact H |].
    cbn [In] in H.
    destruct H as [H | [H | [H | [H | [H | [H | []]]]]]];
      rewrite <- H in Hnone; discriminate Hnone.
  - intros ->. reflexivity.
Qed.

Lemma with_keys_none (l : list Timestamp) :
  with_keys (map entry_of l) = None <->
  exists d, In d l /\ day_name d = "Monday".
Proof.
  induction l as [| x l IH]; cbn [map with_keys].
  - split; [discriminate | intros (d & [] & _)].
  - unfold sort_key at 1. cbn [fst snd].
    destruct (weekday_order (day_name x)) as [w |] eqn:Hw.
    + destruct (with_keys (map entry_of l)) as [keyed |].
      * split; [discriminate |].
        intros (d & [<- | Hd] & Hmon).
        -- apply weekday_order_monday in Hmon. congruence.
        -- assert (Hnone : Some keyed = None) by (apply IH; now exists d).
           discriminate Hnone.
      * split; [| reflexivity]. intros _.
        destruct (proj1 IH eq_refl) as (d & Hd & Hmon).
        exists d. split; [now right | exact Hmon].
    + split; [| reflexivity]. intros _. exists x. split; [now left |].
      now apply weekday_order_monday.
Qed.

Lemma date_columns_pivot (agg : list (key * Z)) :
  date_columns (pivot_table agg) = map entry_of (kept_dates agg).
Proof.
  unfold date_columns, pivot_table. cbn [columns].
  rewrite map_map. cbn [fst]. rewrite map_id. reflexivity.
Qed.

(** X3.  [create_quantity_pivot] raises (the [KeyError] of the weekday table)
    exactly when a date of its Daily Aggregate, other than 14 January, falls
    on a Monday, which takes a row whose [Day_of_Week] cell is not the weekday
    of its date; on the frame of [load_transaction_data] it never raises. *)
Theorem create_quantity_pivot_raises_iff :
  (forall df : list Row,
     create_quantity_pivot df = None <->
     exists d, In d (kept_dates (daily_qty df)) /\ day_name d = "Monday") /\
  (forall csv : list Transaction, exists m, run csv = Some m).
Proof.
  split.
  - intros df. unfold create_quantity_pivot. rewrite date_columns_pivot.
    unfold sort_date_columns.
    rewrite <- with_keys_none.
    destruct (with_keys (map entry_of (kept_dates (daily_qty df))));
      split; intros H; congruence.
  - intros csv. rewrite run_select. eexists. reflexivity.
Qed.

Lemma select_In (hs : list string) (cols : list (label * list Z)) (c : string * list Z) :
  In c (select hs cols) <->
  exists h c', In h hs /\ In c' cols /\ has_label h c' = true /\ c = (h, snd c').
Proof.
  unfold select. rewrite in_flat_map. split.
  - intros (h & Hh & Hc). apply in_map_iff in Hc as (c' & <- & Hc').
    apply filter_In in Hc' as [Hc' Hl]. now exists h, c'.
  - intros (h & c' & Hh & Hc' & Hl & ->). exists h. split; [assumption |].
    apply in_map_iff. exists c'. split; [reflexivity |]. now apply filter_In.
Qed.

(** X4.  Whatever the headers, the matrix [run] returns is rectangular and
    every column of it is the column of one kept date: the rows are the
    distinct cleaned names of the Daily Aggregate, each once; every column is
    headed by a date of the aggregate other than 14 January and holds, row by
    row, the aggregate quantity of that item on that date, or 0 where the
    aggregate has no entry. *)
Theorem matrix_columns_are_date_columns (csv : list Transaction) :
  exists m,
    run csv = Some m /\
    NoDup (m_index m) /\
    (forall i, In i (m_index m) <->
               exists d q, In ((d, i), q) (daily_qty (load_transaction_data csv))) /\
    (forall c, In c (m_columns m) ->
       List.length (snd c) = List.length (m_index m) /\
       exists d,
         fst c = format_header d /\ is_jan14 d = false /\
         (exists i q, In ((d, i), q) (daily_qty (load_transaction_data csv))) /\
         (forall n i, nth_error (m_index m) n = Some i ->
            exists cell, nth_error (snd c) n = Some cell /\
              (forall q, In ((d, i), q) (daily_qty (load_transaction_data csv)) ->
                         cell = q) /\
              ((forall q, ~ In ((d, i), q) (daily_qty (load_transaction_data csv))) ->
               cell = 0%Z))).
Proof.
  eexists. split; [apply run_select |].
  set (agg := daily_qty (load_transaction_data csv)).
  cbn [m_index m_columns].
  split; [apply pivot_items_NoDup |].
  split; [intros i; apply pivot_items_In |].
  intros c Hc. apply select_In in Hc as (h & c' & Hh & Hc' & Hl & ->).
  apply in_map_iff in Hc' as (d & <- & Hd).
  unfold has_label in Hl. cbn [fst snd] in Hl |- *.
  destruct (is_jan14 d) eqn:H14; [discriminate |].
  apply String.eqb_eq in Hl. subst h.
  split; [apply length_map |].
  exists d. split; [reflexivity |]. split; [exact H14 |].
  split; [now apply pivot_dates_In |].
  intros n i Hn. exists (pivot_cell agg i d). split.
  - now rewrite nth_error_map, Hn.
  - split.
    + intros q Hq. unfold agg, daily_qty in *. now apply pivot_cell_present.
    + intros Hnone. now apply pivot_cell_absent.
Qed.

End PivotErrors.

Section StatsTheorems.

Import Py.
Import Calendar.
Import Quantity.
Import QuantityStats.
Local Open Scope string_scope.

(** The category and weekday filters, read on a transaction. *)
Local Abbreviation basic :=
  (fun t : Transaction =>
     isin (t_Category t) target_categories &&
     negb (String.eqb (day_name (t_Date t)) "Monday")).

Lemma stats_rows_load (csv : list Transaction) :
  filter (fun r => negb (String.eqb (Day_of_Week r) "Monday"))
         (filter (fun r => isin (Category r) target_categories)
                 (load_transaction_data csv)) =
  map (fun t => mkRow (t_Date t) (t_Item t) (t_Category t) (t_Qty t)
                      (day_name (t_Date t)))
      (filter basic csv).
Proof.
  unfold load_transaction_data.
  rewrite !filter_map_comm, filter_filter_andb. reflexivity.
Qed.

Lemma sum_split_seasonal (csv : list Transaction) :
  sum (map t_Qty (filter basic csv)) =
  (sum (map t_Qty (filter passes_filters csv)) +
   sum (map t_Qty (filter seasonal_only csv)))%Z.
Proof.
  induction csv as [| t csv IH]; [reflexivity |].
  cbn [filter]. unfold passes_filters at 1, seasonal_only at 1.
  destruct (basic t); cbn [andb]; [| exact IH].
  destruct (is_special (clean_item_name (t_Item t))); cbn [negb map];
    rewrite !sum_cons, IH; lia.
Qed.


Lemma passes_basic (t : Transaction) : passes_filters t = true -> basic t = true.
Proof.
  unfold passes_filters. intros H. now apply andb_true_iff in H as [H _].
Qed.

(** X6.  The summary never counts more than four categories, and it counts
    at least as many items as the matrix has rows: its item count is taken on
    the raw names, before they are cleaned and before the seasonal items are
    removed. *)
Theorem stats_counts_bound (csv : list Transaction) :
  unique_categories (generate_basic_stats (load_transaction_data csv)) <= 4 /\
  exists m,
    run csv = Some m /\
    List.length (m_index m) <=
      unique_items (generate_basic_stats (load_transaction_data csv)).
Proof.
  unfold generate_basic_stats. cbn [unique_categories unique_items].
  rewrite stats_rows_load, !map_map. cbn [Category Item]. split.
  - unfold nunique.
    change 4 with (List.length target_categories).
    apply NoDup_incl_length; [apply NoDup_nodup |].
    intros c Hc. apply nodup_In, in_map_iff in Hc as (t & <- & Ht).
    apply filter_In in Ht as [_ Hb]. apply andb_true_iff in Hb as [Hcat _].
    unfold isin in Hcat. apply existsb_exists in Hcat as (x & Hx & Heq).
    apply String.eqb_eq in Heq. now subst x.
  - eexists. split; [apply run_select |]. cbn [m_index].
    unfold pivot_items, nunique. rewrite sort_length.
    rewrite <- (length_map clean_item_name
                  (nodup string_dec (map (fun t => t_Item t) (filter basic csv)))).
    apply NoDup_incl_length; [apply NoDup_nodup |].
    intros i Hi. apply nodup_In, in_map_iff in Hi as ([[d i'] q] & <- & Hin).
    cbn [fst snd]. unfold daily_qty in Hin.
    apply groupby_sum_In in Hin as [Hk _].
    apply group_keys_In in Hk as (r & Hr & Hkey).
    rewrite df_filtered_load in Hr. apply in_map_iff in Hr as (t & <- & Ht).
    apply filter_In in Ht as [Ht Hp]. unfold row_key in Hkey.
    cbn [Date Item] in Hkey. injection Hkey as _ <-.
    apply in_map. apply nodup_In. apply in_map_iff. exists t.
    split; [reflexivity |]. apply filter_In. split; [exact Ht |].
    now apply passes_basic.
Qed.

Lemma Calendar_leb_iff (a b : Timestamp) :
  Calendar.leb a b = true <->
  Calendar.ltb a b = true \/ Calendar.eqb a b = true.
Proof. unfold Calendar.leb. apply orb_true_iff. Qed.

Lemma fold_min_spec (l : list Timestamp) (d : Timestamp) :
  let m := fold_left (fun m x => if Calendar.ltb x m then x else m) l d in
  In m (d :: l) /\ forall x, In x (d :: l) -> Calendar.leb m x = true.
Proof.
  revert d. induction l as [| y l IH]; intros d; cbn [fold_left].
  - split; [now left |]. intros x [<- | []].
    apply Calendar_leb_iff. right. apply Calendar_eqb_refl.
  - destruct (IH (if Calendar.ltb y d then y else d)) as [Hin Hle].
    split.
    + destruct Hin as [Hin | Hin]; [| now right; right].
      rewrite <- Hin. destruct (Calendar.ltb y d); [right; now left | now left].
    + intros x Hx.
      assert (Hcur : Calendar.leb
                       (fold_left (fun m x => if Calendar.ltb x m then x else m) l
                                  (if Calendar.ltb y d then y else d))
                       (if Calendar.ltb y d then y else d) = true)
        by (apply Hle; now left).
      destruct Hx as [<- | [<- | Hx]]; [| | apply Hle; now right].
      * revert Hcur. destruct (Calendar.ltb y d) eqn:Hyd; [| auto].
        rewrite !Calendar_leb_iff, !Calendar_ltb_iff, !Calendar_eqb_iff in *.
        lia.
      * revert Hcur. destruct (Calendar.ltb y d) eqn:Hyd; [auto |].
        rewrite !Calendar_leb_iff, !Calendar_ltb_iff, !Calendar_eqb_iff in *.
        assert (Hn : ~ Calendar.ltb y d = true) by congruence.
        rewrite Calendar_ltb_iff in Hn. lia.
Qed.

Lemma fold_max_spec (l : list Timestamp) (d : Timestamp) :
  let m := fold_left (fun m x => if Calendar.ltb m x then x else m) l d in
  In m (d :: l) /\ forall x, In x (d :: l) -> Calendar.leb x m = true.
Proof.
  revert d. induction l as [| y l IH]; intros d; cbn [fold_left].
  - split; [now left |]. intros x [<- | []].
    apply Calendar_leb_iff. right. apply Calendar_eqb_refl.
  - destruct (IH (if Calendar.ltb d y then y else d)) as [Hin Hle].
    split.
    + destruct Hin as [Hin | Hin]; [| now right; right].
      rewrite <- Hin. destruct (Calendar.ltb d y); [right; now left | now left].
    + intros x Hx.
      assert (Hcur : Calendar.leb
                       (if Calendar.ltb d y then y else d)
                       (fold_left (fun m x => if Calendar.ltb m x then x else m) l
                                  (if Calendar.ltb d y then y else d)) = true)
        by (apply Hle; now left).
      destruct Hx as [<- | [<- | Hx]]; [| | apply Hle; now right].
      * revert Hcur. destruct (Calendar.ltb d y) eqn:Hyd; [| auto].
        rewrite !Calendar_leb_iff, !Calendar_ltb_iff, !Calendar_eqb_iff in *.
        lia.
      * revert Hcur. destruct (Calendar.ltb d y) eqn:Hyd; [auto |].
        rewrite !Calendar_leb_iff, !Calendar_ltb_iff, !Calendar_eqb_iff in *.
        assert (Hn : ~ Calendar.ltb d y = true) by congruence.
        rewrite Calendar_ltb_iff in Hn. lia.
Qed.

(** X7.  The period of the summary is taken over every loaded transaction,
    filtered away or not: both ends are missing exactly when nothing was
    loaded; otherwise both are dates of transactions, and every transaction's
    date lies between them. *)
Theorem stats_date_range (csv : list Transaction) :
  (csv = [] ->
   date_range (generate_basic_stats (load_transaction_data csv)) = (None, None)) /\
  (csv <> [] ->
   exists lo hi,
     date_range (generate_basic_stats (load_transaction_data csv)) =
       (Some lo, Some hi) /\
     In lo (map t_Date csv) /\ In hi (map t_Date csv) /\
     forall t, In t csv ->
               Calendar.leb lo (t_Date t) = true /\
               Calendar.leb (t_Date t) hi = true).
Proof.
  unfold generate_basic_stats. cbn [date_range].
  unfold load_transaction_data. rewrite map_map. cbn [Date].
  split.
  - intros ->. reflexivity.
  - intros Hne. destruct csv as [| t0 csv]; [contradiction |].
    cbn [map date_min date_max].
    destruct (fold_min_spec (map t_Date csv) (t_Date t0)) as [Hmin Hlo].
    destruct (fold_max_spec (map t_Date csv) (t_Date t0)) as [Hmax Hhi].
    eexists. eexists. split; [reflexivity |].
    split; [exact Hmin |]. split; [exact Hmax |].
    intros t Ht. split; [apply Hlo | apply Hhi];
      apply (in_map t_Date) in Ht; exact Ht.
Qed.

End StatsTheorems.

Section LabelRoundTrip.

Import Py.
Import Calendar.
Import Quantity.
Import DateColumns.
Local Open Scope string_scope.

Lemma string_app_assoc (a b c : string) : (a ++ b) ++ c = a ++ (b ++ c).
Proof.
  induction a as [| x a IH]; cbn [append]; [reflexivity |]. now rewrite IH.
Qed.

Lemma span_stop (p : ascii -> bool) (c : ascii) (s : string) :
  p c = false -> span p (String c s) = (EmptyString, String c s).
Proof. intros H. cbn [span]. now rewrite H. Qed.

(** A numeral is a non-empty run of digits, and [int] reads its value back. *)
Lemma numeral_span (u : Decimal.uint) (c : ascii) (rest : string) :
  re_digit c = false ->
  span re_digit (NilEmpty.string_of_uint u ++ String c rest) =
  (NilEmpty.string_of_uint u, String c rest).
Proof.
  intros Hc.
  induction u; cbn [NilEmpty.string_of_uint append];
    [now apply span_stop | ..];
    cbn [span]; rewrite IHu; reflexivity.
Qed.

Lemma numeral_value_from (u : Decimal.uint) (acc : positive) :
  int_digits_from (Z.pos acc) (NilEmpty.string_of_uint u) =
  Z.pos (Pos.of_uint_acc u acc).
Proof.
  revert acc.
  induction u; intros acc; cbn [NilEmpty.string_of_uint int_digits_from Pos.of_uint_acc];
    [reflexivity | ..];
    rewrite <- IHu; f_equal;
    match goal with
    | |- context [digit_value ?c] =>
        let v := eval vm_compute in (digit_value c) in
        change (digit_value c) with v
    end; lia.
Qed.

Lemma numeral_value (u : Decimal.uint) :
  int_digits (NilEmpty.string_of_uint u) = Z.of_N (Pos.of_uint u).
Proof.
  unfold int_digits.
  induction u; cbn [NilEmpty.string_of_uint int_digits_from Pos.of_uint];
    [reflexivity | exact IHu | ..];
    match goal with
    | |- int_digits_from ?a _ = _ =>
        let v := eval vm_compute in a in change a with v
    end;
    rewrite numeral_value_from; reflexivity.
Qed.

Lemma str_int_numeral (n : Z) :
  (0 <= n)%Z ->
  exists u, str_int n = NilEmpty.string_of_uint u /\
            u <> Decimal.Nil /\ Z.of_N (Pos.of_uint u) = n.
Proof.
  intros Hn. destruct n as [| p | p]; [| | lia].
  - exists (Decimal.D0 Decimal.Nil). repeat split. discriminate.
  - exists (Pos.to_uint p). unfold str_int. cbn [Z.to_int].
    pose proof (DecimalPos.Unsigned.to_uint_nonnil p) as Hnil.
    split; [| split; [exact Hnil |]].
    + unfold NilZero.string_of_int, NilZero.string_of_uint.
      destruct (Pos.to_uint p); [congruence | reflexivity ..].
    + now rewrite DecimalPos.Unsigned.of_to.
Qed.

Lemma numeral_nonempty (u : Decimal.uint) :
  u <> Decimal.Nil ->
  exists c s, NilEmpty.string_of_uint u = String c s.
Proof.
  destruct u; [congruence | ..]; intros _;
    cbn [NilEmpty.string_of_uint]; eexists; eexists; reflexivity.
Qed.

Lemma str_int_value (n : Z) : (0 <= n)%Z -> int_digits (str_int n) = n.
Proof.
  intros Hn. destruct (str_int_numeral n Hn) as (u & -> & _ & Hv).
  now rewrite numeral_value.
Qed.

Lemma day_name_word (t : Timestamp) :
  exists c s, day_name t = String c s /\
              span re_word (day_name t) = (day_name t, EmptyString).
Proof.
  destruct (day_name_cases t) as [H | H].
  - rewrite H. eexists. eexists. split; reflexivity.
  - cbn [In] in H.
    destruct H as [H | [H | [H | [H | [H | [H | []]]]]]]; rewrite <- H;
      eexists; eexists; split; reflexivity.
Qed.

Lemma strip_prefix_app (pre s : string) : strip_prefix pre (pre ++ s) = Some s.
Proof.
  induction pre as [| a pre IH]; cbn [append strip_prefix]; [reflexivity |].
  now rewrite Ascii.eqb_refl.
Qed.

(** The pattern of [parse_date_columns] on a header of the pivot. *)
Lemma match_label_header (d : Timestamp) :
  (0 <= Calendar.month d)%Z -> (0 <= Calendar.day d)%Z ->
  match_label (format_header d) =
  Some (str_int (Calendar.month d), str_int (Calendar.day d), day_name d).
Proof.
  intros Hm Hd. unfold format_header.
  destruct (str_int_numeral _ Hm) as (um & Hum & Hnm & _).
  destruct (str_int_numeral _ Hd) as (ud & Hud & Hnd & _).
  destruct (numeral_nonempty um Hnm) as (cm & sm & Hcm).
  destruct (numeral_nonempty ud Hnd) as (cd & sd & Hcd).
  destruct (day_name_word d) as (cw & sw & Hcw & Hspan).
  unfold match_label. rewrite Hum, Hud.
  change ("/" ++ NilEmpty.string_of_uint ud ++ " - " ++ day_name d)
    with (String "/" (NilEmpty.string_of_uint ud ++ " - " ++ day_name d)).
  rewrite numeral_span by reflexivity.
  rewrite Hcm. rewrite <- Hcm.
  change (" - " ++ day_name d) with (String " " ("- " ++ day_name d)).
  rewrite numeral_span by reflexivity.
  rewrite Hcd. rewrite <- Hcd.
  change (String " " ("- " ++ day_name d)) with (" - " ++ day_name d).
  rewrite strip_prefix_app, Hspan. cbn [fst]. rewrite Hcw. reflexivity.
Qed.

End LabelRoundTrip.

Section DateColumnTheorems.

Import Py.
Import Calendar.
Import Quantity.
Import DateColumns.
Import DateColumnsSpec.
Local Open Scope string_scope.

Lemma dict_append_absent (d : list (string * list string)) (k col : string) :
  dict_has d k = false -> dict_append d k col = d.
Proof.
  unfold dict_has, dict_append. induction d as [| kv d IH]; cbn [existsb map];
    [reflexivity |].
  intros H. apply orb_false_iff in H as [Hk Hrest].
  now rewrite Hk, IH.
Qed.

Lemma parse_step_append (acc : list date_info * list (string * list string))
  (col m d w : string) :
  match_label col = Some (m, d, w) ->
  parse_step acc col =
  ((fst acc ++ info_of col)%list, dict_append (snd acc) w col).
Proof.
  intros Hm. unfold parse_step, info_of. rewrite Hm.
  destruct (dict_has (snd acc) w) eqn:Hhas; [reflexivity |].
  now rewrite dict_append_absent.
Qed.

Lemma parse_fold (columns : list string) :
  forall acc,
    fold_left parse_step columns acc =
    ((fst acc ++ flat_map info_of columns)%list,
     map (fun kv => (fst kv, (snd kv ++ filter (has_weekday (fst kv)) columns)%list))
         (snd acc)).
Proof.
  induction columns as [| col columns IH]; intros [infos dict];
    cbn [fold_left flat_map filter fst snd].
  - rewrite List.app_nil_r. f_equal. rewrite <- (map_id dict) at 1.
    apply map_ext. intros [k v]. cbn [fst snd]. now rewrite List.app_nil_r.
  - rewrite IH. destruct (match_label col) as [[[m d] w] |] eqn:Hm.
    + rewrite (parse_step_append _ col m d w Hm). cbn [fst snd].
      rewrite <- List.app_assoc. f_equal.
      unfold dict_append. rewrite map_map. apply map_ext.
      intros [k v]. cbn [fst snd]. unfold has_weekday, label_weekday.
      rewrite Hm. rewrite (String.eqb_sym w k).
      destruct (String.eqb k w); cbn [fst snd]; [| reflexivity].
      now rewrite <- List.app_assoc.
    + unfold parse_step. rewrite Hm. cbn [fst snd].
      replace (info_of col) with (@nil date_info)
        by (unfold info_of; now rewrite Hm).
      cbn [app]. f_equal.
      apply map_ext. intros [k v]. cbn [fst snd]. unfold has_weekday, label_weekday.
      now rewrite Hm.
Qed.

(** X8.  A header written by the pivot for a date with non-negative month
    and day is read back by [parse_date_columns] as that month, that day and
    the weekday name of the date, and by [create_grid_plots] as the text
    "month/day"; hence two such dates share a header exactly when they have
    the same month, day and weekday name. *)
Theorem header_parses_back (d : Timestamp) :
  plain_date d ->
  fst (parse_date_columns [format_header d]) =
    [mkDateInfo (format_header d) (Calendar.month d) (Calendar.day d) (day_name d)] /\
  label_weekday (format_header d) = Some (day_name d) /\
  match_month_day (format_header d) =
    Some (str_int (Calendar.month d) ++ "/" ++ str_int (Calendar.day d)) /\
  (forall d', plain_date d' ->
     (format_header d = format_header d' <->
      Calendar.month d = Calendar.month d' /\ Calendar.day d = Calendar.day d' /\
      day_name d = day_name d')).
Proof.
  intros [Hm Hd]. pose proof (match_label_header d Hm Hd) as Hlabel.
  split; [| split; [| split]].
  - unfold parse_date_columns. rewrite parse_fold. cbn [fst flat_map app].
    unfold info_of. rewrite Hlabel. cbn [app].
    now rewrite !str_int_value.
  - unfold label_weekday. now rewrite Hlabel.
  - unfold match_month_day. now rewrite Hlabel.
  - intros d' [Hm' Hd']. split.
    + intros Heq. pose proof (match_label_header d' Hm' Hd') as Hlabel'.
      rewrite <- Heq, Hlabel in Hlabel'. injection Hlabel' as H1 H2 H3.
      split; [| split; [| exact H3]].
      * rewrite <- (str_int_value _ Hm), <- (str_int_value _ Hm'). now f_equal.
      * rewrite <- (str_int_value _ Hd), <- (str_int_value _ Hd'). now f_equal.
    + intros (H1 & H2 & H3). unfold format_header. now rewrite H1, H2, H3.
Qed.

(** X9.  [parse_date_columns] keeps six panels, Tuesday to Sunday, and puts
    each label into the panel of the weekday the pattern reads from it,
    keeping the order of the labels; a label that does not match the pattern,
    or whose weekday is not one of the six, is in no panel.  [date_info] lists
    the matching labels in order, whatever their weekday. *)
Theorem parse_date_columns_partition (columns : list string) :
  map fst (snd (parse_date_columns columns)) = panel_weekdays /\
  (forall w, In w panel_weekdays ->
     dict_lookup (snd (parse_date_columns columns)) w =
     Some (filter (has_weekday w) columns)) /\
  (forall w, ~ In w panel_weekdays ->
     dict_lookup (snd (parse_date_columns columns)) w = None) /\
  (forall w cols col,
     In (w, cols) (snd (parse_date_columns columns)) -> In col cols ->
     In col columns /\ label_weekday col = Some w) /\
  fst (parse_date_columns columns) = flat_map info_of columns.
Proof.
  unfold parse_date_columns. rewrite parse_fold. cbn [fst snd].
  split; [reflexivity |].
  split; [| split; [| split; [| reflexivity]]].
  - intros w Hw. cbn [In panel_weekdays] in Hw.
    destruct Hw as [<- | [<- | [<- | [<- | [<- | [<- | []]]]]]]; reflexivity.
  - intros w Hw. unfold dict_lookup. cbn [weekday_columns0 map find fst snd app].
    repeat match goal with
           | |- context [String.eqb ?a w] =>
               destruct (String.eqb_spec a w) as [Heq | _];
               [exfalso; apply Hw; rewrite <- Heq; cbn; tauto |]
           end.
    reflexivity.
  - intros w cols col Hin Hcol. cbn [weekday_columns0 map fst snd app In] in Hin.
    assert (Hcols : cols = filter (has_weekday w) columns).
    { destruct Hin as [H | [H | [H | [H | [H | [H | []]]]]]];
        injection H as <- <-; reflexivity. }
    subst cols. apply filter_In in Hcol as [Hc Hw]. split; [exact Hc |].
    unfold has_weekday in Hw.
    destruct (label_weekday col) as [w' |]; [| discriminate].
    apply String.eqb_eq in Hw. now subst w'.
Qed.

End DateColumnTheorems.

(** X8 at the header of Tuesday 21 January 2025. *)
Lemma header_parses_back_witness :
  DateColumns.match_month_day
    (Quantity.format_header (Calendar.mkTimestamp 2025 1 21)) = Some "1/21"%string.
Proof.
  destruct (header_parses_back (Calendar.mkTimestamp 2025 1 21)) as (_ & _ & H & _).
  - split; vm_compute; discriminate.
  - exact H.
Defined.


Section GridPanelFacts.

Import Py.
Import DateColumns.
Import DateColumnsSpec.
Import GridPanels.
Local Open Scope string_scope.

Lemma parse_date_columns_lookup (columns : list string) (w : string) :
  In w panel_weekdays ->
  dict_lookup (snd (parse_date_columns columns)) w =
  Some (filter (has_weekday w) columns).
Proof.
  unfold parse_date_columns. rewrite parse_fold. cbn [fst snd].
  intros Hw. cbn [In panel_weekdays] in Hw.
  destruct Hw as [<- | [<- | [<- | [<- | [<- | [<- | []]]]]]]; reflexivity.
Qed.

Lemma has_weekday_label (w col : string) :
  has_weekday w col = true <-> label_weekday col = Some w.
Proof.
  unfold has_weekday. destruct (label_weekday col) as [w' |].
  - rewrite String.eqb_eq. split; [now intros -> | now intros [= ->]].
  - split; discriminate.
Qed.

Lemma filter_empty_iff {A : Type} (p : A -> bool) (l : list A) :
  filter p l = [] <-> forall x, In x l -> p x = false.
Proof.
  split; [| apply filter_none].
  intros Hnil x Hx. destruct (p x) eqn:Hp; [| reflexivity].
  assert (Hin : In x (filter p l)) by (apply filter_In; now split).
  rewrite Hnil in Hin. destruct Hin.
Qed.

Lemma panel_nonempty_iff (columns : list string) (w : string) :
  filter (has_weekday w) columns <> [] <->
  exists col, In col columns /\ label_weekday col = Some w.
Proof.
  split.
  - intros Hne. destruct (filter (has_weekday w) columns) as [| col rest] eqn:Hf;
      [contradiction |].
    assert (Hin : In col (filter (has_weekday w) columns))
      by (rewrite Hf; now left).
    apply filter_In in Hin as [Hc Hw]. exists col. split; [exact Hc |].
    now apply has_weekday_label.
  - intros (col & Hc & Hw) Hnil.
    rewrite filter_empty_iff in Hnil. specialize (Hnil col Hc).
    apply has_weekday_label in Hw. congruence.
Qed.

Lemma row_get_head (c0 : string) (columns : list string) (v0 : Z) (cells : list Z) :
  row_get (c0 :: columns) (v0 :: cells) c0 = Some v0.
Proof. unfold row_get. cbn [index_of]. now rewrite String.eqb_refl. Qed.

Lemma row_get_tail (c0 col : string) (columns : list string) (v0 : Z)
  (cells : list Z) :
  c0 <> col ->
  row_get (c0 :: columns) (v0 :: cells) col = row_get columns cells col.
Proof.
  intros Hne. unfold row_get. cbn [index_of].
  destruct (String.eqb_spec c0 col) as [Heq | _]; [contradiction |].
  destruct (index_of col columns) as [n |]; reflexivity.
Qed.

Lemma weekday_data_of_tail (c0 : string) (columns : list string) (v0 : Z)
  (cells : list Z) (cols : list string) :
  ~ In c0 cols ->
  weekday_data_of (c0 :: columns) (v0 :: cells) cols =
  weekday_data_of columns cells cols.
Proof.
  induction cols as [| col cols IH]; intros Hnot; cbn [weekday_data_of];
    [reflexivity |].
  rewrite row_get_tail by (intros ->; apply Hnot; now left).
  rewrite IH by (intros Hin; apply Hnot; now right).
  reflexivity.
Qed.

(** The cells a row holds under the labels that satisfy [p], in column
    order. *)
Lemma weekday_data_of_filter (p : string -> bool) (columns : list string) :
  NoDup columns ->
  forall cells, List.length cells = List.length columns ->
    weekday_data_of columns cells (filter p columns) =
    Some (map snd (filter (fun cv => p (fst cv)) (combine columns cells))).
Proof.
  induction 1 as [| c0 columns Hnot _ IH]; intros [| v0 cells] Hlen;
    try discriminate Hlen; [reflexivity |].
  injection Hlen as Hlen. cbn [filter combine fst].
  assert (Hrest : weekday_data_of (c0 :: columns) (v0 :: cells) (filter p columns) =
                  Some (map snd (filter (fun cv => p (fst cv)) (combine columns cells)))).
  { rewrite weekday_data_of_tail; [now apply IH |].
    intros Hin. apply filter_In in Hin as [Hin _]. contradiction. }
  destruct (p c0); [| exact Hrest].
  cbn [weekday_data_of]. now rewrite row_get_head, Hrest.
Qed.

Lemma filter_combine_length (p : string -> bool) (columns : list string) :
  forall cells : list Z, List.length cells = List.length columns ->
    List.length (filter (fun cv => p (fst cv)) (combine columns cells)) =
    List.length (filter p columns).
Proof.
  induction columns as [| c0 columns IH]; intros [| v0 cells] Hlen;
    try discriminate Hlen; [reflexivity |].
  injection Hlen as Hlen. cbn [filter combine fst].
  destruct (p c0); cbn [List.length]; now rewrite IH.
Qed.

Lemma fold_Zmax_spec (l : list Z) :
  forall a, (In (fold_left Z.max l a) (a :: l)) /\
            (forall v, In v (a :: l) -> (v <= fold_left Z.max l a)%Z).
Proof.
  induction l as [| x l IH]; intros a; cbn [fold_left].
  - split; [now left |]. intros v [<- | []]. lia.
  - destruct (IH (Z.max a x)) as [Hin Hle]. split.
    + destruct Hin as [Hm | Hin]; [| right; now right].
      rewrite <- Hm. destruct (Z.max_spec a x) as [[_ ->] | [_ ->]];
        [right; now left | now left].
    + intros v [<- | [<- | Hv]].
      * specialize (Hle (Z.max a x) (or_introl eq_refl)). lia.
      * specialize (Hle (Z.max a x) (or_introl eq_refl)). lia.
      * apply Hle. now right.
Qed.

Lemma np_max_spec (data : list Z) :
  match np_max data with
  | Some m => In m data /\ forall v, In v data -> (v <= m)%Z
  | None => data = []
  end.
Proof.
  destruct data as [| v rest]; [reflexivity |]. cbn [np_max].
  apply fold_Zmax_spec.
Qed.

Lemma sum_le_bound (l : list Z) (m : Z) :
  (forall v, In v l -> (v <= m)%Z) ->
  (sum l <= Z.of_nat (List.length l) * m)%Z.
Proof.
  induction l as [| x l IH]; intros Hle; [rewrite sum_nil; cbn; lia |].
  rewrite sum_cons. cbn [List.length].
  specialize (Hle x (or_introl eq_refl)) as Hx.
  assert (IH' : (sum l <= Z.of_nat (List.length l) * m)%Z)
    by (apply IH; intros v Hv; apply Hle; now right).
  lia.
Qed.

Section Forecasts.

Variable Timestamp : Type.
Variable forecast_frame : Type.
Variable model : Type.
Variable to_datetime_md : string -> option Timestamp.
Variable to_datetime_2024 : Timestamp -> option Timestamp.
Variable prophet : list (Timestamp * Z) -> nat -> option (forecast_frame * model).

Local Abbreviation forecast :=
  (ForecastAdapter.create_prophet_forecast to_datetime_md to_datetime_2024 prophet).
Local Abbreviation frame_of :=
  (ForecastAdapter.prophet_frame to_datetime_md to_datetime_2024).
Local Abbreviation panel_of' :=
  (panel_of to_datetime_md to_datetime_2024 prophet).
Local Abbreviation panels_of' :=
  (panels_of to_datetime_md to_datetime_2024 prophet).
Local Abbreviation grid_plots_of' :=
  (grid_plots_of to_datetime_md to_datetime_2024 prophet).
Local Abbreviation main' :=
  (main to_datetime_md to_datetime_2024 prophet).

(** What a returned forecast tells about the series it was made from. *)
Lemma forecast_some (dates : list string) (values : list Z) (periods : nat)
  (fc : forecast_frame) (df : list (Timestamp * Z)) (fitted : model) (t : nat) :
  snd (forecast dates values periods) = Some (fc, df, fitted, t) ->
  t = Trimmer.find_trim_idx values /\
  10 <= List.length values /\
  sum values <> 0%Z /\
  5 <= List.length (Trimmer.trimmed_values values) /\
  df = frame_of dates values /\
  5 <= List.length df /\
  prophet df periods = Some (fc, fitted) /\
  fst (forecast dates values periods) = [ForecastAdapter.Fit df periods].
Proof.
  unfold ForecastAdapter.create_prophet_forecast.
  destruct (Nat.ltb_spec (List.length values) 10) as [H10 | H10];
    [discriminate |].
  destruct (Z.eqb_spec (sum values) 0) as [Hsum | Hsum]; [discriminate |].
  cbn [orb]. fold (Trimmer.trimmed_values values).
  destruct (Nat.ltb_spec (List.length (Trimmer.trimmed_values values)) 5)
    as [H5 | H5]; [discriminate |].
  unfold ForecastAdapter.data_frame.
  destruct (Nat.eqb
              (List.length
                 (map (ForecastAdapter.parse_ds to_datetime_md to_datetime_2024)
                    (Trimmer.slice_from (Trimmer.find_trim_idx values) dates)))
              (List.length (Trimmer.trimmed_values values))); [| discriminate].
  change (ForecastAdapter.dropna
            (combine
               (map (ForecastAdapter.parse_ds to_datetime_md to_datetime_2024)
                  (Trimmer.slice_from (Trimmer.find_trim_idx values) dates))
               (Trimmer.trimmed_values values)))
    with (frame_of dates values).
  destruct (Nat.ltb_spec (List.length (frame_of dates values)) 5) as [Hp | Hp];
    [discriminate |].
  destruct (prophet (frame_of dates values) periods) as [[fc' fitted'] |] eqn:Hfit;
    [| discriminate].
  cbn [fst snd]. intros [= <- <- <- <-].
  repeat split; try assumption; reflexivity.
Qed.

(** The statistics are taken over the trimmed series exactly when there is a
    forecast: the fallback for an empty trimmed series is never used. *)
Lemma stats_data_forecast (dates : list string) (values : list Z) (periods : nat) :
  stats_data values (snd (forecast dates values periods)) =
  match snd (forecast dates values periods) with
  | Some _ => Trimmer.trimmed_values values
  | None => values
  end.
Proof.
  destruct (snd (forecast dates values periods)) as [[[[fc df] fitted] t] |] eqn:Hf;
    [| reflexivity].
  apply forecast_some in Hf as (-> & _ & _ & H5 & _).
  unfold stats_data. fold (Trimmer.trimmed_values values).
  destruct (Nat.ltb_spec 0 (Trimmer.find_trim_idx values)) as [Hpos | Hzero].
  - destruct (Nat.ltb_spec 0 (List.length (Trimmer.trimmed_values values)));
      [reflexivity | lia].
  - unfold Trimmer.trimmed_values, Trimmer.slice_from.
    replace (Trimmer.find_trim_idx values) with 0 by lia. reflexivity.
Qed.

Lemma stats_data_empty (dates : list string) (values : list Z) (periods : nat) :
  stats_data values (snd (forecast dates values periods)) = [] <-> values = [].
Proof.
  rewrite stats_data_forecast.
  destruct (snd (forecast dates values periods)) as [[[[fc df] fitted] t] |] eqn:Hf;
    [| reflexivity].
  apply forecast_some in Hf as (_ & H10 & _ & H5 & _).
  split; intros H; rewrite H in *; cbn [List.length] in *; lia.
Qed.

(** The inputs of a panel of [main] on a well-formed row. *)
Lemma panel_inputs_main (columns : list string) (cells : list Z) (w : string) :
  NoDup columns -> List.length cells = List.length columns ->
  In w panel_weekdays ->
  panel_inputs columns (snd (parse_date_columns columns)) cells w =
  Some (raw_dates_of (filter (has_weekday w) columns),
        map snd (filter (fun cv => has_weekday w (fst cv)) (combine columns cells))).
Proof.
  intros Hnd Hlen Hw. unfold panel_inputs.
  rewrite parse_date_columns_lookup by exact Hw.
  now rewrite weekday_data_of_filter.
Qed.

Lemma series_of_length (columns : list string) (cells : list Z) (w : string) :
  List.length cells = List.length columns ->
  List.length (series_of columns cells w) =
  List.length (filter (has_weekday w) columns).
Proof.
  intros Hlen. unfold series_of. rewrite length_map.
  now apply filter_combine_length.
Qed.

Lemma panel_of_main (columns : list string) (cells : list Z) (w : string) :
  NoDup columns -> List.length cells = List.length columns ->
  In w panel_weekdays ->
  match panel_of' columns (snd (parse_date_columns columns)) cells w with
  | Some p =>
      filter (has_weekday w) columns <> [] /\
      p_weekday p = w /\
      p_historical p = series_of columns cells w /\
      (p_fits p, p_forecast p) =
        forecast (raw_dates_of (filter (has_weekday w) columns))
                 (series_of columns cells w) 4 /\
      p_labels p =
        (raw_dates_of (filter (has_weekday w) columns) ++
         match p_forecast p with
         | Some _ => ["F+1"; "F+2"; "F+3"; "F+4"]
         | None => []
         end)%list
  | None => filter (has_weekday w) columns = []
  end.
Proof.
  intros Hnd Hlen Hw. unfold panel_of.
  rewrite (panel_inputs_main columns cells w Hnd Hlen Hw).
  fold (series_of columns cells w).
  set (dates := raw_dates_of (filter (has_weekday w) columns)).
  set (values := series_of columns cells w).
  pose proof (np_max_spec (stats_data values (snd (forecast dates values 4))))
    as Hmax.
  destruct (np_max (stats_data values (snd (forecast dates values 4))))
    as [max_qty |].
  - cbn [p_weekday p_historical p_fits p_forecast p_labels].
    assert (Hne : values <> []).
    { intros Hnil. apply (stats_data_empty dates values 4) in Hnil.
      rewrite Hnil in Hmax. destruct Hmax as [[] _]. }
    split.
    + intros Hnil. apply Hne. apply length_zero_iff_nil.
      unfold values. rewrite series_of_length by exact Hlen.
      now rewrite Hnil.
    + repeat split; try reflexivity.
      * now destruct (forecast dates values 4).
      * destruct (snd (forecast dates values 4)); [reflexivity |].
        now rewrite List.app_nil_r.
  - apply stats_data_empty in Hmax. apply length_zero_iff_nil.
    rewrite <- (series_of_length columns cells w Hlen).
    fold values. now rewrite Hmax.
Qed.

Lemma panels_of_main (columns : list string) (cells : list Z) :
  NoDup columns -> List.length cells = List.length columns ->
  forall days, incl days panel_weekdays ->
    match panels_of' columns (snd (parse_date_columns columns)) cells days with
    | Some panels =>
        (forall w, In w days -> filter (has_weekday w) columns <> []) /\
        Forall2 (fun w p =>
                   panel_of' columns (snd (parse_date_columns columns)) cells w =
                   Some p)
                days panels
    | None => exists w, In w days /\ filter (has_weekday w) columns = []
    end.
Proof.
  intros Hnd Hlen. induction days as [| w days IH]; intros Hincl;
    cbn [panels_of].
  - split; [intros w [] | constructor].
  - assert (Hw : In w panel_weekdays) by (apply Hincl; now left).
    pose proof (panel_of_main columns cells w Hnd Hlen Hw) as Hp.
    destruct (panel_of' columns (snd (parse_date_columns columns)) cells w)
      as [p |] eqn:Hpanel.
    + assert (Hrest : incl days panel_weekdays)
        by (intros x Hx; apply Hincl; now right).
      specialize (IH Hrest).
      destruct (panels_of' columns (snd (parse_date_columns columns)) cells days)
        as [ps |].
      * destruct IH as [Hall Hf2]. split.
        -- intros w' [<- | Hw']; [apply Hp | now apply Hall].
        -- constructor; assumption.
      * destruct IH as (w' & Hw' & Hnil). exists w'. split; [now right | exact Hnil].
    + exists w. split; [now left | exact Hp].
Qed.

End Forecasts.

End GridPanelFacts.


Section GridPanelTheorems.

Import Py.
Import DateColumns.
Import DateColumnsSpec.
Import GridPanels.
Local Open Scope string_scope.

Variable Timestamp : Type.
Variable forecast_frame : Type.
Variable model : Type.
Variable to_datetime_md : string -> option Timestamp.
Variable to_datetime_2024 : Timestamp -> option Timestamp.
Variable prophet : list (Timestamp * Z) -> nat -> option (forecast_frame * model).

Local Abbreviation forecast :=
  (ForecastAdapter.create_prophet_forecast to_datetime_md to_datetime_2024 prophet).
Local Abbreviation panel_of' :=
  (panel_of to_datetime_md to_datetime_2024 prophet).
Local Abbreviation panels_of' :=
  (panels_of to_datetime_md to_datetime_2024 prophet).
Local Abbreviation grid_plots_of' :=
  (grid_plots_of to_datetime_md to_datetime_2024 prophet).
Local Abbreviation main' :=
  (main to_datetime_md to_datetime_2024 prophet).

Lemma Forall2_map_eq {A B C : Type} (f : A -> C) (g : B -> C)
  (Q : A -> B -> Prop) (l : list A) (l' : list B) :
  Forall2 (fun a b => g b = f a /\ Q a b) l l' -> map g l' = map f l.
Proof.
  induction 1 as [| a b l l' [Hab _] _ IH]; [reflexivity |].
  cbn [map]. now rewrite Hab, IH.
Qed.

Lemma Forall2_weaken_In {A B : Type} (R R' : A -> B -> Prop)
  (l : list A) (l' : list B) :
  (forall a b, In a l -> R a b -> R' a b) ->
  Forall2 R l l' -> Forall2 R' l l'.
Proof.
  intros Himp H. induction H as [| a b l l' Hab _ IH]; constructor.
  - apply Himp; [now left | exact Hab].
  - apply IH. intros a' b' Ha'. apply Himp. now right.
Qed.

Lemma weekdays_incl : incl weekdays panel_weekdays.
Proof. intros w Hw. exact Hw. Qed.

(** The loop over the rows, on rows with one cell per label. *)
Lemma grid_plots_of_main (columns : list string) (rows : list (string * list Z)) :
  NoDup columns ->
  (forall row, In row rows -> List.length (snd row) = List.length columns) ->
  (snd (grid_plots_of' columns (snd (parse_date_columns columns)) rows) = true /\
   (rows = [] \/ forall w, In w weekdays -> filter (has_weekday w) columns <> []) /\
   Forall2 (fun row saved =>
              fst saved = GridPlots.filepath (fst row) /\
              panels_of' columns (snd (parse_date_columns columns)) (snd row) weekdays =
              Some (snd saved))
           rows
           (fst (grid_plots_of' columns (snd (parse_date_columns columns)) rows))) \/
  (grid_plots_of' columns (snd (parse_date_columns columns)) rows = ([], false) /\
   rows <> [] /\
   exists w, In w weekdays /\ filter (has_weekday w) columns = []).
Proof.
  intros Hnd. induction rows as [| [item_name cells] rows IH]; intros Hlen.
  - left. cbn. split; [reflexivity |]. split; [now left | constructor].
  - assert (Hcells : List.length cells = List.length columns)
      by (apply (Hlen (item_name, cells)); now left).
    pose proof (panels_of_main Timestamp forecast_frame model to_datetime_md
                  to_datetime_2024 prophet columns cells Hnd Hcells weekdays
                  weekdays_incl) as Hpanels.
    cbn [grid_plots_of].
    destruct (panels_of' columns (snd (parse_date_columns columns)) cells weekdays)
      as [panels |] eqn:Hp.
    + destruct Hpanels as [Hall _]. left.
      destruct IH as [(Hdone & _ & Hf2) | (_ & Hne & w & Hw & Hnil)].
      * intros row Hrow. apply Hlen. now right.
      * destruct (grid_plots_of' columns (snd (parse_date_columns columns)) rows)
          as [saved done]. cbn [fst snd] in *.
        split; [exact Hdone |]. split; [right; exact Hall |].
        constructor; [| exact Hf2]. cbn [fst snd]. now split.
      * exfalso. now apply (Hall w Hw).
    + right. split; [reflexivity |]. split; [discriminate | exact Hpanels].
Qed.

(** X10.  On a frame with distinct labels and one cell per label in every
    row, [main] of the grid-plot script runs to its end exactly when the
    frame has no rows or every one of the six weekdays Tuesday to Sunday is
    read from at least one label.  When it does, one file is saved per row,
    in row order, under the path built from the row's item name; when it
    does not, the first row already fails and no file is saved. *)
Theorem grid_plots_finish_iff (df : Frame) :
  well_formed df ->
  (snd (main' df) = true <->
     f_rows df = [] \/
     forall w, In w weekdays ->
               exists col, In col (f_columns df) /\ label_weekday col = Some w) /\
  (snd (main' df) = true ->
     map fst (fst (main' df)) =
     map (fun row => GridPlots.filepath (fst row)) (f_rows df)) /\
  (snd (main' df) = false -> fst (main' df) = []).
Proof.
  intros [Hnd Hlen]. unfold main, create_grid_plots.
  destruct (grid_plots_of_main (f_columns df) (f_rows df) Hnd Hlen)
    as [(Hdone & Hcond & Hf2) | (Hfail & Hne & w & Hw & Hnil)].
  - split; [| split].
    + split; [intros _ | intros _; exact Hdone].
      destruct Hcond as [Hrows | Hall]; [now left | right].
      intros w Hw. apply panel_nonempty_iff. now apply Hall.
    + intros _. exact (Forall2_map_eq _ _ _ _ _ Hf2).
    + rewrite Hdone. discriminate.
  - rewrite Hfail. cbn [fst snd]. split; [| split].
    + split; [discriminate |].
      intros [Hrows | Hall]; [contradiction |]. exfalso.
      apply (proj2 (panel_nonempty_iff (f_columns df) w) (Hall w Hw)).
      exact Hnil.
    + discriminate.
    + reflexivity.
Qed.

(** X11.  When [main] of the grid-plot script runs to its end on such a
    frame, the file saved for a row has six panels, Tuesday to Sunday; the
    panel of a weekday shows the row's cells under the labels read as that
    weekday, in column order; its forecast is the one made from those cells
    and the "M/D" parts of those labels with four periods; and its tick
    labels are those "M/D" parts, followed by F+1 .. F+4 when there is a
    forecast. *)
Theorem saved_panels_show_row_series (df : Frame) :
  well_formed df ->
  snd (main' df) = true ->
  Forall2
    (fun row saved =>
       fst saved = GridPlots.filepath (fst row) /\
       Forall2
         (fun w p =>
            p_weekday p = w /\
            p_historical p = series_of (f_columns df) (snd row) w /\
            (p_fits p, p_forecast p) =
              forecast (raw_dates_of (filter (has_weekday w) (f_columns df)))
                       (series_of (f_columns df) (snd row) w) 4 /\
            p_labels p =
              (raw_dates_of (filter (has_weekday w) (f_columns df)) ++
               match p_forecast p with
               | Some _ => ["F+1"; "F+2"; "F+3"; "F+4"]
               | None => []
               end)%list)
         weekdays (snd saved))
    (f_rows df) (fst (main' df)).
Proof.
  intros [Hnd Hlen] Hdone. unfold main, create_grid_plots in *.
  destruct (grid_plots_of_main (f_columns df) (f_rows df) Hnd Hlen)
    as [(_ & _ & Hf2) | (Hfail & _)];
    [| rewrite Hfail in Hdone; discriminate].
  clear Hdone. revert Hf2. apply Forall2_weaken_In.
  intros row saved Hrow [Hpath Hpanels]. split; [exact Hpath |].
  assert (Hcells : List.length (snd row) = List.length (f_columns df))
    by now apply Hlen.
  pose proof (panels_of_main Timestamp forecast_frame model to_datetime_md
                to_datetime_2024 prophet (f_columns df) (snd row) Hnd Hcells
                weekdays weekdays_incl) as Hspec.
  rewrite Hpanels in Hspec. destruct Hspec as [_ Hall].
  revert Hall. apply Forall2_weaken_In. intros w p Hw Hp.
  pose proof (panel_of_main Timestamp forecast_frame model to_datetime_md
                to_datetime_2024 prophet (f_columns df) (snd row) w Hnd Hcells
                (weekdays_incl w Hw)) as Hpanel.
  rewrite Hp in Hpanel. destruct Hpanel as (_ & H1 & H2 & H3 & H4).
  repeat split; assumption.
Qed.

(** X12.  The statistics of a panel: when the panel has a forecast, the
    average and the maximum are taken over the series from its trim index on
    (the index found by the trimming scan, with at least five quantities
    left of a series of at least ten), and over the whole series otherwise;
    the maximum is a quantity of that part and no quantity of it is larger;
    the part is never empty, and the average is at most the maximum. *)
Theorem panel_statistics (columns : list string)
  (weekday_columns : list (string * list string)) (cells : list Z)
  (w : string) (p : panel Timestamp forecast_frame model) :
  panel_of' columns weekday_columns cells w = Some p ->
  let data := match p_forecast p with
              | Some _ => Trimmer.trimmed_values (p_historical p)
              | None => p_historical p
              end in
  p_avg p = np_mean data /\
  In (p_max p) data /\
  (forall v, In v data -> (v <= p_max p)%Z) /\
  1 <= mean_count (p_avg p) /\
  (mean_sum (p_avg p) <= Z.of_nat (mean_count (p_avg p)) * p_max p)%Z /\
  (forall fc frame fitted t,
     p_forecast p = Some (fc, frame, fitted, t) ->
     t = Trimmer.find_trim_idx (p_historical p) /\
     10 <= List.length (p_historical p) /\
     mean_count (p_avg p) = List.length (p_historical p) - t /\
     5 <= mean_count (p_avg p)).
Proof.
  unfold panel_of.
  destruct (panel_inputs columns weekday_columns cells w) as [[dates values] |];
    [| discriminate].
  pose proof (np_max_spec (stats_data values (snd (forecast dates values 4))))
    as Hmax.
  destruct (np_max (stats_data values (snd (forecast dates values 4))))
    as [max_qty |]; [| discriminate].
  intros [= <-]. cbn [p_forecast p_historical p_avg p_max].
  rewrite stats_data_forecast in *.
  set (data := match snd (forecast dates values 4) with
               | Some _ => Trimmer.trimmed_values values
               | None => values
               end) in *.
  destruct Hmax as [Hin Hle]. cbn zeta. cbn [np_mean mean_count mean_sum].
  assert (Hpos : 1 <= List.length data).
  { destruct data; [destruct Hin | cbn [List.length]; lia]. }
  split; [reflexivity |]. split; [exact Hin |]. split; [exact Hle |].
  split; [exact Hpos |]. split; [now apply sum_le_bound |].
  intros fc frame fitted t Hf. subst data. rewrite Hf in *.
  apply forecast_some in Hf as (-> & H10 & _ & H5 & _).
  split; [reflexivity |]. split; [exact H10 |].
  unfold Trimmer.trimmed_values, Trimmer.slice_from in *.
  rewrite length_skipn in *. split; [reflexivity | exact H5].
Qed.

End GridPanelTheorems.


Lemma week_frame_well_formed : GridPanels.well_formed PanelSamples.week_frame.
Proof.
  split.
  - cbn. repeat constructor; cbn; intuition discriminate.
  - intros row [<- | []]. reflexivity.
Defined.

(** X10 at a frame of one item over one week. *)
Lemma grid_plots_finish_iff_witness :
  map fst
      (fst (GridPanels.main PanelSamples.sample_md PanelSamples.sample_2024
              PanelSamples.sample_prophet PanelSamples.week_frame)) =
  ["../reports/grid_plots/Egg_Tart_grid_plot.png"%string].
Proof.
  destruct (grid_plots_finish_iff nat unit unit PanelSamples.sample_md
              PanelSamples.sample_2024 PanelSamples.sample_prophet
              PanelSamples.week_frame week_frame_well_formed)
    as (_ & Hpaths & _).
  exact (Hpaths eq_refl).
Defined.

(** X11 at the same frame. *)
Lemma saved_panels_show_row_series_witness :
  Forall2
    (fun row saved =>
       fst saved = GridPlots.filepath (fst row) /\
       Forall2
         (fun w p =>
            GridPanels.p_weekday p = w /\
            GridPanels.p_historical p =
              GridPanels.series_of (GridPanels.f_columns PanelSamples.week_frame)
                                   (snd row) w /\
            (GridPanels.p_fits p, GridPanels.p_forecast p) =
              ForecastAdapter.create_prophet_forecast PanelSamples.sample_md
                PanelSamples.sample_2024 PanelSamples.sample_prophet
                (GridPanels.raw_dates_of
                   (filter (DateColumns.has_weekday w)
                           (GridPanels.f_columns PanelSamples.week_frame)))
                (GridPanels.series_of (GridPanels.f_columns PanelSamples.week_frame)
                                      (snd row) w) 4 /\
            GridPanels.p_labels p =
              (GridPanels.raw_dates_of
                 (filter (DateColumns.has_weekday w)
                         (GridPanels.f_columns PanelSamples.week_frame)) ++
               match GridPanels.p_forecast p with
               | Some _ => ["F+1"; "F+2"; "F+3"; "F+4"]%string
               | None => []
               end)%list)
         GridPanels.weekdays (snd saved))
    (GridPanels.f_rows PanelSamples.week_frame)
    (fst (GridPanels.main PanelSamples.sample_md PanelSamples.sample_2024
            PanelSamples.sample_prophet PanelSamples.week_frame)).
Proof.
  exact (saved_panels_show_row_series nat unit unit PanelSamples.sample_md
           PanelSamples.sample_2024 PanelSamples.sample_prophet
           PanelSamples.week_frame week_frame_well_formed eq_refl).
Defined.

(** X12 at a Tuesday panel of twelve quantities that starts with a run of
    five zeros. *)
Lemma panel_statistics_witness :
  exists p,
    GridPanels.panel_of PanelSamples.sample_md PanelSamples.sample_2024
      PanelSamples.sample_prophet
      (map (fun n => append (Py.str_int (Z.of_nat n)) "/7 - Tuesday") (seq 1 12))
      [("Tuesday"%string,
        map (fun n => append (Py.str_int (Z.of_nat n)) "/7 - Tuesday") (seq 1 12))]
      [0; 0; 0; 0; 0; 4; 2; 7; 3; 5; 6; 1]%Z "Tuesday" = Some p /\
    GridPanels.p_avg p = GridPanels.mkMean 28 7 /\
    GridPanels.p_max p = 7%Z.
Proof.
  eexists. split; [vm_compute; reflexivity |].
  match goal with
  | |- GridPanels.p_avg ?p = _ /\ _ =>
      destruct (panel_statistics nat unit unit PanelSamples.sample_md
                  PanelSamples.sample_2024 PanelSamples.sample_prophet
                  (map (fun n => append (Py.str_int (Z.of_nat n)) "/7 - Tuesday")
                       (seq 1 12))
                  [("Tuesday"%string,
                    map (fun n => append (Py.str_int (Z.of_nat n)) "/7 - Tuesday")
                        (seq 1 12))]
                  [0; 0; 0; 0; 0; 4; 2; 7; 3; 5; 6; 1]%Z "Tuesday"%string p)
        as (Havg & _)
  end.
  - vm_compute. reflexivity.
  - split; [exact Havg | reflexivity].
Defined.


Section PipelineTheorems.

Import Py.
Import Calendar.
Import Quantity.
Import DateColumns.
Import DateColumnsSpec.
Import GridPanels.
Local Open Scope string_scope.

Lemma daily_qty_from_csv (csv : list Transaction) (d : Timestamp) (i : string) (q : Z) :
  In ((d, i), q) (daily_qty (load_transaction_data csv)) ->
  exists t, In t csv /\ t_Date t = d.
Proof.
  unfold daily_qty. rewrite groupby_sum_In, group_keys_In, df_filtered_load.
  intros [(r & Hr & Hk) _].
  apply in_map_iff in Hr as (t & <- & Ht). apply filter_In in Ht as [Ht _].
  exists t. split; [exact Ht |]. unfold row_key in Hk. cbn in Hk. congruence.
Qed.

Lemma has_weekday_header (w : string) (d : Timestamp) :
  plain_date d ->
  has_weekday w (format_header d) = String.eqb (day_name d) w.
Proof.
  intros [Hm Hd]. unfold has_weekday, label_weekday.
  now rewrite (match_label_header d Hm Hd).
Qed.

Lemma StronglySorted_filter_keep {A : Type} (R : A -> A -> Prop)
  (p : A -> bool) (l : list A) :
  StronglySorted R l -> StronglySorted R (filter p l).
Proof.
  induction 1 as [| x l _ IH Hall]; cbn [filter]; [constructor |].
  destruct (p x); [| exact IH]. constructor; [exact IH |].
  rewrite Forall_forall in Hall |- *. intros y Hy.
  apply filter_In in Hy as [Hy _]. now apply Hall.
Qed.

Lemma StronglySorted_weaken_In {A : Type} (R R' : A -> A -> Prop) (l : list A) :
  (forall a b, In a l -> In b l -> R a b -> R' a b) ->
  StronglySorted R l -> StronglySorted R' l.
Proof.
  intros Himp H. induction H as [| x l _ IH Hall]; constructor.
  - apply IH. intros a b Ha Hb. apply Himp; now right.
  - rewrite Forall_forall in Hall |- *. intros y Hy.
    apply Himp; [now left | now right | now apply Hall].
Qed.

(** X13.  The pivot's headers, read by the grid-plot script.  For loaded
    transactions whose dates have a non-negative month and day and of which
    no two kept dates share a header, the headers of the matrix are pairwise
    distinct, and [parse_date_columns] puts into the panel of each weekday
    Tuesday..Sunday exactly the headers of the dates of the Daily Aggregate
    (January 14 apart) that fall on that weekday, each once, in ascending
    date order; the date labels [create_grid_plots] passes on for them are
    the texts "month/day" of those dates. *)
Theorem pivot_headers_fill_panels (csv : list Transaction) :
  (forall t, In t csv -> plain_date (t_Date t)) ->
  distinct_headers (daily_qty (load_transaction_data csv)) ->
  exists m,
    run csv = Some m /\
    NoDup (map fst (m_columns m)) /\
    forall w, In w panel_weekdays ->
      exists days,
        dict_lookup (snd (parse_date_columns (map fst (m_columns m)))) w =
          Some (map format_header days) /\
        raw_dates_of (map format_header days) =
          map (fun d => str_int (Calendar.month d) ++ "/" ++ str_int (Calendar.day d))
              days /\
        NoDup days /\
        StronglySorted (fun a b => Calendar.ltb a b = true) days /\
        (forall d,
           In d days <->
           (exists i q, In ((d, i), q) (daily_qty (load_transaction_data csv))) /\
           is_jan14 d = false /\ day_name d = w).
Proof.
  intros Hplain Hdistinct. eexists. split; [now apply run_matrix |].
  set (agg := daily_qty (load_transaction_data csv)) in *.
  cbn [m_columns]. rewrite map_map. cbn [fst].
  assert (Hcol : forall d, In d (column_dates agg) -> plain_date d).
  { intros d Hd. apply column_dates_In in Hd as [Hd _].
    apply pivot_dates_In in Hd as (i & q & Hin).
    apply daily_qty_from_csv in Hin as (t & Ht & <-). now apply Hplain. }
  split.
  - apply NoDup_map_in; [| apply column_dates_NoDup].
    intros x y Hx Hy. apply Hdistinct.
    + apply kept_dates_In. now apply column_dates_In.
    + apply kept_dates_In. now apply column_dates_In.
  - intros w Hw.
    exists (filter (fun d => String.eqb (day_name d) w) (column_dates agg)).
    split; [| split; [| split; [| split]]].
    + rewrite parse_date_columns_lookup by exact Hw.
      rewrite filter_map_comm. do 2 f_equal.
      apply filter_ext_in. intros d Hd. apply has_weekday_header.
      now apply Hcol.
    + unfold raw_dates_of. rewrite map_map. apply map_ext_in.
      intros d Hd. apply filter_In in Hd as [Hd _].
      destruct (Hcol d Hd) as [Hm Hday].
      unfold match_month_day. now rewrite (match_label_header d Hm Hday).
    + apply NoDup_filter, column_dates_NoDup.
    + apply StronglySorted_weaken_In
        with (R := column_before);
        [| apply StronglySorted_filter_keep, column_dates_sorted].
      intros a b Ha Hb Hab.
      apply filter_In in Ha as [_ Ha]. apply filter_In in Hb as [_ Hb].
      apply String.eqb_eq in Ha, Hb.
      unfold column_before, weekday_index in Hab. rewrite Ha, Hb in Hab.
      destruct Hab as [Hlt | [_ Hlt]]; [lia | exact Hlt].
    + intros d. rewrite filter_In, column_dates_In, pivot_dates_In, String.eqb_eq.
      tauto.
Qed.

End PipelineTheorems.

(** X13 at the season sample. *)
Lemma pivot_headers_fill_panels_witness :
  exists m,
    Quantity.run Samples.season_csv = Some m /\
    NoDup (map fst (Quantity.m_columns m)).
Proof.
  destruct (pivot_headers_fill_panels Samples.season_csv) as (m & Hrun & Hnd & _).
  - intros t Ht. cbn in Ht.
    repeat (destruct Ht as [<- | Ht]; [split; vm_compute; discriminate |]).
    destruct Ht.
  - exact season_distinct_headers.
  - exists m. split; [exact Hrun | exact Hnd].
Defined.


Section StringFacts.

Import Py.
Import GridPlots.
Import WebSpec.
Local Open Scope string_scope.

Lemma map_string_map_string (f g : ascii -> ascii) (s : string) :
  map_string f (map_string g s) = map_string (fun c => f (g c)) s.
Proof.
  induction s as [| c s IH]; cbn [map_string]; [reflexivity | now rewrite IH].
Qed.

Lemma map_string_ext_on (p : ascii -> bool) (f g : ascii -> ascii) (s : string) :
  forallb_string p s = true ->
  (forall c, p c = true -> f c = g c) ->
  map_string f s = map_string g s.
Proof.
  intros Hall Hfg. induction s as [| c s IH]; cbn [map_string]; [reflexivity |].
  cbn [forallb_string] in Hall. apply andb_true_iff in Hall as [Hc Hs].
  now rewrite (Hfg c Hc), IH.
Qed.

Lemma map_string_id_on (p : ascii -> bool) (f : ascii -> ascii) (s : string) :
  forallb_string p s = true ->
  (forall c, p c = true -> f c = c) ->
  map_string f s = s.
Proof.
  intros Hall Hf. induction s as [| c s IH]; cbn [map_string]; [reflexivity |].
  cbn [forallb_string] in Hall. apply andb_true_iff in Hall as [Hc Hs].
  now rewrite (Hf c Hc), IH.
Qed.

Lemma forallb_string_filter (p : ascii -> bool) (s : string) :
  forallb_string p (filter_string p s) = true.
Proof.
  induction s as [| c s IH]; cbn [filter_string]; [reflexivity |].
  destruct (p c) eqn:Hp; [| exact IH]. cbn [forallb_string]. now rewrite Hp.
Qed.

Lemma forallb_string_map (p : ascii -> bool) (f : ascii -> ascii) (s : string) :
  forallb_string p (map_string f s) = forallb_string (fun c => p (f c)) s.
Proof.
  induction s as [| c s IH]; cbn [map_string forallb_string];
    [reflexivity | now rewrite IH].
Qed.

Lemma forallb_string_impl (p q : ascii -> bool) (s : string) :
  (forall c, p c = true -> q c = true) ->
  forallb_string p s = true -> forallb_string q s = true.
Proof.
  intros Hpq. induction s as [| c s IH]; cbn [forallb_string]; [reflexivity |].
  intros H. apply andb_true_iff in H as [Hc Hs].
  now rewrite (Hpq c Hc), IH.
Qed.

Lemma filter_string_all (p : ascii -> bool) (s : string) :
  forallb_string p s = true -> filter_string p s = s.
Proof.
  induction s as [| c s IH]; cbn [filter_string forallb_string]; [reflexivity |].
  intros H. apply andb_true_iff in H as [Hc Hs]. now rewrite Hc, IH.
Qed.

Lemma forallb_string_get (p : ascii -> bool) (s : string) :
  forallb_string p s = true ->
  forall n c, String.get n s = Some c -> p c = true.
Proof.
  induction s as [| a s IH]; intros Hall n c; cbn [String.get];
    [discriminate |].
  cbn [forallb_string] in Hall. apply andb_true_iff in Hall as [Ha Hs].
  destruct n as [| n]; [intros [= <-]; exact Ha | now apply IH].
Qed.

Lemma prefix_get (pre s : string) :
  prefix pre s = true ->
  forall n c, String.get n pre = Some c -> String.get n s = Some c.
Proof.
  revert s. induction pre as [| a pre IH]; intros s Hp n c; cbn [String.get];
    [discriminate |].
  destruct s as [| b s]; cbn [prefix] in Hp; [discriminate |].
  destruct (ascii_dec a b) as [<- | _]; [| discriminate].
  destruct n as [| n]; cbn [String.get]; [trivial | now apply IH].
Qed.

(** A single-character replacement is a pointwise map. *)
Lemma replace_char (a b : ascii) (s : string) :
  replace (String a "") (String b "") s =
  map_string (fun c => if Ascii.eqb c a then b else c) s.
Proof.
  unfold replace.
  induction s as [| c s IH]; cbn [replace_from map_string]; [reflexivity |].
  cbn [prefix String.length Nat.sub].
  destruct (ascii_dec a c) as [Heq | Hne].
  - subst c. rewrite Ascii.eqb_refl.
    destruct s; cbn [append]; now rewrite <- IH.
  - destruct (Ascii.eqb_spec c a) as [-> | _]; [contradiction |].
    now rewrite IH.
Qed.

End StringFacts.

Section WebFacts.

Import Py.
Import GridPlots.
Import Web.
Import WebSpec.
Local Open Scope string_scope.

Local Abbreviation not_dot := (fun c : ascii => negb (Ascii.eqb c ".")).
Local Abbreviation not_space := (fun c : ascii => negb (Ascii.eqb c " ")).

Lemma safe_filename_map (item : string) :
  safe_filename item =
  map_string space_to_underscore (filter_string kept_char item).
Proof.
  unfold safe_filename. rewrite replace_space_underscore, re_sub_class_filter.
  f_equal. apply filter_string_ext. exact pattern_class_kept.
Qed.

Lemma space_to_underscore_eqb (c : ascii) :
  space_to_underscore c = if Ascii.eqb c " " then "_"%char else c.
Proof.
  unfold space_to_underscore.
  destruct (Nat.eqb_spec (ord c) 32) as [H32 | H32].
  - assert (Hc : c = " "%char) by (apply space_is_32; now apply Nat.eqb_eq).
    now subst c.
  - destruct (Ascii.eqb_spec c " ") as [-> | _]; [| reflexivity].
    exfalso. apply H32. reflexivity.
Qed.

Lemma kept_char_not_dot (c : ascii) : kept_char c = true -> not_dot c = true.
Proof.
  cbv beta. destruct (Ascii.eqb_spec c ".") as [-> | _]; [| reflexivity].
  vm_compute. discriminate.
Qed.

Lemma safe_filename_no_dot (item : string) :
  forallb_string not_dot (safe_filename item) = true.
Proof.
  rewrite safe_filename_map, forallb_string_map.
  apply forallb_string_impl with (p := kept_char); [| apply forallb_string_filter].
  intros c Hc. cbv beta. rewrite space_to_underscore_eqb.
  destruct (Ascii.eqb_spec c " ") as [_ | _]; [reflexivity |].
  now apply kept_char_not_dot.
Qed.

Lemma safe_filename_no_space (item : string) :
  forallb_string not_space (safe_filename item) = true.
Proof.
  rewrite safe_filename_map, forallb_string_map.
  apply forallb_string_impl with (p := fun _ => true).
  - intros c _. cbv beta. rewrite space_to_underscore_eqb.
    destruct (Ascii.eqb_spec c " ") as [_ | Hne]; [reflexivity |].
    now destruct (Ascii.eqb_spec c " ").
  - clear. induction (filter_string kept_char item) as [| c s IH];
      [reflexivity | exact IH].
Qed.

Lemma suffix_dot_place (n : nat) :
  String.get n "_grid_plot.png" = Some "."%char -> n = 10.
Proof.
  do 14 (destruct n as [| n]; [cbn; try discriminate; reflexivity |]).
  cbn. discriminate.
Qed.

Lemma suffix_not_prefix (c : ascii) (s : string) :
  forallb_string not_dot (String c s) = true ->
  prefix "_grid_plot.png" (String c s ++ "_grid_plot.png") = false.
Proof.
  intros Hall.
  destruct (prefix "_grid_plot.png" (String c s ++ "_grid_plot.png")) eqn:Hp;
    [exfalso | reflexivity].
  pose proof (prefix_get _ _ Hp 10 "."%char eq_refl) as Hget.
  destruct (Nat.lt_ge_cases 10 (String.length (String c s))) as [Hlt | Hge].
  - rewrite <- (append_correct1 _ "_grid_plot.png" _ Hlt) in Hget.
    pose proof (forallb_string_get _ _ Hall _ _ Hget) as Hdot.
    discriminate Hdot.
  - replace 10 with ((10 - String.length (String c s)) + String.length (String c s))
      in Hget by lia.
    rewrite <- append_correct2 in Hget.
    apply suffix_dot_place in Hget. cbn [String.length] in *. lia.
Qed.

(** Only the suffix goes when it is replaced by nothing in a saved file's
    name. *)
Lemma replace_suffix (s : string) :
  forallb_string not_dot s = true ->
  replace "_grid_plot.png" "" (s ++ "_grid_plot.png") = s.
Proof.
  unfold replace. induction s as [| c s IH]; intros Hall;
    [vm_compute; reflexivity |].
  change (String c s ++ "_grid_plot.png")
    with (String c (s ++ "_grid_plot.png")).
  cbn [replace_from].
  change (String c (s ++ "_grid_plot.png"))
    with (String c s ++ "_grid_plot.png").
  rewrite (suffix_not_prefix c s Hall).
  cbn [forallb_string] in Hall. apply andb_true_iff in Hall as [_ Hs].
  now rewrite IH.
Qed.

Lemma item_name_of_filename (item : string) :
  item_name_of (GridPlots.filename item) =
  map_string underscore_to_space (safe_filename item).
Proof.
  unfold item_name_of, GridPlots.filename.
  rewrite replace_suffix by apply safe_filename_no_dot.
  apply (replace_char "_" " ").
Qed.

Lemma ends_with_app (suffix s t : string) :
  ends_with suffix t = true -> ends_with suffix (s ++ t) = true.
Proof.
  intros Ht. induction s as [| c s IH]; [exact Ht |].
  cbn [append ends_with]. rewrite IH. apply orb_true_r.
Qed.

Lemma filename_in_glob (item : string) (entries : list string) :
  In (GridPlots.filename item) entries ->
  In (GridPlots.filename item) (glob_png entries).
Proof.
  intros Hin. apply filter_In. split; [exact Hin |].
  apply andb_true_iff. split.
  - unfold GridPlots.filename. now apply ends_with_app.
  - unfold GridPlots.filename.
    pose proof (safe_filename_no_dot item) as Hdot.
    destruct (safe_filename item) as [| c s]; [reflexivity |].
    cbn [forallb_string] in Hdot. apply andb_true_iff in Hdot as [Hc _].
    cbn [append prefix].
    destruct (ascii_dec "." c) as [<- | _]; [discriminate Hc | reflexivity].
Qed.

Lemma lower_char_slug (c : ascii) :
  not_space c = true ->
  space_to_underscore (lower_char (underscore_to_space c)) = lower_char c.
Proof.
  destruct c as [b0 b1 b2 b3 b4 b5 b6 b7].
  destruct b0, b1, b2, b3, b4, b5, b6, b7; vm_compute;
    first [reflexivity | discriminate].
Qed.

(** The slug of the name shown for a saved file is the lower-case form of
    the file's name without its suffix. *)
Lemma slug_of_saved (item : string) :
  replace " " "_" (lower (item_name_of (GridPlots.filename item))) =
  lower (safe_filename item).
Proof.
  rewrite item_name_of_filename, replace_space_underscore. unfold lower.
  rewrite !map_string_map_string.
  apply map_string_ext_on with (p := not_space);
    [apply safe_filename_no_space | exact lower_char_slug].
Qed.

Lemma find_exists {A : Type} (f : A -> bool) (l : list A) (x : A) :
  In x l -> f x = true -> exists y, find f l = Some y.
Proof.
  induction l as [| a l IH]; intros Hin Hf; [destruct Hin |].
  cbn [find]. destruct (f a) eqn:Ha; [now exists a |].
  destruct Hin as [-> | Hin]; [congruence | now apply IH].
Qed.

Lemma item_name_leb_total (a b : plot) :
  item_name_leb a b = true \/ item_name_leb b a = true.
Proof.
  unfold item_name_leb.
  destruct (String.leb_total (item_name a) (item_name b)) as [H | H];
    rewrite H; tauto.
Qed.

Lemma item_name_leb_trans (a b c : plot) :
  item_name_leb a b = true -> item_name_leb b c = true ->
  item_name_leb a c = true.
Proof. unfold item_name_leb. apply string_leb_trans. Qed.

End WebFacts.


Section WebTheorems.

Import Py.
Import GridPlots.
Import Web.
Import WebSpec.
Local Open Scope string_scope.

Lemma underscore_after_space (c : ascii) :
  underscore_to_space (space_to_underscore c) = underscore_to_space c.
Proof.
  rewrite space_to_underscore_eqb. unfold underscore_to_space.
  destruct (Ascii.eqb_spec c " ") as [-> | _]; reflexivity.
Qed.

(** X14.  The name the dashboard shows for the file [create_grid_plots]
    saves for an item: removing "_grid_plot.png" gives back the sanitized
    name exactly (the suffix occurs nowhere else in the file name), and the
    shown name is the item name with every character dropped that is neither
    a letter, a digit, an underscore, whitespace nor a hyphen, and with every
    underscore turned into a space.  For a name of letters, digits,
    whitespace and hyphens only, the dashboard shows the item name itself. *)
Theorem dashboard_name_of_saved_plot (item : string) :
  replace "_grid_plot.png" "" (GridPlots.filename item) = safe_filename item /\
  item_name_of (GridPlots.filename item) =
    map_string underscore_to_space (filter_string kept_char item) /\
  (plain_name item = true -> item_name_of (GridPlots.filename item) = item).
Proof.
  assert (Hshown : item_name_of (GridPlots.filename item) =
                   map_string underscore_to_space (filter_string kept_char item)).
  { rewrite item_name_of_filename, safe_filename_map, map_string_map_string.
    apply map_string_ext_on with (p := fun _ => true);
      [| intros c _; apply underscore_after_space].
    induction (filter_string kept_char item) as [| c s IH];
      [reflexivity | exact IH]. }
  split; [| split; [exact Hshown |]].
  - unfold GridPlots.filename. apply replace_suffix, safe_filename_no_dot.
  - intros Hplain. rewrite Hshown. unfold plain_name in Hplain.
    rewrite filter_string_all.
    + apply map_string_id_on with (p := fun c => negb (Ascii.eqb c "_")).
      * revert Hplain. apply forallb_string_impl.
        intros c Hc. now apply andb_true_iff in Hc as [_ Hc].
      * intros c Hc. unfold underscore_to_space.
        now destruct (Ascii.eqb c "_").
    + revert Hplain. apply forallb_string_impl.
      intros c Hc. now apply andb_true_iff in Hc as [Hc _].
Qed.

(** X15.  When the plot directory holds the file saved for an item, the item
    page is found under the sanitized name of the item in any
    capitalisation: [item_detail] answers with a plot of the directory whose
    shown name has that slug, and with the item's own plot when no other
    listed file has the same slug. *)
Theorem item_page_found_by_slug (entries : list string) (item slug : string) :
  In (GridPlots.filename item) entries ->
  lower slug = lower (safe_filename item) ->
  exists p,
    item_detail (Some entries) slug = Some p /\
    In (Web.filename p) entries /\
    p = plot_of (Web.filename p) /\
    replace " " "_" (lower (item_name p)) = lower (safe_filename item) /\
    ((forall name, In name (glob_png entries) ->
        replace " " "_" (lower (item_name_of name)) = lower (safe_filename item) ->
        name = GridPlots.filename item) ->
     p = plot_of (GridPlots.filename item)).
Proof.
  intros Hin Hslug. unfold item_detail, get_available_plots.
  assert (Hmine : In (plot_of (GridPlots.filename item))
                     (sort item_name_leb (map plot_of (glob_png entries)))).
  { apply sort_In, in_map. now apply filename_in_glob. }
  assert (Hmatch : slug_matches slug (plot_of (GridPlots.filename item)) = true).
  { unfold slug_matches. cbn [item_name plot_of].
    rewrite slug_of_saved, Hslug. apply String.eqb_refl. }
  destruct (find_exists _ _ _ Hmine Hmatch) as [p Hp].
  exists p. split; [exact Hp |].
  apply find_some in Hp as [Hp Hm].
  apply sort_In, in_map_iff in Hp as (name & <- & Hname).
  unfold slug_matches in Hm. cbn [item_name filename plot_of] in *.
  apply String.eqb_eq in Hm. rewrite Hslug in Hm.
  split; [| split; [reflexivity | split; [exact Hm |]]].
  - now apply filter_In in Hname as [Hname _].
  - intros Honly. now rewrite (Honly name Hname Hm).
Qed.

(** X16.  [get_available_plots] lists nothing when the plot directory is
    missing; otherwise it lists each entry of the directory that ends in
    ".png" and is not hidden, once per entry and no other, with the path of
    the entry inside the plot directory, in ascending order of the shown
    names (code point order). *)
Theorem available_plots_sorted (entries : list string) :
  get_available_plots None = [] /\
  Permutation (map Web.filename (get_available_plots (Some entries)))
              (glob_png entries) /\
  (forall name, In name (glob_png entries) <->
                In name entries /\ ends_with ".png" name = true /\
                prefix "." name = false) /\
  (forall p, In p (get_available_plots (Some entries)) ->
             item_name p = item_name_of (Web.filename p) /\
             path p = "../reports/grid_plots/" ++ Web.filename p) /\
  StronglySorted (fun a b => String.leb (item_name a) (item_name b) = true)
                 (get_available_plots (Some entries)).
Proof.
  split; [reflexivity |]. unfold get_available_plots.
  split; [| split; [| split]].
  - rewrite (Permutation_map Web.filename (sort_perm item_name_leb _)).
    rewrite map_map. cbn [Web.filename plot_of]. now rewrite map_id.
  - intros name. unfold glob_png. rewrite filter_In, andb_true_iff, negb_true_iff.
    tauto.
  - intros p Hp. apply sort_In, in_map_iff in Hp as (name & <- & _).
    split; reflexivity.
  - apply (sort_sorted item_name_leb item_name_leb_total item_name_leb_trans).
Qed.

End WebTheorems.

(** X15 at the plot of "Egg Tart", asked for in capitals. *)
Lemma item_page_found_by_slug_witness :
  exists p,
    Web.item_detail (Some ["Latte_grid_plot.png"; "Egg_Tart_grid_plot.png"]%string)
                    "EGG_TART" = Some p /\
    Web.item_name p = "Egg Tart"%string.
Proof.
  destruct (item_page_found_by_slug
              ["Latte_grid_plot.png"; "Egg_Tart_grid_plot.png"]%string
              "Egg Tart" "EGG_TART")
    as (p & Hp & _ & _ & _ & Hown).
  - right. left. reflexivity.
  - reflexivity.
  - exists p. split; [exact Hp |].
    rewrite Hown; [reflexivity |].
    intros name [<- | [<- | []]] Hm; [discriminate Hm | reflexivity].
Defined.


Section FetcherFacts.

Import Py.
Import Calendar.
Import DateColumns.
Import SquareFetcher.
Import SquareFetcherSpec.
Local Open Scope string_scope.
Local Open Scope Z_scope.

(** The quantity already stored, or the 0 a [defaultdict(float)] starts
    from. *)
Local Abbreviation stored := (fun v : option Z => match v with Some q => q | None => 0 end).

Lemma dict_lookup_cons {V : Type} (k' : string) (v : V) (d : list (string * V))
  (k : string) :
  dict_lookup ((k', v) :: d) k =
  if String.eqb k' k then Some v else dict_lookup d k.
Proof.
  unfold dict_lookup. cbn [find fst snd]. now destruct (String.eqb k' k).
Qed.

Lemma dict_lookup_add_to (dates : list (string * Z)) (d d' : string) (q : Z) :
  dict_lookup (add_to dates d q) d' =
  if String.eqb d d' then Some (stored (dict_lookup dates d) + q)
  else dict_lookup dates d'.
Proof.
  induction dates as [| [k v] dates IH]; cbn [add_to].
  - rewrite dict_lookup_cons. reflexivity.
  - rewrite !dict_lookup_cons.
    destruct (String.eqb_spec k d) as [-> | Hkd]; rewrite !dict_lookup_cons.
    + rewrite ?String.eqb_refl. now destruct (String.eqb d d').
    + rewrite IH. destruct (String.eqb_spec d d') as [<- | Hdd].
      * destruct (String.eqb_spec k d) as [-> | _]; [contradiction | reflexivity].
      * reflexivity.
Qed.

Lemma quantity_of_add_sale (s : sales) (i d i' d' : string) (q : Z) :
  quantity_of (add_sale s i d q) i' d' =
  if String.eqb i i' && String.eqb d d'
  then Some (stored (quantity_of s i d) + q)
  else quantity_of s i' d'.
Proof.
  unfold quantity_of.
  induction s as [| [k dates] s IH]; cbn [add_sale].
  - rewrite dict_lookup_cons.
    destruct (String.eqb i i'); cbn [andb]; [| reflexivity].
    rewrite (dict_lookup_add_to [] d d' q).
    now destruct (String.eqb d d').
  - rewrite !dict_lookup_cons.
    destruct (String.eqb_spec k i) as [-> | Hki]; rewrite !dict_lookup_cons.
    + rewrite ?String.eqb_refl.
      destruct (String.eqb i i'); cbn [andb]; [| reflexivity].
      rewrite dict_lookup_add_to. reflexivity.
    + destruct (String.eqb_spec i i') as [<- | Hii]; cbn [andb].
      * destruct (String.eqb_spec k i) as [-> | _]; [contradiction |].
        rewrite IH, ?String.eqb_refl. reflexivity.
      * destruct (String.eqb k i'); [reflexivity |].
        rewrite IH. destruct (String.eqb_spec i i'); [contradiction | reflexivity].
Qed.

Lemma add_to_total (dates : list (string * Z)) (d : string) (q : Z) :
  sum (map snd (add_to dates d q)) = sum (map snd dates) + q.
Proof.
  induction dates as [| [k v] dates IH]; cbn [add_to map snd].
  - rewrite sum_cons, !sum_nil. lia.
  - destruct (String.eqb k d); cbn [map snd]; rewrite !sum_cons; [lia |].
    rewrite IH. lia.
Qed.

Lemma add_sale_total (s : sales) (i d : string) (q : Z) :
  total_quantity (add_sale s i d q) = total_quantity s + q.
Proof.
  unfold total_quantity.
  induction s as [| [k dates] s IH]; cbn [add_sale map snd].
  - rewrite sum_cons, !sum_nil, (add_to_total [] d q). cbn [map]. rewrite sum_nil. lia.
  - destruct (String.eqb k i); cbn [map snd]; rewrite !sum_cons.
    + rewrite add_to_total. lia.
    + rewrite IH. lia.
Qed.

Lemma add_sale_keys (s : sales) (i d : string) (q : Z) (x : string) :
  In x (map fst (add_sale s i d q)) <-> x = i \/ In x (map fst s).
Proof.
  induction s as [| [k dates] s IH]; cbn [add_sale map fst In].
  - intuition congruence.
  - destruct (String.eqb_spec k i) as [-> | Hki]; cbn [map fst In].
    + intuition congruence.
    + rewrite IH. intuition congruence.
Qed.

Lemma add_sale_NoDup (s : sales) (i d : string) (q : Z) :
  NoDup (map fst s) -> NoDup (map fst (add_sale s i d q)).
Proof.
  induction s as [| [k dates] s IH]; cbn [add_sale map fst]; intros Hnd.
  - repeat constructor. intros [].
  - inversion Hnd as [| ? ? Hnot Hrest]; subst.
    destruct (String.eqb_spec k i) as [-> | Hki]; cbn [map fst].
    + now constructor.
    + constructor; [| now apply IH].
      rewrite add_sale_keys. intros [-> | Hin]; [congruence | contradiction].
Qed.

Lemma process_item_sales (key : string) (s : sales) (li : line_item) :
  process_item key s li = fold_left store (item_sales key li) s.
Proof.
  unfold process_item, item_sales.
  destruct (li_name li) as [[| c name] |]; [| | reflexivity].
  - destruct (li_quantity li); reflexivity.
  - destruct (li_quantity li) as [q |]; [| reflexivity].
    cbn [String.eqb negb andb]. destruct (0 <? q); reflexivity.
Qed.

Lemma fold_left_flat_map {A B S : Type} (f : S -> B -> S) (g : A -> list B)
  (l : list A) :
  forall s, fold_left f (flat_map g l) s =
            fold_left (fun s x => fold_left f (g x) s) l s.
Proof.
  induction l as [| x l IH]; intros s; cbn [flat_map fold_left]; [reflexivity |].
  now rewrite fold_left_app, IH.
Qed.

Lemma process_order_sales (o : order) (s : sales) :
  process_order o s = fold_left store (order_sales o) s.
Proof.
  unfold process_order, order_sales.
  destruct (created_at o) as [d |]; [| reflexivity].
  rewrite fold_left_flat_map. revert s.
  induction (line_items o) as [| li items IH]; intros s; cbn [fold_left];
    [reflexivity |].
  now rewrite process_item_sales, IH.
Qed.

Lemma process_orders_sales (orders : list order) :
  forall s, process_orders orders s = fold_left store (sales_of orders) s.
Proof.
  unfold process_orders, sales_of. intros s. rewrite fold_left_flat_map. revert s.
  induction orders as [| o orders IH]; intros s; cbn [fold_left]; [reflexivity |].
  now rewrite process_order_sales, IH.
Qed.

Lemma stored_quantity (ps : list sale) (i d : string) :
  forall s,
    quantity_of (fold_left store ps s) i d =
    match filter (sale_at i d) ps with
    | [] => quantity_of s i d
    | found => Some (stored (quantity_of s i d) + sum (map snd found))
    end.
Proof.
  induction ps as [| [[pi pd] pq] ps IH]; intros s; cbn [fold_left filter];
    [reflexivity |].
  change (store s (pi, pd, pq)) with (add_sale s pi pd pq).
  rewrite IH, quantity_of_add_sale.
  change (sale_at i d (pi, pd, pq)) with (String.eqb pi i && String.eqb pd d).
  destruct (String.eqb pi i && String.eqb pd d) eqn:Hat.
  - apply andb_true_iff in Hat as [Hi Hd].
    apply String.eqb_eq in Hi, Hd. subst pi pd.
    cbn [map snd]. rewrite sum_cons.
    destruct (filter (sale_at i d) ps) as [| p found]; cbn [map].
    + rewrite sum_nil. f_equal. lia.
    + f_equal. lia.
  - reflexivity.
Qed.

Lemma stored_total (ps : list sale) :
  forall s, total_quantity (fold_left store ps s) =
            total_quantity s + sum (map snd ps).
Proof.
  induction ps as [| p ps IH]; intros s; cbn [fold_left map].
  - rewrite sum_nil. lia.
  - rewrite IH, sum_cons. unfold store. rewrite add_sale_total. lia.
Qed.

Lemma stored_NoDup (ps : list sale) :
  forall s, NoDup (map fst s) -> NoDup (map fst (fold_left store ps s)).
Proof.
  induction ps as [| p ps IH]; intros s Hnd; cbn [fold_left]; [exact Hnd |].
  apply IH. now apply add_sale_NoDup.
Qed.

Lemma sales_positive (orders : list order) (p : sale) :
  In p (sales_of orders) -> 0 < snd p.
Proof.
  unfold sales_of, order_sales. intros Hin.
  apply in_flat_map in Hin as (o & _ & Hin).
  destruct (created_at o) as [d |]; [| destruct Hin].
  apply in_flat_map in Hin as (li & _ & Hin).
  unfold item_sales in Hin.
  destruct (li_name li) as [name |]; [| destruct Hin].
  destruct (li_quantity li) as [q |]; [| destruct Hin].
  destruct (negb (String.eqb name "")); cbn [andb] in Hin; [| destruct Hin].
  destruct (Z.ltb_spec 0 q) as [Hq | _]; [| destruct Hin].
  destruct Hin as [<- | []]. exact Hq.
Qed.

Lemma sum_positive (l : list Z) :
  l <> [] -> (forall q, In q l -> 0 < q) -> 0 < sum l.
Proof.
  induction l as [| q l IH]; intros Hne Hall; [contradiction |].
  rewrite sum_cons. specialize (Hall q (or_introl eq_refl)) as Hq.
  destruct l as [| q' l]; [rewrite sum_nil; lia |].
  assert (0 < sum (q' :: l)); [| lia].
  apply IH; [discriminate |]. intros x Hx. apply Hall. now right.
Qed.

End FetcherFacts.


Section FetcherTheorems.

Import Py.
Import Calendar.
Import Quantity.
Import DateColumns.
Import DateColumnsSpec.
Import SquareFetcher.
Import SquareFetcherSpec.
Local Open Scope string_scope.

Lemma two_digits_numeral (n : Z) :
  (0 <= n)%Z ->
  exists u, two_digits n = NilEmpty.string_of_uint u /\
            u <> Decimal.Nil /\ Z.of_N (Pos.of_uint u) = n.
Proof.
  intros Hn. destruct (str_int_numeral n Hn) as (u & Hu & Hnil & Hv).
  unfold two_digits. destruct (n <? 10)%Z.
  - exists (Decimal.D0 u). rewrite Hu. repeat split; [discriminate | exact Hv].
  - now exists u.
Qed.

Lemma two_digits_value (n : Z) : (0 <= n)%Z -> int_digits (two_digits n) = n.
Proof.
  intros Hn. destruct (two_digits_numeral n Hn) as (u & -> & _ & Hv).
  now rewrite numeral_value.
Qed.

(** The pattern of [parse_date_columns] on two numerals and a weekday
    name. *)
Lemma match_label_numerals (um ud : Decimal.uint) (d : Timestamp) :
  um <> Decimal.Nil -> ud <> Decimal.Nil ->
  match_label (NilEmpty.string_of_uint um ++ "/" ++ NilEmpty.string_of_uint ud ++
               " - " ++ day_name d) =
  Some (NilEmpty.string_of_uint um, NilEmpty.string_of_uint ud, day_name d).
Proof.
  intros Hnm Hnd.
  destruct (numeral_nonempty um Hnm) as (cm & sm & Hcm).
  destruct (numeral_nonempty ud Hnd) as (cd & sd & Hcd).
  destruct (day_name_word d) as (cw & sw & Hcw & Hspan).
  unfold match_label.
  change ("/" ++ NilEmpty.string_of_uint ud ++ " - " ++ day_name d)
    with (String "/" (NilEmpty.string_of_uint ud ++ " - " ++ day_name d)).
  rewrite numeral_span by reflexivity.
  rewrite Hcm. rewrite <- Hcm.
  change (" - " ++ day_name d) with (String " " ("- " ++ day_name d)).
  rewrite numeral_span by reflexivity.
  rewrite Hcd. rewrite <- Hcd.
  change (String " " ("- " ++ day_name d)) with (" - " ++ day_name d).
  rewrite strip_prefix_app, Hspan. cbn [fst]. rewrite Hcw. reflexivity.
Qed.

Lemma match_label_date_key (d : Timestamp) :
  (0 <= Calendar.month d)%Z -> (0 <= Calendar.day d)%Z ->
  match_label (date_key d) =
  Some (two_digits (Calendar.month d), two_digits (Calendar.day d), day_name d).
Proof.
  intros Hm Hd. unfold date_key.
  destruct (two_digits_numeral _ Hm) as (um & -> & Hnm & _).
  destruct (two_digits_numeral _ Hd) as (ud & -> & Hnd & _).
  now apply match_label_numerals.
Qed.

Lemma two_digits_plain (n : Z) : (0 <= n)%Z -> two_digits n = str_int n -> (10 <= n)%Z.
Proof.
  intros Hn. unfold two_digits. destruct (Z.ltb_spec n 10) as [Hlt | Hge];
    [| intros _; exact Hge].
  intros Heq. apply (f_equal String.length) in Heq. cbn [append String.length] in Heq.
  lia.
Qed.

(** X17.  The date key the Square fetcher writes for a calendar date is
    read by [parse_date_columns] as the month, the day and the weekday name
    of that date, exactly as the header the pivot writes for it, although
    the key zero-pads month and day: the two texts are the same exactly when
    month and day both have two digits. *)
Theorem fetcher_key_reads_as_pivot_header (d : Timestamp) :
  calendar_date d ->
  fst (parse_date_columns [date_key d]) =
    [mkDateInfo (date_key d) (Calendar.month d) (Calendar.day d) (day_name d)] /\
  fst (parse_date_columns [format_header d]) =
    [mkDateInfo (format_header d) (Calendar.month d) (Calendar.day d) (day_name d)] /\
  label_weekday (date_key d) = Some (day_name d) /\
  match_month_day (date_key d) =
    Some (two_digits (Calendar.month d) ++ "/" ++ two_digits (Calendar.day d)) /\
  (date_key d = format_header d <->
   (10 <= Calendar.month d)%Z /\ (10 <= Calendar.day d)%Z).
Proof.
  intros [Hmonth Hday].
  assert (Hm : (0 <= Calendar.month d)%Z) by lia.
  assert (Hd : (0 <= Calendar.day d)%Z) by lia.
  pose proof (match_label_date_key d Hm Hd) as Hkey.
  pose proof (match_label_header d Hm Hd) as Hheader.
  split; [| split; [| split; [| split]]].
  - unfold parse_date_columns. rewrite parse_fold. cbn [fst flat_map app].
    unfold info_of. rewrite Hkey. cbn [app].
    now rewrite !two_digits_value.
  - unfold parse_date_columns. rewrite parse_fold. cbn [fst flat_map app].
    unfold info_of. rewrite Hheader. cbn [app].
    now rewrite !str_int_value.
  - unfold label_weekday. now rewrite Hkey.
  - unfold match_month_day. now rewrite Hkey.
  - split.
    + intros Heq. rewrite Heq, Hheader in Hkey. injection Hkey as H1 H2.
      split; apply two_digits_plain; auto.
    + intros [H1 H2]. unfold date_key, format_header, two_digits.
      destruct (Z.ltb_spec (Calendar.month d) 10); [lia |].
      destruct (Z.ltb_spec (Calendar.day d) 10); [lia | reflexivity].
Qed.


Lemma qty_geb_total (a b : string * Z) : qty_geb a b = true \/ qty_geb b a = true.
Proof. unfold qty_geb. rewrite !Z.leb_le. lia. Qed.

Lemma qty_geb_trans (a b c : string * Z) :
  qty_geb a b = true -> qty_geb b c = true -> qty_geb a c = true.
Proof. unfold qty_geb. rewrite !Z.leb_le. lia. Qed.

Lemma StronglySorted_app_parts {A : Type} (R : A -> A -> Prop) (l1 l2 : list A) :
  StronglySorted R (l1 ++ l2) ->
  StronglySorted R l1 /\ (forall a b, In a l1 -> In b l2 -> R a b).
Proof.
  induction l1 as [| x l1 IH]; cbn [app]; intros H.
  - split; [constructor | intros a b []].
  - apply StronglySorted_inv in H as [Hs Hall]. destruct (IH Hs) as [Hs1 Hcross].
    rewrite Forall_forall in Hall. split.
    + constructor; [exact Hs1 |]. rewrite Forall_forall.
      intros y Hy. apply Hall, in_or_app. now left.
    + intros a b [<- | Ha] Hb; [| now apply Hcross].
      apply Hall, in_or_app. now right.
Qed.

(** X19.  The "top 5" of [print_summary] lists five items, or all of them
    when there are fewer, each with the total of its quantities, in
    descending order of the totals, and no item left out has a larger total
    than a listed one. *)
Theorem top_items_are_best_sellers (sales_data : sales) :
  List.length (top_items sales_data) = Nat.min 5 (List.length sales_data) /\
  StronglySorted (fun a b => (snd b <= snd a)%Z) (top_items sales_data) /\
  exists others,
    Permutation (map item_total sales_data) (top_items sales_data ++ others) /\
    forall a b, In a (top_items sales_data) -> In b others -> (snd b <= snd a)%Z.
Proof.
  unfold top_items.
  pose proof (sort_sorted qty_geb qty_geb_total qty_geb_trans
                (map item_total sales_data)) as Hsorted.
  rewrite <- (firstn_skipn 5 (sort qty_geb (map item_total sales_data)))
    in Hsorted.
  apply StronglySorted_app_parts in Hsorted as [Htop Hcross].
  split; [| split].
  - rewrite length_firstn, sort_length, length_map. reflexivity.
  - revert Htop. apply StronglySorted_weaken_In.
    intros a b _ _ Hab. unfold qty_geb in Hab. now apply Z.leb_le.
  - exists (skipn 5 (sort qty_geb (map item_total sales_data))). split.
    + rewrite firstn_skipn. symmetry. apply sort_perm.
    + intros a b Ha Hb. specialize (Hcross a b Ha Hb).
      unfold qty_geb in Hcross. now apply Z.leb_le.
Qed.

End FetcherTheorems.

(** X17 at Tuesday 21 January 2025. *)
Lemma fetcher_key_reads_as_pivot_header_witness :
  DateColumns.match_month_day
    (SquareFetcher.date_key (Calendar.mkTimestamp 2025 1 21)) = Some "01/21"%string.
Proof.
  destruct (fetcher_key_reads_as_pivot_header (Calendar.mkTimestamp 2025 1 21))
    as (_ & _ & _ & H & _).
  - split; cbn; lia.
  - exact H.
Defined.


Section RowTheorems.

Import Py.
Import Calendar.
Import Quantity.
Local Open Scope string_scope.

Lemma clean_item_name_fixed (x : string) :
  clean_item_name (clean_item_name x) = clean_item_name x.
Proof.
  unfold clean_item_name at 2 3.
  destruct (dict_get reverse_mapping x) as [target |] eqn:Hget.
  - apply dict_get_In in Hget.
    pose proof targets_fixed_checked as H. rewrite forallb_forall in H.
    now apply String.eqb_eq, H.
  - unfold clean_item_name. now rewrite Hget.
Qed.

Lemma daily_qty_passing (csv : list Transaction) (d : Timestamp) (i : string) (q : Z) :
  In ((d, i), q) (daily_qty (load_transaction_data csv)) ->
  exists t, In t csv /\ passes_filters t = true /\
            t_Date t = d /\ clean_item_name (t_Item t) = i.
Proof.
  unfold daily_qty. rewrite groupby_sum_In, group_keys_In, df_filtered_load.
  intros [(r & Hr & Hk) _].
  apply in_map_iff in Hr as (t & <- & Ht). apply filter_In in Ht as [Ht Hp].
  exists t. unfold row_key in Hk. cbn in Hk.
  repeat split; [exact Ht | exact Hp | congruence | congruence].
Qed.

(** X20.  The rows of the matrix: every row name is the cleaned name of a
    transaction of one of the four categories whose date is no Monday; it is
    a name that cleaning leaves as it is, so a listed variant other than its
    target never heads a row; it holds no seasonal or special marker; and the
    rows come in strictly ascending order of their names (code point
    order). *)
Theorem matrix_rows_are_clean_names (csv : list Transaction) :
  exists m,
    run csv = Some m /\
    StronglySorted (fun a b => String.leb a b = true /\ a <> b) (m_index m) /\
    forall i, In i (m_index m) ->
      clean_item_name i = i /\
      is_special i = false /\
      (forall target sources,
         In (target, sources) item_mappings -> In i sources -> i = target) /\
      exists t,
        In t csv /\ clean_item_name (t_Item t) = i /\
        isin (t_Category t) target_categories = true /\
        day_name (t_Date t) <> "Monday".
Proof.
  eexists. split; [apply run_select |]. cbn [m_index].
  set (agg := daily_qty (load_transaction_data csv)).
  split.
  - apply StronglySorted_strict with (R := fun a b => String.leb a b = true);
      [tauto | apply pivot_items_NoDup |].
    unfold pivot_items. apply sort_sorted;
      [exact String.leb_total | exact string_leb_trans].
  - intros i Hi. apply pivot_items_In in Hi as (d & q & Hin).
    apply daily_qty_passing in Hin as (t & Ht & Hp & _ & Hi).
    unfold passes_filters in Hp.
    apply andb_true_iff in Hp as [Hp Hspecial].
    apply andb_true_iff in Hp as [Hcat Hday].
    apply negb_true_iff in Hspecial. apply negb_true_iff in Hday.
    assert (Hfixed : clean_item_name i = i)
      by (rewrite <- Hi; apply clean_item_name_fixed).
    split; [exact Hfixed |]. split; [now rewrite <- Hi |]. split.
    + intros target sources Hentry Hsrc.
      rewrite <- Hfixed. now apply clean_listed with sources.
    + exists t. repeat split; try assumption.
      intros Hmon. rewrite Hmon in Hday. discriminate Hday.
Qed.

End RowTheorems.
